(** * lol-dashboard: the statistics module [calculate_stats.py] and the
    fetching of the matches

    A shallow embedding of [src/calculate_stats.py], of [src/utils.py]
    ([get_queue_name], [QUEUE_NAMES], [format_duration], [BASE_URLS],
    [ENDPOINTS]) and of [src/fetch_matches.py] ([RiotAPIClient],
    [process_match_data], [fetch_new_matches], the merge of [main]), and the
    proofs of their specification.

    The development has these layers.
    - [Py]: the fragment of the Python run time the module relies on: [str]
      methods, [int(str)], [str(int)], true division and [round] on binary64
      floats, exceptions.
    - The functions of the module as functions on values: [filter_matches],
      [calculate_champion_stats], [get_recent_matches],
      [get_available_patches], [get_available_modes].
    - [Heap]: the same functions as programs over a store of Python objects,
      where lists and dicts are shared by reference and updated in place.
    - [Utils], [Riot] and [Fetch]: the constants and [format_duration] of
      [utils.py], the answers of the Riot API as records whose fields may be
      absent, and the functions of [fetch_matches.py] over them; the network
      is a script of answers or a function of the URL, and a loop
      [while True] takes fuel. *)

From Stdlib Require Import ZArith QArith Qround Qabs Lia String Ascii DecimalString
  DecimalZ OrderedTypeEx.
From stdpp Require Import base option list gmap sets strings sorting.

Local Open Scope Z_scope.

(** * Python run time *)

Module Py.

(** ** Exceptions *)

(** The exceptions the module can meet: a subscript [d[k]] on a dict without
    the key [k], a true division of integers by zero or with a quotient
    beyond the range of a float, and the [ValueError] of [str(n)] for an
    [int] of too many digits. (The [ValueError] of [int(s)] is caught where
    it is raised, in [filter_matches], and is the [None] of [int] below.)
    [TypeError] stands for every operation on an object of the wrong kind:
    only the programs of [Heap] raise it, on a store that does not hold a
    list of matches. *)
Inductive exn : Type :=
  | KeyError (key : string)
  | ZeroDivisionError
  | OverflowError
  | ValueError
  | TypeError.

Inductive result (A : Type) : Type :=
  | Ok (a : A)
  | Raise (e : exn).
Arguments Ok {A} a.
Arguments Raise {A} e.

#[global] Instance result_ret : MRet result := fun A a => Ok a.
#[global] Instance result_bind : MBind result := fun A B f r =>
  match r with
  | Ok a => f a
  | Raise e => Raise e
  end.
#[global] Instance result_fmap : FMap result := fun A B f r =>
  match r with
  | Ok a => Ok (f a)
  | Raise e => Raise e
  end.

(** ** [str]

    A [str] is modelled by its UTF-8 bytes. Equality, [startswith],
    [replace], [split] on an ASCII separator and the order [<] of two [str]
    (by code points) are the same on the bytes as on the code points. *)

(** [s.startswith(p)] *)
Definition startswith (s p : string) : bool := String.prefix p s.

(** [s.replace(old, new)] for a non-empty [old]: the occurrences of [old] are
    found from left to right and do not overlap. [skip] counts the characters
    of an occurrence that are still to be dropped. *)
Fixpoint replace_from (old new : string) (skip : nat) (s : string) : string :=
  match s with
  | EmptyString => EmptyString
  | String c s' =>
      match skip with
      | S k => replace_from old new k s'
      | O =>
          if String.prefix old s
          then new +:+ replace_from old new (Nat.pred (String.length old)) s'
          else String c (replace_from old new O s')
      end
  end.

Definition replace (s old new : string) : string := replace_from old new O s.

(** [s.split(sep)] for a one-character separator: never the empty list. *)
Fixpoint split (sep : ascii) (s : string) : list string :=
  match s with
  | EmptyString => [EmptyString]
  | String c s' =>
      if Ascii.eqb c sep then EmptyString :: split sep s'
      else match split sep s' with
           | p :: ps => String c p :: ps
           | [] => [String c EmptyString]
           end
  end.

(** [sub in s] *)
Fixpoint contains (sub s : string) : bool :=
  String.prefix sub s ||
  match s with
  | EmptyString => false
  | String _ s' => contains sub s'
  end.

(** ** [int(s)] and [str(n)]

    [int(s)] in base 10, as CPython 3.11 reads a [str] (with the tables of
    Unicode 14.0). The characters beyond ASCII are turned into ASCII first:
    a space into [" "], a decimal digit of any script into the ASCII digit
    of its value, and the first character that is neither into ["?"], where
    the text ends. What is read then is optional white space, an optional
    sign, decimal digits with single underscores between them, and optional
    white space; at most [max_str_digits] digits. [None] is [ValueError]. *)

(** The code points of a [str], from its UTF-8 bytes (a surrogate that a
    [str] holds is taken in the three bytes of its number). Bytes that are
    not the UTF-8 of a code point, among them the forms that are longer than
    needed and the numbers beyond U+10FFFF, stand for no [str]: they give
    [no_char], which is no character. *)
Definition no_char : Z := 1114112.

Fixpoint code_points_from (more : nat) (least acc : Z) (s : string)
    : list Z :=
  match s with
  | EmptyString => match more with O => [] | S _ => [no_char] end
  | String c s' =>
      let b := Z.of_nat (nat_of_ascii c) in
      match more with
      | O =>
          if b <? 128 then b :: code_points_from O 0 0 s'
          else if b <? 192 then no_char :: code_points_from O 0 0 s'
          else if b <? 224 then code_points_from 1 128 (b - 192) s'
          else if b <? 240 then code_points_from 2 2048 (b - 224) s'
          else if b <? 248 then code_points_from 3 65536 (b - 240) s'
          else no_char :: code_points_from O 0 0 s'
      | S more' =>
          if (128 <=? b) && (b <? 192) then
            let acc := 64 * acc + (b - 128) in
            match more' with
            | O =>
                (if (least <=? acc) && (acc <? no_char) then acc
                 else no_char)
                :: code_points_from O 0 0 s'
            | S _ => code_points_from more' least acc s'
            end
          else no_char :: code_points_from O 0 0 s'
      end
  end.

Definition code_points (s : string) : list Z := code_points_from O 0 0 s.

(** [Py_UNICODE_ISSPACE]: the characters that [str.isspace] accepts. *)
Definition is_unicode_space (ch : Z) : bool :=
  ((9 <=? ch) && (ch <=? 13)) || ((28 <=? ch) && (ch <=? 32))
  || (ch =? 133) || (ch =? 160) || (ch =? 5760)
  || ((8192 <=? ch) && (ch <=? 8202)) || (ch =? 8232) || (ch =? 8233)
  || (ch =? 8239) || (ch =? 8287) || (ch =? 12288).

(** The digits zero of the scripts of Unicode 14.0: the nine code points
    after each of them are its digits from one to nine. *)
Definition decimal_zeros : list Z :=
  [
    48; 1632; 1776; 1984; 2406; 2534; 2662; 2790;
    2918; 3046; 3174; 3302; 3430; 3558; 3664; 3792;
    3872; 4160; 4240; 6112; 6160; 6470; 6608; 6784;
    6800; 6992; 7088; 7232; 7248; 42528; 43216; 43264;
    43472; 43504; 43600; 44016; 65296; 66720; 68912; 69734;
    69872; 69942; 70096; 70384; 70736; 70864; 71248; 71360;
    71472; 71904; 72016; 72784; 73040; 73120; 92768; 92864;
    93008; 120782; 120792; 120802; 120812; 120822; 123200; 123632;
    125264; 130032 ].

(** [Py_UNICODE_TODECIMAL] *)
Definition to_decimal (ch : Z) : option Z :=
  (fun zero => ch - zero)
  <$> List.find (fun zero => (zero <=? ch) && (ch <? zero + 10))
        decimal_zeros.

Definition is_ascii (s : string) : bool :=
  forallb (fun c => (nat_of_ascii c <? 128)%nat) (list_ascii_of_string s).

(** What [int] does to a [str] before it reads it: an ASCII [str] is left
    as it is. *)
Fixpoint decimal_and_space_to_ascii (chars : list Z) : string :=
  match chars with
  | [] => EmptyString
  | ch :: chars' =>
      if ch <? 127 then
        String (ascii_of_nat (Z.to_nat ch)) (decimal_and_space_to_ascii chars')
      else if is_unicode_space ch then
        String " " (decimal_and_space_to_ascii chars')
      else
        match to_decimal ch with
        | Some d =>
            String (ascii_of_nat (Z.to_nat (48 + d)))
              (decimal_and_space_to_ascii chars')
        | None => "?"
        end
  end.

Definition to_ascii (s : string) : string :=
  if is_ascii s then s else decimal_and_space_to_ascii (code_points s).

(** The default of [sys.get_int_max_str_digits()]. *)
Definition max_str_digits : nat := 4300.

Definition is_space (c : ascii) : bool :=
  let n := nat_of_ascii c in
  ((9 <=? n)%nat && (n <=? 13)%nat) || (n =? 32)%nat.

Definition digit_value (c : ascii) : option Z :=
  let n := Z.of_nat (nat_of_ascii c) in
  if (48 <=? n) && (n <=? 57) then Some (n - 48) else None.

Fixpoint lstrip (s : string) : string :=
  match s with
  | String c s' => if is_space c then lstrip s' else s
  | EmptyString => EmptyString
  end.

Fixpoint all_space (s : string) : bool :=
  match s with
  | String c s' => is_space c && all_space s'
  | EmptyString => true
  end.

(** The digits after the first one: [prev_us] tells that the previous
    character was an underscore. *)
Fixpoint int_digits (acc : Z) (prev_us : bool) (s : string) : option Z :=
  match s with
  | EmptyString => if prev_us then None else Some acc
  | String c s' =>
      match digit_value c with
      | Some d => int_digits (10 * acc + d) false s'
      | None =>
          if Ascii.eqb c "_" then
            if prev_us then None else int_digits acc true s'
          else if prev_us then None
          else if all_space s then Some acc else None
      end
  end.

Fixpoint count_digits (s : string) : nat :=
  match s with
  | EmptyString => O
  | String c s' =>
      match digit_value c with
      | Some _ => S (count_digits s')
      | None => count_digits s'
      end
  end.

Definition unsigned_int (s : string) : option Z :=
  match s with
  | String c _ =>
      match digit_value c with
      | Some _ =>
          if (count_digits s <=? max_str_digits)%nat
          then int_digits 0 false s
          else None
      | None => None
      end
  | EmptyString => None
  end.

(** An ASCII [str] read as an [int]. *)
Definition long_from_string (s : string) : option Z :=
  match lstrip s with
  | String "+" s' => unsigned_int s'
  | String "-" s' => Z.opp <$> unsigned_int s'
  | s' => unsigned_int s'
  end.

Definition int (s : string) : option Z := long_from_string (to_ascii s).

(** The decimal digits of [n], with its sign. *)
Definition str (n : Z) : string := NilZero.string_of_int (Z.to_int n).

(** [str(n)], and [n] in an f-string: [ValueError] for an [int] of more than
    [max_str_digits] digits. *)
Definition str_of_int (n : Z) : result string :=
  let s := str n in
  if (count_digits s <=? max_str_digits)%nat then Ok s else Raise ValueError.

(** ** [float]

    A finite binary64 float is modelled by the rational it denotes, in lowest
    terms (so that two floats are equal exactly when the rationals are; the
    sign of zero is not kept). [rnd64] rounds a rational to the nearest
    binary64 float, ties to even: 53 bits of precision, least exponent
    [-1074]. The largest exponent is checked where Python checks it. *)

Definition float : Type := Q.

Definition pow2 (e : Z) : Q :=
  if 0 <=? e then inject_Z (2 ^ e) else (1 # Z.to_pos (2 ^ (- e)))%Q.

(** The integer nearest to [x], the even one of the two at a tie. *)
Definition round_half_even (x : Q) : Z :=
  let f := Qfloor x in
  match ((x - inject_Z f) ?= (1 # 2))%Q with
  | Lt => f
  | Gt => f + 1
  | Eq => if Z.even f then f else f + 1
  end.

(** [floor (log2 x)] for [0 < x]. *)
Definition ilog2 (x : Q) : Z :=
  let k := Z.log2 (Qnum x) - Z.log2 (Zpos (Qden x)) in
  if Qle_bool (pow2 k) x then k else k - 1.

Definition rnd64 (x : Q) : float :=
  if Qeq_bool x 0 then 0%Q
  else
    let e := Z.max (ilog2 (Qabs x) - 52) (-1074) in
    Qred (inject_Z (round_half_even (x / pow2 e)) * pow2 e).

(** [a / b] on two [int]: the quotient correctly rounded, [OverflowError]
    when it is too large for a float. *)
Definition truediv (a b : Z) : result float :=
  if b =? 0 then Raise ZeroDivisionError
  else
    let r := rnd64 (inject_Z a / inject_Z b) in
    if Qle_bool (pow2 1024) (Qabs r) then Raise OverflowError else Ok r.

(** [x * n] for a float [x] and an [int] [n] that is a float exactly. The
    product is finite at its call site, where [x] is in [[0, 1]] and [n] is
    100 (see [rate_bounds]). *)
Definition fmul (x : float) (n : Z) : float := rnd64 (x * inject_Z n).

(** [round(x, ndigits)] on a float, [0 <= ndigits]: the decimal with
    [ndigits] places nearest to [x] (ties to even), as a float. *)
Definition round_ndigits (x : float) (ndigits : Z) : float :=
  let p := inject_Z (10 ^ ndigits) in
  rnd64 (inject_Z (round_half_even (x * p)) / p).

(** [round(x)] on a float: an [int]. *)
Definition round (x : float) : Z := round_half_even x.

(** A number that is an [int] on one path and a [float] on another. *)
Inductive num : Type :=
  | Int (n : Z)
  | Float (x : float).

Definition num_value (v : num) : Q :=
  match v with
  | Int n => inject_Z n
  | Float x => x
  end.

(** ** [sorted] and [list.sort]

    Python's sort is stable, also with [reverse=True]: elements with equal
    keys keep their order. A stable sort by a key has one result only, which
    the insertion sort below computes. [before a b] tells that [a] may stand
    in front of [b]. *)

Section Sort.
Context {A : Type} (before : A → A → bool).

Fixpoint insert_sorted (x : A) (l : list A) : list A :=
  match l with
  | [] => [x]
  | y :: l' => if before x y then x :: l else y :: insert_sorted x l'
  end.

Definition stable_sort (l : list A) : list A := foldr insert_sorted [] l.
End Sort.

(** [sorted(l, key=key, reverse=reverse)], where [le] is the order [<=] of
    the keys. *)
Definition sorted {A K} (le : K → K → bool) (key : A → K) (reverse : bool)
    (l : list A) : list A :=
  stable_sort
    (fun a b => if reverse then le (key b) (key a) else le (key a) (key b)) l.

(** [l[:n]] *)
Definition slice_to {A} (l : list A) (n : Z) : list A :=
  if n <? 0 then take (Z.to_nat (Z.of_nat (length l) + n)) l
  else take (Z.to_nat n) l.

End Py.

(** * Data model *)

(** The value under a key of a dict read from JSON: the key may be absent,
    and its value may be [None]. *)
Inductive entry (A : Type) : Type :=
  | Absent
  | Null
  | Value (a : A).
Arguments Absent {A}.
Arguments Null {A}.
Arguments Value {A} a.

(** [match["myData"]], the fields that the statistics read. *)
Record MyData : Type := {
  championName : string;
  win : bool;
  kills : Z;
  deaths : Z;
  assists : Z;
  totalDamageDealtToChampions : Z;
  totalDamageTaken : Z
}.

(** A match record. The module reads [gameVersion] and [queueId] with
    [dict.get] in one place and with a subscript in another: these two keys
    may be absent ([None] and [Absent]), and [queueId] may be [None] ([Null]).
    The other keys are read with subscripts only and are always there. The
    keys that the module never reads ([gameDuration], [allPlayers], the items
    and runes of [myData]) are left out. *)
Record Match : Type := {
  matchId : string;
  gameCreation : Z;
  queueId : entry Z;
  gameVersion : option string;
  myData : MyData
}.

(** The dict that [calculate_champion_stats] keeps per champion while it
    reads the matches. *)
Record Aggregate : Type := {
  agg_championName : string;
  agg_games : Z;
  agg_wins : Z;
  agg_totalKills : Z;
  agg_totalDeaths : Z;
  agg_totalAssists : Z;
  agg_totalDamageDealt : Z;
  agg_totalDamageTaken : Z
}.

(** An element of the list that [calculate_champion_stats] returns. *)
Record ChampionStats : Type := {
  stat_championName : string;
  games : Z;
  wins : Z;
  losses : Z;
  winRate : Py.num;
  totalKills : Z;
  totalDeaths : Z;
  totalAssists : Z;
  avgKDA : Py.float;
  avgDamageDealt : Z;
  avgDamageTaken : Z
}.

(** An element of the list that [get_available_modes] returns. *)
Record Mode : Type := {
  mode_id : string;
  mode_name : string
}.

(** ** The clock

    A naive local [datetime]: the day as [date.toordinal()] and the time of
    day in microseconds. *)
Record datetime : Type := {
  ordinal : Z;
  microsecond_of_day : Z
}.

(** [d.weekday()]: Monday is 0. *)
Definition weekday (d : datetime) : Z := (ordinal d + 6) mod 7.

(** [d - timedelta(days=n)] *)
Definition minus_days (d : datetime) (n : Z) : datetime :=
  {| ordinal := ordinal d - n; microsecond_of_day := microsecond_of_day d |}.

(** [d.replace(hour=0, minute=0, second=0, microsecond=0)] *)
Definition at_midnight (d : datetime) : datetime :=
  {| ordinal := ordinal d; microsecond_of_day := 0 |}.

(** [int(d.timestamp() * 1000)] on a host whose local time is UTC, for a
    [d] at a whole second (where the product of floats is exact): day 719163
    is 1970-01-01. It is the clock of the samples below. *)
Definition utc_timestamp_ms (d : datetime) : Z :=
  (ordinal d - 719163) * 86400000 + microsecond_of_day d / 1000.

(** ** Dicts in insertion order

    A Python dict iterates in the order in which its keys were first set. *)
Definition dict (V : Type) : Type := list (string * V).

Fixpoint dict_get {V} (d : dict V) (k : string) : option V :=
  match d with
  | [] => None
  | (k', v) :: d' => if String.eqb k' k then Some v else dict_get d' k
  end.

(** [d[k] = v] *)
Fixpoint dict_set {V} (d : dict V) (k : string) (v : V) : dict V :=
  match d with
  | [] => [(k, v)]
  | (k', v') :: d' =>
      if String.eqb k' k then (k', v) :: d' else (k', v') :: dict_set d' k v
  end.

(** * The module [calculate_stats] on values *)

Module Stats.

(** [QUEUE_NAMES] of [utils.py] *)
Definition QUEUE_NAMES : gmap Z string :=
  list_to_map
    [ (420, "ランクソロ/デュオ");
      (440, "ランクフレックス");
      (400, "ノーマル（ドラフト）");
      (430, "ノーマル（ブラインド）");
      (450, "ARAM");
      (1700, "Arena");
      (1900, "URF") ].

(** [get_queue_name] of [utils.py]: the f-string of the default is made
    before [QUEUE_NAMES.get] is called. *)
Definition get_queue_name (queue_id : Z) : Py.result string :=
  digits ← Py.str_of_int queue_id;
  mret (default ("その他 (" +:+ digits +:+ ")") (QUEUE_NAMES !! queue_id)).

(** [m["gameVersion"]] and [m["queueId"]] *)
Definition subscript_gameVersion (m : Match) : Py.result string :=
  match gameVersion m with
  | Some v => Py.Ok v
  | None => Py.Raise (Py.KeyError "gameVersion")
  end.

Definition subscript_queueId (m : Match) : Py.result (option Z) :=
  match queueId m with
  | Value q => Py.Ok (Some q)
  | Null => Py.Ok None
  | Absent => Py.Raise (Py.KeyError "queueId")
  end.

(** [[m for m in l if cond(m)]], where [cond] may raise. *)
Fixpoint comprehension {A} (cond : A → Py.result bool) (l : list A)
    : Py.result (list A) :=
  match l with
  | [] => Py.Ok []
  | m :: l' =>
      b ← cond m;
      r ← comprehension cond l';
      Py.Ok (if b : bool then m :: r else r)
  end.

Section WithClock.
(** [int(d.timestamp() * 1000)] for a naive local [d]: it depends on the
    time zone of the host. *)
Context (timestamp_ms : datetime → Z).

(** The period filter of [filter_matches], where [now] is what
    [datetime.now()] returns when the branch reads the clock. *)
Definition period_filter (now : datetime) (filtered : list Match)
    (period : string) : Py.result (list Match) :=
  if negb (String.eqb period "all") then
    if Py.startswith period "patch_" then
      let patch_version := Py.replace period "patch_" "" in
      comprehension
        (fun m => v ← subscript_gameVersion m;
                  Py.Ok (Py.startswith v patch_version))
        filtered
    else if String.eqb period "this_week" then
      let monday := minus_days now (weekday now) in
      let monday_start := at_midnight monday in
      let threshold := timestamp_ms monday_start in
      Py.Ok (List.filter (fun m => threshold <=? gameCreation m) filtered)
    else if String.eqb period "last_week" then
      let this_monday := minus_days now (weekday now) in
      let this_monday_start := at_midnight this_monday in
      let last_monday := minus_days this_monday_start 7 in
      let start_threshold := timestamp_ms last_monday in
      let end_threshold := timestamp_ms this_monday_start in
      Py.Ok (List.filter
               (fun m => (start_threshold <=? gameCreation m)
                         && (gameCreation m <? end_threshold))
               filtered)
    else if String.eqb period "last_30_days" then
      let thirty_days_ago := minus_days now 30 in
      let threshold := timestamp_ms thirty_days_ago in
      Py.Ok (List.filter (fun m => threshold <=? gameCreation m) filtered)
    else if String.eqb period "last_7_days" then
      let seven_days_ago := minus_days now 7 in
      let threshold := timestamp_ms seven_days_ago in
      Py.Ok (List.filter (fun m => threshold <=? gameCreation m) filtered)
    else Py.Ok filtered
  else Py.Ok filtered.

(** The mode filter of [filter_matches]: [int(mode)] raises [ValueError]
    inside the [try], and the handler passes. *)
Definition mode_filter (filtered : list Match) (mode : string)
    : Py.result (list Match) :=
  if negb (String.eqb mode "all") then
    match Py.int mode with
    | Some queue_id =>
        comprehension
          (fun m => q ← subscript_queueId m;
                    Py.Ok (bool_decide (q = Some queue_id)))
          filtered
    | None => Py.Ok filtered
    end
  else Py.Ok filtered.

(** [filter_matches(matches, period, mode)] *)
Definition filter_matches (now : datetime) (matches : list Match)
    (period mode : string) : Py.result (list Match) :=
  let filtered := matches in
  filtered ← period_filter now filtered period;
  mode_filter filtered mode.

(** The dict of a champion that is met for the first time. *)
Definition new_aggregate (champion_name : string) : Aggregate :=
  {| agg_championName := champion_name;
     agg_games := 0;
     agg_wins := 0;
     agg_totalKills := 0;
     agg_totalDeaths := 0;
     agg_totalAssists := 0;
     agg_totalDamageDealt := 0;
     agg_totalDamageTaken := 0 |}.

(** The updates of [agg] in the body of the first loop. *)
Definition add_match (agg : Aggregate) (my_data : MyData) : Aggregate :=
  {| agg_championName := agg_championName agg;
     agg_games := agg_games agg + 1;
     agg_wins := if win my_data then agg_wins agg + 1 else agg_wins agg;
     agg_totalKills := agg_totalKills agg + kills my_data;
     agg_totalDeaths := agg_totalDeaths agg + deaths my_data;
     agg_totalAssists := agg_totalAssists agg + assists my_data;
     agg_totalDamageDealt :=
       agg_totalDamageDealt agg + totalDamageDealtToChampions my_data;
     agg_totalDamageTaken :=
       agg_totalDamageTaken agg + totalDamageTaken my_data |}.

(** The body of the first loop. The key is in the dict when it is read
    back. *)
Definition accumulate (champion_aggregates : dict Aggregate) (m : Match)
    : dict Aggregate :=
  let my_data := myData m in
  let champion_name := championName my_data in
  let champion_aggregates :=
    match dict_get champion_aggregates champion_name with
    | None =>
        dict_set champion_aggregates champion_name
          (new_aggregate champion_name)
    | Some _ => champion_aggregates
    end in
  match dict_get champion_aggregates champion_name with
  | Some agg =>
      dict_set champion_aggregates champion_name (add_match agg my_data)
  | None => champion_aggregates
  end.

(** [round(v, 1)] and [round(v)] on an [int] or a [float]. *)
Definition round_num (v : Py.num) (ndigits : Z) : Py.num :=
  match v with
  | Py.Int n => Py.Int n
  | Py.Float x => Py.Float (Py.round_ndigits x ndigits)
  end.

Definition round_int (v : Py.num) : Z :=
  match v with
  | Py.Int n => n
  | Py.Float x => Py.round x
  end.

(** The body of the second loop. *)
Definition champion_stat (item : string * Aggregate)
    : Py.result ChampionStats :=
  let '(champion_name, agg) := item in
  let games := agg_games agg in
  let wins := agg_wins agg in
  let losses := games - wins in
  let total_kills := agg_totalKills agg in
  let total_deaths := agg_totalDeaths agg in
  let total_assists := agg_totalAssists agg in
  win_rate ←
    (if 0 <? games
     then r ← Py.truediv wins games; Py.Ok (Py.Float (Py.fmul r 100))
     else Py.Ok (Py.Int 0));
  avg_kda ←
    Py.truediv (total_kills + total_assists)
      (if total_deaths =? 0 then 1 else total_deaths);
  avg_damage_dealt ←
    (if 0 <? games
     then Py.Float <$> Py.truediv (agg_totalDamageDealt agg) games
     else Py.Ok (Py.Int 0));
  avg_damage_taken ←
    (if 0 <? games
     then Py.Float <$> Py.truediv (agg_totalDamageTaken agg) games
     else Py.Ok (Py.Int 0));
  Py.Ok
    {| stat_championName := champion_name;
       games := games;
       wins := wins;
       losses := losses;
       winRate := round_num win_rate 1;
       totalKills := total_kills;
       totalDeaths := total_deaths;
       totalAssists := total_assists;
       avgKDA := Py.round_ndigits avg_kda 2;
       avgDamageDealt := round_int avg_damage_dealt;
       avgDamageTaken := round_int avg_damage_taken |}.

(** [calculate_champion_stats(matches, period, mode)] *)
Definition calculate_champion_stats (now : datetime) (matches : list Match)
    (period mode : string) : Py.result (list ChampionStats) :=
  filtered_matches ← filter_matches now matches period mode;
  match filtered_matches with
  | [] => Py.Ok []
  | _ =>
      let champion_aggregates := foldl accumulate [] filtered_matches in
      champion_stats ← mapM champion_stat champion_aggregates;
      Py.Ok (Py.sorted Z.leb games true champion_stats)
  end.
End WithClock.

(** [get_recent_matches(matches, count)] *)
Definition get_recent_matches (matches : list Match) (count : Z)
    : list Match :=
  let sorted_matches := Py.sorted Z.leb gameCreation true matches in
  Py.slice_to sorted_matches count.

(** The patch of a match, when its version has two segments or more. *)
Definition patch_of (m : Match) : option string :=
  let game_version := default "" (gameVersion m) in
  match Py.split "." game_version with
  | p0 :: p1 :: _ => Some (p0 +:+ "." +:+ p1)
  | _ => None
  end.

(** [get_available_patches(matches)]. The order in which a set is iterated
    does not show: its elements are distinct and they are sorted. *)
Definition get_available_patches (matches : list Match) : list string :=
  match matches with
  | [] => []
  | _ =>
      let patches : gset string :=
        foldl (fun patches m =>
                 match patch_of m with
                 | Some patch => patches ∪ {[ patch ]}
                 | None => patches
                 end) ∅ matches in
      let sorted_patches :=
        Py.sorted String.leb (fun p : string => p) true (elements patches) in
      Py.slice_to sorted_patches 5
  end.

(** The dict [mode] that the second loop of [get_available_modes] makes
    of a queue id. *)
Definition make_mode (queue_id : Z) : Py.result Mode :=
  id ← Py.str_of_int queue_id;
  name ← get_queue_name queue_id;
  mret {| mode_id := id; mode_name := name |}.

(** [get_available_modes(matches)] *)
Definition get_available_modes (matches : list Match)
    : Py.result (list Mode) :=
  match matches with
  | [] => mret []
  | _ =>
      let queue_ids : gset Z :=
        foldl (fun queue_ids m =>
                 match queueId m with
                 | Value queue_id => queue_ids ∪ {[ queue_id ]}
                 | _ => queue_ids
                 end) ∅ matches in
      let sorted_queue_ids :=
        Py.sorted Z.leb (fun q : Z => q) false (elements queue_ids) in
      mapM make_mode sorted_queue_ids
  end.

End Stats.

(** * The module [calculate_stats] on a store of objects

    Python lists and dicts are objects that are shared by reference and
    updated in place. Here the functions of the module are programs over a
    store: they take and return references, allocate the objects they build
    and update them where the source does. *)

Module Heap.

Definition loc : Type := positive.

(** What a list holds: a reference to an object, or a [str] or an [int]
    (which cannot be updated and are kept as values). *)
Inductive val : Type :=
  | Ref (l : loc)
  | Str (s : string)
  | Num (n : Z).

Inductive obj : Type :=
  | OList (items : list val)
  | OMatch (m : Match)
  | OAggregates (d : dict loc)
  | OAggregate (agg : Aggregate)
  | OStats (s : ChampionStats)
  | OMode (m : Mode)
  | OStrSet (s : gset string)
  | OIntSet (s : gset Z).

Abbreviation store := (gmap loc obj).

(** A program returns a value or raises, and leaves a store in both cases. *)
Definition M (A : Type) : Type := store → Py.result A * store.

#[global] Instance M_ret : MRet M := fun A a σ => (Py.Ok a, σ).
#[global] Instance M_bind : MBind M := fun A B f c σ =>
  match c σ with
  | (Py.Ok a, σ') => f a σ'
  | (Py.Raise e, σ') => (Py.Raise e, σ')
  end.

Definition lift {A} (r : Py.result A) : M A := fun σ => (r, σ).

Definition type_error {A} : M A := lift (Py.Raise Py.TypeError).

(** A new object, at a location that is not in use. *)
Definition alloc (o : obj) : M loc := fun σ =>
  let l := fresh (dom σ) in (Py.Ok l, <[l:=o]> σ).

Definition load (l : loc) : M obj := fun σ =>
  match σ !! l with
  | Some o => (Py.Ok o, σ)
  | None => (Py.Raise Py.TypeError, σ)
  end.

(** An update in place. *)
Definition store_at (l : loc) (o : obj) : M unit := fun σ =>
  (Py.Ok (), <[l:=o]> σ).

Definition load_list (l : loc) : M (list val) :=
  o ← load l;
  match o with OList items => mret items | _ => type_error end.

Definition load_ref (v : val) : M obj :=
  match v with Ref l => load l | _ => type_error end.

Definition load_match (v : val) : M Match :=
  o ← load_ref v;
  match o with OMatch m => mret m | _ => type_error end.

Definition load_aggregates (l : loc) : M (dict loc) :=
  o ← load l;
  match o with OAggregates d => mret d | _ => type_error end.

Definition load_aggregate (l : loc) : M Aggregate :=
  o ← load l;
  match o with OAggregate agg => mret agg | _ => type_error end.

Definition load_stats (v : val) : M ChampionStats :=
  o ← load_ref v;
  match o with OStats s => mret s | _ => type_error end.

Definition load_str_set (l : loc) : M (gset string) :=
  o ← load l;
  match o with OStrSet s => mret s | _ => type_error end.

Definition load_int_set (l : loc) : M (gset Z) :=
  o ← load l;
  match o with OIntSet s => mret s | _ => type_error end.

(** [for x in items: body(x)] *)
Fixpoint for_each {A} (items : list A) (body : A → M unit) : M unit :=
  match items with
  | [] => mret ()
  | x :: items' => body x;; for_each items' body
  end.

(** The elements of [[v for v in items if cond(v)]] *)
Fixpoint keep (cond : Match → Py.result bool) (items : list val)
    : M (list val) :=
  match items with
  | [] => mret []
  | v :: items' =>
      m ← load_match v;
      b ← lift (cond m);
      r ← keep cond items';
      mret (if b : bool then v :: r else r)
  end.

(** [[m for m in l if cond(m)]]: a new list. *)
Definition comprehension (cond : Match → Py.result bool) (l : loc) : M loc :=
  items ← load_list l;
  kept ← keep cond items;
  alloc (OList kept).

(** [sorted(l, key=..., reverse=True)] on a list of references, where
    [load_key] reads the key of an element. *)
Definition sorted_reverse (load_key : val → M Z) (items : list val)
    : M (list val) :=
  keyed ← mapM (fun v => k ← load_key v; mret (v, k)) items;
  mret (fst <$> Py.sorted Z.leb snd true keyed).

Section WithClock.
Context (timestamp_ms : datetime → Z).

(** The period filter of [filter_matches]: each list comprehension builds a
    new list. *)
Definition period_filter (now : datetime) (filtered : loc)
    (period : string) : M loc :=
  if negb (String.eqb period "all") then
    if Py.startswith period "patch_" then
      let patch_version := Py.replace period "patch_" "" in
      comprehension
        (fun m => v ← Stats.subscript_gameVersion m;
                  Py.Ok (Py.startswith v patch_version))
        filtered
    else if String.eqb period "this_week" then
      let monday := minus_days now (weekday now) in
      let monday_start := at_midnight monday in
      let threshold := timestamp_ms monday_start in
      comprehension (fun m => Py.Ok (threshold <=? gameCreation m)) filtered
    else if String.eqb period "last_week" then
      let this_monday := minus_days now (weekday now) in
      let this_monday_start := at_midnight this_monday in
      let last_monday := minus_days this_monday_start 7 in
      let start_threshold := timestamp_ms last_monday in
      let end_threshold := timestamp_ms this_monday_start in
      comprehension
        (fun m => Py.Ok ((start_threshold <=? gameCreation m)
                         && (gameCreation m <? end_threshold)))
        filtered
    else if String.eqb period "last_30_days" then
      let thirty_days_ago := minus_days now 30 in
      let threshold := timestamp_ms thirty_days_ago in
      comprehension (fun m => Py.Ok (threshold <=? gameCreation m)) filtered
    else if String.eqb period "last_7_days" then
      let seven_days_ago := minus_days now 7 in
      let threshold := timestamp_ms seven_days_ago in
      comprehension (fun m => Py.Ok (threshold <=? gameCreation m)) filtered
    else mret filtered
  else mret filtered.

(** The mode filter of [filter_matches] *)
Definition mode_filter (filtered : loc) (mode : string) : M loc :=
  if negb (String.eqb mode "all") then
    match Py.int mode with
    | Some queue_id =>
        comprehension
          (fun m => q ← Stats.subscript_queueId m;
                    Py.Ok (bool_decide (q = Some queue_id)))
          filtered
    | None => mret filtered
    end
  else mret filtered.

(** [filtered = matches.copy()] is a new list with the same elements. *)
Definition filter_matches (now : datetime) (matches : loc)
    (period mode : string) : M loc :=
  items ← load_list matches;
  filtered ← alloc (OList items);
  filtered ← period_filter now filtered period;
  mode_filter filtered mode.

(** The body of the first loop of [calculate_champion_stats]: the dict of
    the champion is allocated when the name is new, and updated in place (the
    seven updates of [agg] are one update here). *)
Definition accumulate (champion_aggregates : loc) (v : val) : M unit :=
  m ← load_match v;
  let my_data := myData m in
  let champion_name := championName my_data in
  d ← load_aggregates champion_aggregates;
  (match dict_get d champion_name with
   | None =>
       a ← alloc (OAggregate (Stats.new_aggregate champion_name));
       store_at champion_aggregates (OAggregates (dict_set d champion_name a))
   | Some _ => mret ()
   end);;
  d ← load_aggregates champion_aggregates;
  match dict_get d champion_name with
  | Some a =>
      agg ← load_aggregate a;
      store_at a (OAggregate (Stats.add_match agg my_data))
  | None => lift (Py.Raise (Py.KeyError champion_name))
  end.

(** The body of the second loop: a new dict, appended to the list. *)
Definition append_stat (champion_stats : loc) (item : string * loc)
    : M unit :=
  agg ← load_aggregate item.2;
  s ← lift (Stats.champion_stat (item.1, agg));
  stat ← alloc (OStats s);
  l ← load_list champion_stats;
  store_at champion_stats (OList (l ++ [Ref stat])).

(** [calculate_champion_stats]: [champion_stats.sort] updates the list in
    place. *)
Definition calculate_champion_stats (now : datetime) (matches : loc)
    (period mode : string) : M loc :=
  filtered_matches ← filter_matches now matches period mode;
  items ← load_list filtered_matches;
  match items with
  | [] => alloc (OList [])
  | _ =>
      champion_aggregates ← alloc (OAggregates []);
      for_each items (accumulate champion_aggregates);;
      champion_stats ← alloc (OList []);
      d ← load_aggregates champion_aggregates;
      for_each d (append_stat champion_stats);;
      l ← load_list champion_stats;
      l ← sorted_reverse (fun v => s ← load_stats v; mret (games s)) l;
      store_at champion_stats (OList l);;
      mret champion_stats
  end.
End WithClock.

(** [get_recent_matches]: [sorted] and the slice build a new list each. *)
Definition get_recent_matches (matches : loc) (count : Z) : M loc :=
  items ← load_list matches;
  items ← sorted_reverse (fun v => m ← load_match v; mret (gameCreation m))
             items;
  sorted_matches ← alloc (OList items);
  items ← load_list sorted_matches;
  alloc (OList (Py.slice_to items count)).

(** The body of the loop of [get_available_patches] *)
Definition add_patch (patches : loc) (v : val) : M unit :=
  m ← load_match v;
  match Stats.patch_of m with
  | Some patch =>
      s ← load_str_set patches;
      store_at patches (OStrSet (s ∪ {[ patch ]}))
  | None => mret ()
  end.

Definition get_available_patches (matches : loc) : M loc :=
  items ← load_list matches;
  match items with
  | [] => alloc (OList [])
  | _ =>
      patches ← alloc (OStrSet ∅);
      for_each items (add_patch patches);;
      s ← load_str_set patches;
      sorted_patches ←
        alloc (OList (Str <$> Py.sorted String.leb (fun p : string => p) true
                                 (elements s)));
      items ← load_list sorted_patches;
      alloc (OList (Py.slice_to items 5))
  end.

(** The bodies of the two loops of [get_available_modes] *)
Definition add_queue_id (queue_ids : loc) (v : val) : M unit :=
  m ← load_match v;
  match queueId m with
  | Value queue_id =>
      s ← load_int_set queue_ids;
      store_at queue_ids (OIntSet (s ∪ {[ queue_id ]}))
  | _ => mret ()
  end.

Definition append_mode (modes : loc) (v : val) : M unit :=
  match v with
  | Num queue_id =>
      id ← lift (Py.str_of_int queue_id);
      name ← lift (Stats.get_queue_name queue_id);
      mode ← alloc (OMode {| mode_id := id; mode_name := name |});
      l ← load_list modes;
      store_at modes (OList (l ++ [Ref mode]))
  | _ => type_error
  end.

Definition get_available_modes (matches : loc) : M loc :=
  items ← load_list matches;
  match items with
  | [] => alloc (OList [])
  | _ =>
      queue_ids ← alloc (OIntSet ∅);
      for_each items (add_queue_id queue_ids);;
      s ← load_int_set queue_ids;
      sorted_queue_ids ←
        alloc (OList (Num <$> Py.sorted Z.leb (fun q : Z => q) false
                                 (elements s)));
      modes ← alloc (OList []);
      items ← load_list sorted_queue_ids;
      for_each items (append_mode modes);;
      mret modes
  end.

(** ** Reading a store *)

(** What a store holds at a reference, for each kind of object. *)
Definition as_match (o : obj) : option Match :=
  match o with OMatch m => Some m | _ => None end.

Definition as_stats (o : obj) : option ChampionStats :=
  match o with OStats s => Some s | _ => None end.

Definition as_mode (o : obj) : option Mode :=
  match o with OMode m => Some m | _ => None end.

Definition read_ref {A} (as_A : obj → option A) (σ : store) (v : val)
    : option A :=
  match v with
  | Ref l => σ !! l ≫= as_A
  | _ => None
  end.

Abbreviation read_match := (read_ref as_match).
Abbreviation read_stats := (read_ref as_stats).
Abbreviation read_mode := (read_ref as_mode).

Definition read_str (σ : store) (v : val) : option string :=
  match v with Str s => Some s | _ => None end.

(** The value of the list at [l], when each of its elements reads as [rd]
    tells. *)
Definition read_list {A} (rd : store → val → option A) (σ : store) (l : loc)
    : option (list A) :=
  match σ !! l with
  | Some (OList items) => mapM (rd σ) items
  | _ => None
  end.

(** The outcome of a program and of the function on values agree: the list
    that the program returns is new and holds the value of the function. *)
Definition agrees {A} (rd : store → val → option A) (σ0 : store)
    (expected : Py.result (list A)) (r : Py.result loc) (σ : store) : Prop :=
  σ0 ⊆ σ ∧
  match expected with
  | Py.Ok out => ∃ l, r = Py.Ok l ∧ σ0 !! l = None ∧ read_list rd σ l = Some out
  | Py.Raise e => r = Py.Raise e
  end.

(** ** Programs and their outcomes

    [wp c σ Q]: the program [c], run in the store [σ], ends in a result and a
    store that satisfy [Q]. *)
Definition wp {A} (c : M A) (σ : store) (Q : Py.result A → store → Prop)
    : Prop :=
  Q (c σ).1 (c σ).2.

(** What a call returned, read in the store it left. *)
Definition outcome {A} (rd : store → val → option A)
    (out : Py.result loc * store) : option (Py.result (list A)) :=
  match out.1 with
  | Py.Ok l => Py.Ok <$> read_list rd out.2 l
  | Py.Raise e => Some (Py.Raise e)
  end.

(** The call [c] in the store [σ] leaves the list of matches at [matches]
    and every object of [σ] as they were, and returns a new list. *)
Definition input_kept (σ : store) (matches : loc) (ms : list Match)
    (out : Py.result loc * store) : Prop :=
  σ ⊆ out.2 ∧
  read_list read_match out.2 matches = Some ms ∧
  ∀ l, out.1 = Py.Ok l → σ !! l = None.

End Heap.

(** * Definitions for the statements *)

Import Stats.

(** The champion of a match. *)
Definition champion (m : Match) : string := championName (myData m).

(** The index of the first match of a champion. *)
Definition first_index (name : string) (l : list Match) : option nat :=
  fst <$> list_find (λ m, champion m = name) l.

Definition sum_Z (l : list Z) : Z := foldr Z.add 0 l.

(** What the dict holds after the matches [l]. *)
Record aggregates_of (l : list Match) (d : dict Aggregate) : Prop := {
  agg_NoDup : NoDup d.*1;
  agg_keys : ∀ n, n ∈ d.*1 ↔ n ∈ champion <$> l;
  agg_order : ∀ n1 n2, [n1; n2] `sublist_of` d.*1 →
    ∃ p q, first_index n1 l = Some p ∧ first_index n2 l = Some q ∧ (p < q)%nat;
  agg_counts : ∀ n a, (n, a) ∈ d → 1 ≤ agg_games a ∧ 0 ≤ agg_wins a ≤ agg_games a;
  agg_total : sum_Z ((agg_games ∘ snd) <$> d) = Z.of_nat (length l)
}.

(** The statistics of a match, which the specification takes from the
    natural numbers, and their sum over a list of matches. *)
Definition stats_sum (my_data : MyData) : Z :=
  kills my_data + deaths my_data + assists my_data
  + totalDamageDealtToChampions my_data + totalDamageTaken my_data.

Definition nonneg_stats (m : Match) : Prop :=
  0 ≤ kills (myData m) ∧ 0 ≤ deaths (myData m) ∧ 0 ≤ assists (myData m) ∧
  0 ≤ totalDamageDealtToChampions (myData m) ∧
  0 ≤ totalDamageTaken (myData m).

Definition stats_total (l : list Match) : Z :=
  sum_Z ((stats_sum ∘ myData) <$> l).

(** The sums of a dict of a champion are natural numbers and add up to
    [bound] at most. *)
Definition totals_within (bound : Z) (agg : Aggregate) : Prop :=
  0 ≤ agg_totalKills agg ∧ 0 ≤ agg_totalDeaths agg ∧
  0 ≤ agg_totalAssists agg ∧ 0 ≤ agg_totalDamageDealt agg ∧
  0 ≤ agg_totalDamageTaken agg ∧
  agg_totalKills agg + agg_totalDeaths agg + agg_totalAssists agg
  + agg_totalDamageDealt agg + agg_totalDamageTaken agg ≤ bound.

(** A patch as the game numbers it, the [X.Y] of a period [patch_X.Y]:
    digits and dots. *)
Fixpoint patch_number (v : string) : bool :=
  match v with
  | EmptyString => true
  | String c v' =>
      (bool_decide (is_Some (Py.digit_value c)) || Ascii.eqb c ".")
      && patch_number v'
  end.

(** The test of the patch filter on a match that has a version. *)
Definition version_startswith (v : string) (m : Match) : bool :=
  match gameVersion m with
  | Some g => Py.startswith g v
  | None => false
  end.

(** The periods that [filter_matches] knows. *)
Definition known_period (period : string) : bool :=
  String.eqb period "all" || Py.startswith period "patch_"
  || String.eqb period "this_week" || String.eqb period "last_week"
  || String.eqb period "last_30_days" || String.eqb period "last_7_days".

(** A match with the two keys that are read by a subscript. *)
Definition has_keys (m : Match) : Prop :=
  is_Some (gameVersion m) ∧ queueId m ≠ Absent.

(** The periods that are relative to the clock. *)
Definition clock_period (period : string) : bool :=
  String.eqb period "this_week" || String.eqb period "last_week"
  || String.eqb period "last_30_days" || String.eqb period "last_7_days".

(** The sets that the loops of [get_available_patches] and
    [get_available_modes] build from the set [acc]. *)
Definition patches_of (matches : list Match) (acc : gset string) : gset string :=
  foldl (fun patches m =>
           match patch_of m with
           | Some patch => patches ∪ {[ patch ]}
           | None => patches
           end) acc matches.

Definition queue_ids_of (matches : list Match) (acc : gset Z) : gset Z :=
  foldl (fun queue_ids m =>
           match queueId m with
           | Value queue_id => queue_ids ∪ {[ queue_id ]}
           | _ => queue_ids
           end) acc matches.

(** A queue id whose digits [str] returns. *)
Definition within_str_digits (queue_id : Z) : Prop :=
  (Py.count_digits (Py.str queue_id) ≤ Py.max_str_digits)%nat.

(** The name of a queue: that of the table, or the id in the text for the
    other queues. *)
Definition queue_name (queue_id : Z) : string :=
  default ("その他 (" +:+ Py.str queue_id +:+ ")") (QUEUE_NAMES !! queue_id).

Definition mode_of (queue_id : Z) : Mode :=
  {| mode_id := Py.str queue_id; mode_name := queue_name queue_id |}.

(** ** Dicts with the same keys *)

(** The same keys in the same order, and related values. *)
Definition dict_related {V W} (P : V → W → Prop) (d1 : dict V) (d2 : dict W)
    : Prop :=
  Forall2 (λ x y, x.1 = y.1 ∧ P x.2 y.2) d1 d2.


(** The dict of references [dl] holds the dicts of [d], all of them new. *)
Definition aggregates_at (σ0 σ : Heap.store) (dl : dict Heap.loc) (d : dict Aggregate)
    : Prop :=
  dict_related
    (λ l agg, σ !! l = Some (Heap.OAggregate agg) ∧ σ0 !! l = None) dl d ∧
  NoDup dl.*2.


Section Conds.
Context (timestamp_ms : datetime → Z).

(** The test of the list comprehension that a period runs, if any. *)
Definition period_cond (now : datetime) (period : string)
    : option (Match → Py.result bool) :=
  if negb (String.eqb period "all") then
    if Py.startswith period "patch_" then
      Some (fun m => v ← subscript_gameVersion m;
                     Py.Ok (Py.startswith v (Py.replace period "patch_" "")))
    else if String.eqb period "this_week" then
      Some (fun m => Py.Ok
        (timestamp_ms (at_midnight (minus_days now (weekday now)))
         <=? gameCreation m))
    else if String.eqb period "last_week" then
      Some (fun m => Py.Ok
        ((timestamp_ms
            (minus_days (at_midnight (minus_days now (weekday now))) 7)
          <=? gameCreation m)
         && (gameCreation m
             <? timestamp_ms (at_midnight (minus_days now (weekday now))))))
    else if String.eqb period "last_30_days" then
      Some (fun m => Py.Ok
        (timestamp_ms (minus_days now 30) <=? gameCreation m))
    else if String.eqb period "last_7_days" then
      Some (fun m => Py.Ok
        (timestamp_ms (minus_days now 7) <=? gameCreation m))
    else None
  else None.

Definition mode_cond (mode : string) : option (Match → Py.result bool) :=
  if negb (String.eqb mode "all") then
    match Py.int mode with
    | Some queue_id =>
        Some (fun m => q ← subscript_queueId m;
                       Py.Ok (bool_decide (q = Some queue_id)))
    | None => None
    end
  else None.

End Conds.

(** ** Sample data *)

(** A match of a champion, created at [created]. *)
Definition sample_match (created : Z) (version : string) (queue : entry Z)
    (my_data : MyData) : Match :=
  {| matchId := "JP1_1"; gameCreation := created; queueId := queue;
     gameVersion := Some version; myData := my_data |}.

(** 2026-11-04 (a Wednesday) and the day after, at midnight. *)
Definition wednesday : datetime :=
  {| ordinal := 739924; microsecond_of_day := 0 |}.

Definition thursday : datetime :=
  {| ordinal := 739925; microsecond_of_day := 0 |}.

(** A match created on 2026-10-28 at 00:00 UTC, seven days before
    [wednesday]. *)
Definition week_old_match (my_data : MyData) : Match :=
  sample_match 1793145600000 "14.3.456.789" (Value 420) my_data.

Definition ahri_win : MyData :=
  {| championName := "Ahri"; win := true; kills := 10; deaths := 2;
     assists := 5; totalDamageDealtToChampions := 20000;
     totalDamageTaken := 10000 |}.

Definition ahri_loss : MyData :=
  {| championName := "Ahri"; win := false; kills := 2; deaths := 8;
     assists := 3; totalDamageDealtToChampions := 8000;
     totalDamageTaken := 15000 |}.

Definition sample_matches : list Match :=
  [ week_old_match ahri_win;
    sample_match 1793200000000 "14.30.1.1" Null ahri_loss ].

(** What [calculate_champion_stats] returns for [sample_matches]. *)
Definition sample_stats : list ChampionStats :=
  [ {| stat_championName := "Ahri"; games := 2; wins := 1; losses := 1;
       winRate := Py.Float 50%Q; totalKills := 12; totalDeaths := 10;
       totalAssists := 8; avgKDA := 2%Q; avgDamageDealt := 14000;
       avgDamageTaken := 12500 |} ].

Definition lux_win : MyData :=
  {| championName := "Lux"; win := true; kills := 4; deaths := 0;
     assists := 9; totalDamageDealtToChampions := 17001;
     totalDamageTaken := 9000 |}.

(** One game on Lux, then one on Ahri: a tie in [games]. *)
Definition tie_matches : list Match :=
  [ sample_match 1793200000000 "14.3.456.789" (Value 450) lux_win;
    week_old_match ahri_win ].

Definition tie_stats : list ChampionStats :=
  [ {| stat_championName := "Lux"; games := 1; wins := 1; losses := 0;
       winRate := Py.Float 100%Q; totalKills := 4; totalDeaths := 0;
       totalAssists := 9; avgKDA := 13%Q; avgDamageDealt := 17001;
       avgDamageTaken := 9000 |};
    {| stat_championName := "Ahri"; games := 1; wins := 1; losses := 0;
       winRate := Py.Float 100%Q; totalKills := 10; totalDeaths := 2;
       totalAssists := 5; avgKDA := (15 # 2)%Q; avgDamageDealt := 20000;
       avgDamageTaken := 10000 |} ].

(** A store with the two matches and, at location 3, their list. *)
Definition sample_store : Heap.store :=
  <[3%positive := Heap.OList [Heap.Ref 1%positive; Heap.Ref 2%positive]]>
    (<[2%positive := Heap.OMatch
                      (sample_match 1793200000000 "14.30.1.1" Null ahri_loss)]>
       (<[1%positive := Heap.OMatch (week_old_match ahri_win)]> ∅)).


(** * The module [utils]: [format_duration] *)

Module Utils.

(** The decimal digits of an [int], as [str], [format] and the f-strings
    make them: CPython raises [ValueError] for an [int] of more than
    [sys.get_int_max_str_digits()] digits, and [None] stands for it. *)
Definition str_int (n : Z) : option string :=
  let s := Py.str n in
  if (Py.count_digits s <=? Py.max_str_digits)%nat then Some s else None.

(** [format(n, "02d")] on an [int]: the sign, then the decimal digits with
    zeros in front of them up to a width of 2. *)
Definition format_02d (n : Z) : option string :=
  let sign := if n <? 0 then "-" else "" in
  digits ← str_int (Z.abs n);
  let width := (String.length sign + String.length digits)%nat in
  Some (sign +:+ String.concat "" (replicate (2 - width) "0") +:+ digits).

(** [format_duration(seconds)]: [//] and [%] round down. *)
Definition format_duration (seconds : Z) : option string :=
  let minutes := seconds `div` 60 in
  let remaining_seconds := seconds `mod` 60 in
  minutes_str ← str_int minutes;
  seconds_str ← format_02d remaining_seconds;
  Some (minutes_str +:+ "分" +:+ seconds_str +:+ "秒").

(** [BASE_URLS] and [ENDPOINTS] *)
Definition BASE_URLS : dict string :=
  [ ("jp1", "https://jp1.api.riotgames.com");
    ("kr", "https://kr.api.riotgames.com");
    ("na1", "https://na1.api.riotgames.com");
    ("euw1", "https://euw1.api.riotgames.com");
    ("eun1", "https://eun1.api.riotgames.com");
    ("br1", "https://br1.api.riotgames.com");
    ("la1", "https://la1.api.riotgames.com");
    ("la2", "https://la2.api.riotgames.com");
    ("oc1", "https://oc1.api.riotgames.com");
    ("tr1", "https://tr1.api.riotgames.com");
    ("ru", "https://ru.api.riotgames.com");
    ("asia", "https://asia.api.riotgames.com");
    ("americas", "https://americas.api.riotgames.com");
    ("europe", "https://europe.api.riotgames.com");
    ("sea", "https://sea.api.riotgames.com") ].

Definition ENDPOINTS : dict string :=
  [ ("summoner_by_name",
     "/lol/summoner/v4/summoners/by-name/{summonerName}");
    ("match_ids", "/lol/match/v5/matches/by-puuid/{puuid}/ids");
    ("match_detail", "/lol/match/v5/matches/{matchId}") ].

End Utils.

(** * The module [fetch_matches]

    ** The answer of the API

    A match as the Riot API returns it, with the keys that
    [process_match_data] reads. A key may be absent ([None]); a key that is
    there has a value of the kind the API documents. *)

Module Riot.

Record Selection : Type := { perk : option Z }.

Record Style : Type := { selections : option (list Selection) }.

Record StatPerks : Type := {
  defense : option Z;
  flex : option Z;
  offense : option Z
}.

Record Perks : Type := {
  styles : option (list Style);
  statPerks : option StatPerks
}.

Record Participant : Type := {
  puuid : option string;
  item0 : option Z;
  item1 : option Z;
  item2 : option Z;
  item3 : option Z;
  item4 : option Z;
  item5 : option Z;
  item6 : option Z;
  perks : option Perks;
  summonerName : option string;
  teamId : option Z;
  championName : option string;
  kills : option Z;
  deaths : option Z;
  assists : option Z;
  totalDamageDealtToChampions : option Z;
  totalDamageTaken : option Z;
  win : option bool;
  tier : option string;
  rank : option string
}.

Record Info : Type := {
  participants : option (list Participant);
  gameCreation : option Z;
  queueId : option Z;
  gameDuration : option Z;
  gameVersion : option string
}.

Record Metadata : Type := { matchId : option string }.

Record RawMatch : Type := {
  info : option Info;
  metadata : option Metadata
}.

End Riot.

Module Fetch.

(** ** The merge of [main]

    [sorted_matches] of [main]: the stored matches and the new ones, one
    match per [matchId] (the dict keeps the place of the first match of an
    id and the value of the last one), sorted by [gameCreation], latest
    first. *)
Definition sorted_matches (existing_matches new_matches : list Match)
    : list Match :=
  let all_matches := existing_matches ++ new_matches in
  let unique_matches :=
    foldl (fun unique_matches m => dict_set unique_matches (matchId m) m)
      [] all_matches in
  Py.sorted Z.leb gameCreation true unique_matches.*2.

(** ** Exceptions *)

(** [KeyError] and the exceptions that the module raises itself, with
    their messages; [RateLimitError] is the class of [utils.py] that the
    docstrings name. [BuiltinValueError], [BuiltinOverflowError] and
    [BuiltinOSError] are the [ValueError], the [OverflowError] and the
    [OSError] that [int] and [time.sleep] raise, without their messages, and
    [TypeError] is that of [None + str]. *)
Inductive exn : Type :=
  | KeyError (key : string)
  | ValueError (message : string)
  | DataNotFoundError (message : string)
  | RateLimitError (message : string)
  | RiotAPIError (message : string)
  | BuiltinValueError
  | BuiltinOverflowError
  | BuiltinOSError
  | TypeError.

Inductive result (A : Type) : Type :=
  | Ok (a : A)
  | Raise (e : exn).
Arguments Ok {A} a.
Arguments Raise {A} e.

#[global] Instance result_ret : MRet result := fun A a => Ok a.
#[global] Instance result_bind : MBind result := fun A B f r =>
  match r with
  | Ok a => f a
  | Raise e => Raise e
  end.

(** [d[key]] on a dict that may lack the key. *)
Definition subscript {A} (key : string) (value : option A) : result A :=
  match value with
  | Some a => Ok a
  | None => Raise (KeyError key)
  end.

(** ** The match that is stored *)

Record Item : Type := { itemId : Z; timestamp : Z }.

Record Runes : Type := {
  primary : list Z;
  secondary : list Z;
  stats : list Z
}.

(** [my_data] *)
Record StoredMyData : Type := {
  my_championName : string;
  my_kills : Z;
  my_deaths : Z;
  my_assists : Z;
  my_totalDamageDealtToChampions : Z;
  my_totalDamageTaken : Z;
  my_win : bool;
  my_items : list Item;
  my_runes : Runes
}.

(** [player_data] *)
Record Player : Type := {
  summonerName : string;
  teamId : Z;
  championName : string;
  kills : Z;
  deaths : Z;
  assists : Z;
  totalDamageDealtToChampions : Z;
  totalDamageTaken : Z;
  tier : option string;
  rank : option string;
  items : list Z;
  runes : Runes
}.

(** [match_data] *)
Record StoredMatch : Type := {
  matchId : string;
  gameCreation : Z;
  queueId : Z;
  gameDuration : Z;
  gameVersion : string;
  myData : StoredMyData;
  allPlayers : list Player
}.

(** ** [process_match_data] *)

(** The first loop: the first participant with the [puuid], if any. *)
Fixpoint find_participant (participants : list Riot.Participant)
    (puuid : string) : result (option Riot.Participant) :=
  match participants with
  | [] => Ok None
  | p :: participants' =>
      p_puuid ← subscript "puuid" (Riot.puuid p);
      if String.eqb p_puuid puuid then Ok (Some p)
      else find_participant participants' puuid
  end.

(** [[p.get(f"item{i}", 0) for i in range(7)]] *)
Definition item_ids (p : Riot.Participant) : list Z :=
  default 0 <$>
    [ Riot.item0 p; Riot.item1 p; Riot.item2 p; Riot.item3 p;
      Riot.item4 p; Riot.item5 p; Riot.item6 p ].

(** The ids of the loop over [range(7)] that are appended. *)
Definition final_items (p : Riot.Participant) : list Z :=
  List.filter (fun item_id => 0 <? item_id) (item_ids p).

(** [p.get("perks", {}).get("styles", [])] *)
Definition get_styles (p : Riot.Participant) : list Riot.Style :=
  match Riot.perks p with
  | Some perks => default [] (Riot.styles perks)
  | None => []
  end.

(** The runes of the style [styles[i]], when [len(styles) >= i + 1]: the
    perks of its first [n] selections, filled up with 0 to [n] of them. *)
Definition style_runes (style : option Riot.Style) (n : nat)
    : result (list Z) :=
  match style with
  | Some style =>
      let selections := default [] (Riot.selections style) in
      runes ← mapM (fun s => subscript "perk" (Riot.perk s))
                 (take n selections);
      Ok (runes ++ replicate (n - length runes) 0)
  | None => Ok []
  end.

(** [stat_runes] *)
Definition stat_runes (p : Riot.Participant) : list Z :=
  let stat_perks :=
    match Riot.perks p with
    | Some perks => Riot.statPerks perks
    | None => None
    end in
  match stat_perks with
  | Some stat_perks =>
      [ default 0 (Riot.defense stat_perks);
        default 0 (Riot.flex stat_perks);
        default 0 (Riot.offense stat_perks) ]
  | None => [0; 0; 0]
  end.

(** The runes of a participant: the main path, then the second one. *)
Definition get_runes (p : Riot.Participant) : result Runes :=
  let styles := get_styles p in
  primary_runes ← style_runes (styles !! 0%nat) 4;
  secondary_runes ← style_runes (styles !! 1%nat) 2;
  Ok {| primary := primary_runes; secondary := secondary_runes;
        stats := stat_runes p |}.

(** The body of the loop that builds [all_players]. *)
Definition player_data (p : Riot.Participant) : result Player :=
  p_runes ← get_runes p;
  let p_items := final_items p in
  p_summonerName ← subscript "summonerName" (Riot.summonerName p);
  p_teamId ← subscript "teamId" (Riot.teamId p);
  p_championName ← subscript "championName" (Riot.championName p);
  p_kills ← subscript "kills" (Riot.kills p);
  p_deaths ← subscript "deaths" (Riot.deaths p);
  p_assists ← subscript "assists" (Riot.assists p);
  p_dealt ← subscript "totalDamageDealtToChampions"
              (Riot.totalDamageDealtToChampions p);
  p_taken ← subscript "totalDamageTaken" (Riot.totalDamageTaken p);
  Ok {| summonerName := p_summonerName;
        teamId := p_teamId;
        championName := p_championName;
        kills := p_kills;
        deaths := p_deaths;
        assists := p_assists;
        totalDamageDealtToChampions := p_dealt;
        totalDamageTaken := p_taken;
        tier := Riot.tier p;
        rank := Riot.rank p;
        items := p_items;
        runes := p_runes |}.

(** [my_data] of the participant that was found. *)
Definition get_my_data (my_participant : Riot.Participant)
    : result StoredMyData :=
  let items :=
    (fun item_id => {| itemId := item_id; timestamp := 0 |})
    <$> final_items my_participant in
  my_runes ← get_runes my_participant;
  my_championName ← subscript "championName"
                      (Riot.championName my_participant);
  my_kills ← subscript "kills" (Riot.kills my_participant);
  my_deaths ← subscript "deaths" (Riot.deaths my_participant);
  my_assists ← subscript "assists" (Riot.assists my_participant);
  my_dealt ← subscript "totalDamageDealtToChampions"
               (Riot.totalDamageDealtToChampions my_participant);
  my_taken ← subscript "totalDamageTaken"
               (Riot.totalDamageTaken my_participant);
  my_win ← subscript "win" (Riot.win my_participant);
  Ok {| my_championName := my_championName;
        my_kills := my_kills;
        my_deaths := my_deaths;
        my_assists := my_assists;
        my_totalDamageDealtToChampions := my_dealt;
        my_totalDamageTaken := my_taken;
        my_win := my_win;
        my_items := items;
        my_runes := my_runes |}.

(** [process_match_data(raw_match, puuid)] *)
Definition process_match_data (raw_match : Riot.RawMatch) (puuid : string)
    : result StoredMatch :=
  info ← subscript "info" (Riot.info raw_match);
  participants ← subscript "participants" (Riot.participants info);
  my_participant ← find_participant participants puuid;
  match my_participant with
  | None =>
      Raise (ValueError
               ("PUUID " +:+ puuid +:+ " not found in match participants"))
  | Some my_participant =>
      my_data ← get_my_data my_participant;
      all_players ← mapM player_data participants;
      metadata ← subscript "metadata" (Riot.metadata raw_match);
      match_id ← subscript "matchId" (Riot.matchId metadata);
      game_creation ← subscript "gameCreation" (Riot.gameCreation info);
      queue_id ← subscript "queueId" (Riot.queueId info);
      game_duration ← subscript "gameDuration" (Riot.gameDuration info);
      game_version ← subscript "gameVersion" (Riot.gameVersion info);
      Ok {| matchId := match_id;
            gameCreation := game_creation;
            queueId := queue_id;
            gameDuration := game_duration;
            gameVersion := game_version;
            myData := my_data;
            allPlayers := all_players |}
  end.

(** ** [RiotAPIClient._request]

    The calls of [requests.get] are answered by a script: the answers of
    the server in the order in which it gives them. The loop takes one
    answer per call; where the script ends the loop is still running. *)

Section Client.
(** The JSON that a response holds. *)
Context {J : Type}.

(** A response: the header [Retry-After] may be absent, and
    [response.json()] returns a value or fails with a message (with
    requests 2.27 or later its exception is a [RequestException]). *)
Record Response : Type := {
  status_code : Z;
  retry_after : option string;
  text : string;
  json : string + J
}.

(** What [requests.get] does: it returns a response or raises a
    [RequestException] with a message. With a response comes [monotonic]:
    the nanoseconds that the monotonic clock of the host reads when the
    loop calls [time.sleep] for the [Retry-After] of the response. *)
Inductive Attempt : Type :=
  | Got (response : Response) (monotonic : Z)
  | Failed (e : string).

(** What a run of the loop leaves: its result, if the loop has ended, the
    [time.sleep] calls in seconds, and the number of [requests.get]
    calls. *)
Record Run : Type := {
  outcome : option (result J);
  sleeps : list Q;
  requests : nat
}.

Definition ended (r : result J) : Run :=
  {| outcome := Some r; sleeps := []; requests := 0 |}.

(** A call of [time.sleep(seconds)] that returns, then the rest of the run.
    The sleeps of 5 and of 1.2 seconds return: the host would refuse them
    with a monotonic clock within 5 seconds of [2 ** 63] nanoseconds
    only. *)
Definition sleep (seconds : Q) (rest : Run) : Run :=
  {| outcome := outcome rest;
     sleeps := seconds :: sleeps rest;
     requests := requests rest |}.

(** [time.sleep(seconds)] for an [int], then the rest of the run. A negative
    [int] is a [ValueError], and one that is too large in nanoseconds for
    64 bits an [OverflowError]. CPython 3.11 then adds the nanoseconds to
    the reading of the monotonic clock, in 64 bits, and the host (Linux,
    [clock_nanosleep]) refuses a deadline that has passed [2 ** 63 - 1] and
    wrapped around: an [OSError]. *)
Definition sleep_int (monotonic seconds : Z) (rest : Run) : Run :=
  if seconds <? 0 then ended (Raise BuiltinValueError)
  else if 9223372036 <? seconds then ended (Raise BuiltinOverflowError)
  else if 9223372036854775808 <=? monotonic + seconds * 1000000000
  then ended (Raise BuiltinOSError)
  else sleep (inject_Z seconds) rest.

(** One call of [requests.get], then the rest of the run. *)
Definition request (rest : Run) : Run :=
  {| outcome := outcome rest;
     sleeps := sleeps rest;
     requests := S (requests rest) |}.

Definition max_retries : Z := 3.

(** The loop of [_request(url)], from [retry_count]. *)
Fixpoint request_loop (url : string) (script : list Attempt)
    (retry_count : Z) : Run :=
  if retry_count <? max_retries then
    match script with
    | [] => {| outcome := None; sleeps := []; requests := 0 |}
    | attempt :: script' =>
        (* the handler of [RequestException] *)
        let handler (e : string) : Run :=
          let retry_count := retry_count + 1 in
          if retry_count <? max_retries then
            sleep 5 (request_loop url script' retry_count)
          else
            ended (Raise (RiotAPIError
                            ("Request failed after " +:+ Py.str max_retries
                             +:+ " retries: " +:+ e))) in
        request
          match attempt with
          | Failed e => handler e
          | Got response monotonic =>
              let status := status_code response in
              if status =? 429 then
                match
                  match retry_after response with
                  | Some header => Py.int header
                  | None => Some 120
                  end
                with
                | Some retry_after =>
                    sleep_int monotonic retry_after
                      (request_loop url script' retry_count)
                | None => ended (Raise BuiltinValueError)
                end
              else if status =? 404 then
                ended (Raise (DataNotFoundError ("Data not found: " +:+ url)))
              else if (500 <=? status) && (status <? 600) then
                let retry_count := retry_count + 1 in
                if retry_count <? max_retries then
                  sleep 5 (request_loop url script' retry_count)
                else
                  ended (Raise (RiotAPIError
                                  ("Server error after "
                                   +:+ Py.str max_retries +:+ " retries: "
                                   +:+ Py.str status)))
              else if (400 <=? status) && (status <? 500) then
                ended (Raise (RiotAPIError
                                ("Client error: " +:+ Py.str status
                                 +:+ " - " +:+ text response)))
              else
                sleep (6 # 5)
                  match json response with
                  | inr value => ended (Ok value)
                  | inl e => handler e
                  end
          end
    end
  else ended (Raise (RiotAPIError "Unexpected error in _request")).

(** [_request(url)] *)
Definition _request (url : string) (script : list Attempt) : Run :=
  request_loop url script 0.

End Client.

(** ** [RiotAPIClient.get_all_match_ids]

    [get_match_ids(puuid, start, count)] is what the API answers to the
    request of a page. The loop [while True] runs for [fuel] pages at most:
    [None] is a loop that is still running. *)

Section Pages.
Context (get_match_ids : string → Z → Z → result (list string)).

Fixpoint get_all_match_ids_from (fuel : nat) (puuid : string)
    (all_ids : list string) (start : Z) : option (result (list string)) :=
  let count := 100 in
  match fuel with
  | O => None
  | S fuel' =>
      match get_match_ids puuid start count with
      | Raise e => Some (Raise e)
      | Ok batch =>
          match batch with
          | [] => Some (Ok all_ids)
          | _ =>
              let all_ids := all_ids ++ batch in
              if Z.of_nat (length batch) <? count then Some (Ok all_ids)
              else get_all_match_ids_from fuel' puuid all_ids (start + count)
          end
      end
  end.

(** [get_all_match_ids(puuid)] *)
Definition get_all_match_ids (fuel : nat) (puuid : string)
    : option (result (list string)) :=
  get_all_match_ids_from fuel puuid [] 0.

End Pages.

(** ** [RiotAPIClient]: the URLs *)

(** [str.format] with keyword arguments, for a template whose replacement
    fields are names of keyword arguments with [str] values: text, [{{],
    [}}] and [{name}]. [field] holds the name that is being read. *)
Fixpoint str_format_from (kwargs : dict string) (field : option string)
    (template : string) : result string :=
  match template with
  | EmptyString =>
      match field with
      | Some _ => Raise (ValueError "expected '}' before end of string")
      | None => Ok EmptyString
      end
  | String c template' =>
      match field with
      | Some name =>
          if Ascii.eqb c "}" then
            value ← subscript name (dict_get kwargs name);
            rest ← str_format_from kwargs None template';
            Ok (value +:+ rest)
          else if Ascii.eqb c "{" then
            Raise (ValueError "unexpected '{' in field name")
          else
            str_format_from kwargs (Some (name +:+ String c EmptyString))
              template'
      | None =>
          if Ascii.eqb c "{" then
            match template' with
            | String "{" template'' =>
                rest ← str_format_from kwargs None template'';
                Ok (String "{" rest)
            | _ => str_format_from kwargs (Some EmptyString) template'
            end
          else if Ascii.eqb c "}" then
            match template' with
            | String "}" template'' =>
                rest ← str_format_from kwargs None template'';
                Ok (String "}" rest)
            | _ =>
                Raise (ValueError "Single '}' encountered in format string")
            end
          else
            rest ← str_format_from kwargs None template';
            Ok (String c rest)
      end
  end.

Definition str_format (template : string) (kwargs : dict string)
    : result string :=
  str_format_from kwargs None template.

Record RiotAPIClient : Type := {
  api_key : string;
  region : string;
  platform_base_url : option string;
  regional_base_url : option string
}.

(** [regional_mapping] of [__init__] *)
Definition regional_mapping : dict string :=
  [ ("jp1", "asia"); ("kr", "asia");
    ("na1", "americas"); ("br1", "americas"); ("la1", "americas");
    ("la2", "americas");
    ("euw1", "europe"); ("eun1", "europe"); ("tr1", "europe");
    ("ru", "europe");
    ("oc1", "sea") ].

(** [RiotAPIClient(api_key, region)] *)
Definition new_client (api_key region : string) : RiotAPIClient :=
  let regional_endpoint := default "asia" (dict_get regional_mapping region) in
  {| api_key := api_key;
     region := region;
     platform_base_url := dict_get Utils.BASE_URLS region;
     regional_base_url := dict_get Utils.BASE_URLS regional_endpoint |}.

(** [base_url + endpoint], where [base_url] may be [None]. *)
Definition add_url (base_url : option string) (endpoint : string)
    : result string :=
  match base_url with
  | Some base_url => Ok (base_url +:+ endpoint)
  | None => Raise TypeError
  end.

(** The [url] of [get_summoner], [get_match_ids] and [get_match_detail]. *)
Definition summoner_url (self : RiotAPIClient) (summoner_name : string)
    : result string :=
  template ← subscript "summoner_by_name"
               (dict_get Utils.ENDPOINTS "summoner_by_name");
  endpoint ← str_format template [("summonerName", summoner_name)];
  add_url (platform_base_url self) endpoint.

Definition match_ids_url (self : RiotAPIClient) (puuid : string)
    : result string :=
  template ← subscript "match_ids" (dict_get Utils.ENDPOINTS "match_ids");
  endpoint ← str_format template [("puuid", puuid)];
  add_url (regional_base_url self) endpoint.

Definition match_detail_url (self : RiotAPIClient) (match_id : string)
    : result string :=
  template ← subscript "match_detail"
               (dict_get Utils.ENDPOINTS "match_detail");
  endpoint ← str_format template [("matchId", match_id)];
  add_url (regional_base_url self) endpoint.

(** ** [fetch_new_matches]

    [request_ids url start count] and [request_match url] are what
    [_request] returns for the URL of a page of ids and for that of a
    match, and [timestamp_of last_update] is
    [int(datetime.fromisoformat(last_update.replace('Z', '+00:00')).timestamp() * 1000)]. *)

Section FetchNew.
Context (request_ids : string → Z → Z → result (list string)).
Context (request_match : string → result Riot.RawMatch).
Context (timestamp_of : string → result Z).

(** [self.get_match_ids(puuid, start, count)] *)
Definition get_match_ids (self : RiotAPIClient) (puuid : string)
    (start count : Z) : result (list string) :=
  url ← match_ids_url self puuid;
  request_ids url start count.

(** [self.get_match_detail(match_id)] *)
Definition get_match_detail (self : RiotAPIClient) (match_id : string)
    : result Riot.RawMatch :=
  url ← match_detail_url self match_id;
  request_match url.

(** [match_detail["info"]["gameCreation"]] *)
Definition detail_gameCreation (self : RiotAPIClient) (match_id : string)
    : result Z :=
  match_detail ← get_match_detail self match_id;
  info ← subscript "info" (Riot.info match_detail);
  subscript "gameCreation" (Riot.gameCreation info).

(** The loop over the page whose first match is older than the last
    update: the ids in front of the first match that is older. *)
Fixpoint newer_ids (self : RiotAPIClient) (last_update_timestamp : Z)
    (batch : list string) : result (list string) :=
  match batch with
  | [] => Ok []
  | match_id :: batch' =>
      game_creation ← detail_gameCreation self match_id;
      if last_update_timestamp <=? game_creation then
        rest ← newer_ids self last_update_timestamp batch';
        Ok (match_id :: rest)
      else Ok []
  end.

(** The loop [while True] of the update, for [fuel] pages at most. *)
Fixpoint ids_since (fuel : nat) (self : RiotAPIClient) (puuid : string)
    (last_update_timestamp : Z) (match_ids : list string) (start : Z)
    : option (result (list string)) :=
  let count := 100 in
  match fuel with
  | O => None
  | S fuel' =>
      match get_match_ids self puuid start count with
      | Raise e => Some (Raise e)
      | Ok [] => Some (Ok match_ids)
      | Ok ((first_id :: _) as batch) =>
          match detail_gameCreation self first_id with
          | Raise e => Some (Raise e)
          | Ok first_match_time =>
              if first_match_time <? last_update_timestamp then
                match newer_ids self last_update_timestamp batch with
                | Raise e => Some (Raise e)
                | Ok ids => Some (Ok (match_ids ++ ids))
                end
              else
                let match_ids := match_ids ++ batch in
                if Z.of_nat (length batch) <? count then Some (Ok match_ids)
                else ids_since fuel' self puuid last_update_timestamp
                       match_ids (start + count)
          end
      end
  end.

(** The last loop: a match whose request or whose processing raises is
    left out. *)
Definition fetch_details (self : RiotAPIClient) (puuid : string)
    (match_ids : list string) : list StoredMatch :=
  omap (fun match_id =>
          match
            raw_match ← get_match_detail self match_id;
            process_match_data raw_match puuid
          with
          | Ok match_data => Some match_data
          | Raise _ => None
          end)
    match_ids.

(** [fetch_new_matches(puuid, api_key, last_update)] *)
Definition fetch_new_matches (fuel : nat) (puuid api_key : string)
    (last_update : option string)
    : option (result (list StoredMatch)) :=
  let client := new_client api_key "jp1" in
  let match_ids :=
    match last_update with
    | None => get_all_match_ids (get_match_ids client) fuel puuid
    | Some last_update =>
        match timestamp_of last_update with
        | Raise e => Some (Raise e)
        | Ok last_update_timestamp =>
            ids_since fuel client puuid last_update_timestamp [] 0
        end
    end in
  match match_ids with
  | None => None
  | Some (Raise e) => Some (Raise e)
  | Some (Ok match_ids) => Some (Ok (fetch_details client puuid match_ids))
  end.

End FetchNew.

End Fetch.

(** ** Definitions for more statements *)

(** The number that a string of decimal digits denotes, read from the left
    with [acc] in front. *)
Fixpoint uint_value (acc : Z) (d : Decimal.uint) : Z :=
  match d with
  | Decimal.Nil => acc
  | Decimal.D0 d' => uint_value (10 * acc + 0) d'
  | Decimal.D1 d' => uint_value (10 * acc + 1) d'
  | Decimal.D2 d' => uint_value (10 * acc + 2) d'
  | Decimal.D3 d' => uint_value (10 * acc + 3) d'
  | Decimal.D4 d' => uint_value (10 * acc + 4) d'
  | Decimal.D5 d' => uint_value (10 * acc + 5) d'
  | Decimal.D6 d' => uint_value (10 * acc + 6) d'
  | Decimal.D7 d' => uint_value (10 * acc + 7) d'
  | Decimal.D8 d' => uint_value (10 * acc + 8) d'
  | Decimal.D9 d' => uint_value (10 * acc + 9) d'
  end.

(** The digits of [str(n)], after the sign. *)
Definition str_decode (s : string) : option Z :=
  match s with
  | String "-" s' => Z.opp <$> Py.int_digits 0 false s'
  | _ => Py.int_digits 0 false s
  end.

(** The test of a list comprehension on a match on which it does not
    raise. *)
Definition cond_test (cond : Match → Py.result bool) (m : Match) : bool :=
  match cond m with
  | Py.Ok b => b
  | Py.Raise _ => false
  end.

(** The matches of the queue [q]. *)
Definition has_queue (q : Z) (m : Match) : bool :=
  match queueId m with
  | Value queue_id => bool_decide (queue_id = q)
  | _ => false
  end.

(** The matches of a champion. *)
Definition group_of (name : string) (l : list Match) : list Match :=
  List.filter (λ m, String.eqb (champion m) name) l.

(** The characters of a [str] pass the test [P]. *)
Fixpoint string_forallb (P : ascii → bool) (s : string) : bool :=
  match s with
  | EmptyString => true
  | String c s' => P c && string_forallb P s'
  end.

(** The characters of [str(n)]: the digits and the sign. *)
Definition is_int_char (c : ascii) : bool :=
  bool_decide (is_Some (Py.digit_value c)) || Ascii.eqb c "-".

(** The match [m] is the last one of its [matchId] in [l]. *)
Definition last_of (l : list Match) (m : Match) : Prop :=
  ∃ l1 l2, l = l1 ++ m :: l2 ∧ matchId m ∉ matchId <$> l2.


(** ** Definitions for the statements on [process_match_data] *)

(** The runes that are stored for a participant: 4 of the main path and 2
    of the second one, or none of a path that the API left out, and 3 stat
    runes. *)
Definition runes_shape (r : Fetch.Runes) : Prop :=
  (length (Fetch.primary r) = 4%nat ∨ Fetch.primary r = []) ∧
  (length (Fetch.secondary r) = 2%nat ∨ Fetch.secondary r = []) ∧
  (Fetch.primary r = [] → Fetch.secondary r = []) ∧
  length (Fetch.stats r) = 3%nat.

(** The keys of a participant that [process_match_data] reads with a
    subscript for [all_players], and the key [perk] of the selections that
    it reads. *)
Definition complete_selections (n : nat) (style : option Riot.Style) : Prop :=
  match style with
  | Some style =>
      Forall (λ s, is_Some (Riot.perk s))
        (take n (default [] (Riot.selections style)))
  | None => True
  end.

Definition complete_participant (p : Riot.Participant) : Prop :=
  complete_selections 4 (Fetch.get_styles p !! 0%nat) ∧
  complete_selections 2 (Fetch.get_styles p !! 1%nat) ∧
  is_Some (Riot.summonerName p) ∧ is_Some (Riot.teamId p) ∧
  is_Some (Riot.championName p) ∧ is_Some (Riot.kills p) ∧
  is_Some (Riot.deaths p) ∧ is_Some (Riot.assists p) ∧
  is_Some (Riot.totalDamageDealtToChampions p) ∧
  is_Some (Riot.totalDamageTaken p).

(** The data of a participant as they are stored in [all_players]. *)
Definition stored_as (p : Riot.Participant) (player : Fetch.Player) : Prop :=
  Riot.summonerName p = Some (Fetch.summonerName player) ∧
  Riot.teamId p = Some (Fetch.teamId player) ∧
  Riot.championName p = Some (Fetch.championName player) ∧
  Riot.kills p = Some (Fetch.kills player) ∧
  Riot.deaths p = Some (Fetch.deaths player) ∧
  Riot.assists p = Some (Fetch.assists player) ∧
  Riot.totalDamageDealtToChampions p
  = Some (Fetch.totalDamageDealtToChampions player) ∧
  Riot.totalDamageTaken p = Some (Fetch.totalDamageTaken player) ∧
  Riot.tier p = Fetch.tier player ∧ Riot.rank p = Fetch.rank player ∧
  Fetch.items player = Fetch.final_items p.

(** The data of the participant with the [puuid] as they are stored in
    [my_data]. *)
Definition stored_as_mine (p : Riot.Participant) (my_data : Fetch.StoredMyData)
    : Prop :=
  Riot.championName p = Some (Fetch.my_championName my_data) ∧
  Riot.kills p = Some (Fetch.my_kills my_data) ∧
  Riot.deaths p = Some (Fetch.my_deaths my_data) ∧
  Riot.assists p = Some (Fetch.my_assists my_data) ∧
  Riot.totalDamageDealtToChampions p
  = Some (Fetch.my_totalDamageDealtToChampions my_data) ∧
  Riot.totalDamageTaken p = Some (Fetch.my_totalDamageTaken my_data) ∧
  Riot.win p = Some (Fetch.my_win my_data) ∧
  Fetch.itemId <$> Fetch.my_items my_data = Fetch.final_items p.

(** The matches on which [process_match_data] returns: the keys of the
    match are there, a participant has the [puuid], the participants in
    front of the first such one have another [puuid], that one has the key
    [win], and every participant has the keys of [all_players]. *)
Definition complete_match (raw_match : Riot.RawMatch) (puuid : string)
    : Prop :=
  ∃ info metadata participants i my_participant,
    Riot.info raw_match = Some info ∧
    Riot.metadata raw_match = Some metadata ∧
    Riot.participants info = Some participants ∧
    participants !! i = Some my_participant ∧
    Riot.puuid my_participant = Some puuid ∧
    (∀ j q, (j < i)%nat → participants !! j = Some q →
            ∃ id, Riot.puuid q = Some id ∧ id ≠ puuid) ∧
    is_Some (Riot.win my_participant) ∧
    Forall complete_participant participants ∧
    is_Some (Riot.matchId metadata) ∧
    is_Some (Riot.gameCreation info) ∧ is_Some (Riot.queueId info) ∧
    is_Some (Riot.gameDuration info) ∧ is_Some (Riot.gameVersion info).

(** ** Definitions for the statements on [_request] *)

(** The answers with the status 429. *)
Definition is_rate_limit {J} (attempt : Fetch.Attempt (J := J)) : bool :=
  match attempt with
  | Fetch.Got response _ => Fetch.status_code response =? 429
  | Fetch.Failed _ => false
  end.

Definition rate_limits {J} (script : list (Fetch.Attempt (J := J))) : nat :=
  length (List.filter is_rate_limit script).

(** A response with the status 429 and the header [Retry-After], at a
    reading of the monotonic clock. *)
Definition rate_limited {J} (header : option string) (monotonic : Z)
    : Fetch.Attempt (J := J) :=
  Fetch.Got {| Fetch.status_code := 429; Fetch.retry_after := header;
               Fetch.text := ""; Fetch.json := inl "" |} monotonic.

(** The seconds that the loop waits after a response with the status 429,
    when [int] reads the header. *)
Definition retry_after_seconds (header : option string) : option Z :=
  match header with
  | Some h => Py.int h
  | None => Some 120
  end.



(** ** Definitions for the statements on [get_all_match_ids] *)

(** An API that has the list [ids] for the player and answers a request
    with the page it asks for. *)
Definition serves (get_match_ids : string → Z → Z → Fetch.result (list string))
    (puuid : string) (ids : list string) : Prop :=
  ∀ start count, 0 ≤ start → 0 ≤ count →
    get_match_ids puuid start count
    = Fetch.Ok (take (Z.to_nat count) (drop (Z.to_nat start) ids)).

(** ** Definitions for the statements on [fetch_new_matches] *)

(** The base URL of the routing region [asia]. *)
Definition asia_url : string := "https://asia.api.riotgames.com".

(** The ids of the matches that a call returned. *)
Definition matchIds (fetched : option (Fetch.result (list Fetch.StoredMatch)))
    : option (Fetch.result (list string)) :=
  match fetched with
  | Some (Fetch.Ok matches) => Some (Fetch.Ok (Fetch.matchId <$> matches))
  | Some (Fetch.Raise e) => Some (Fetch.Raise e)
  | None => None
  end.

(** ** More sample data *)

(** A participant as the API returns it: two items, a main path of two
    selections and a second path without selections. *)
Definition sample_participant (puuid name champion : string) (kills : Z)
    : Riot.Participant :=
  {| Riot.puuid := Some puuid;
     Riot.item0 := Some 3157; Riot.item1 := Some 0; Riot.item2 := None;
     Riot.item3 := Some 3020; Riot.item4 := None; Riot.item5 := None;
     Riot.item6 := Some 0;
     Riot.perks :=
       Some {| Riot.styles :=
                 Some [ {| Riot.selections :=
                             Some [ {| Riot.perk := Some 8112 |};
                                    {| Riot.perk := Some 8126 |} ] |};
                        {| Riot.selections := None |} ];
               Riot.statPerks :=
                 Some {| Riot.defense := Some 5002; Riot.flex := None;
                         Riot.offense := Some 5005 |} |};
     Riot.summonerName := Some name;
     Riot.teamId := Some 100;
     Riot.championName := Some champion;
     Riot.kills := Some kills;
     Riot.deaths := Some 2;
     Riot.assists := Some 5;
     Riot.totalDamageDealtToChampions := Some 20000;
     Riot.totalDamageTaken := Some 10000;
     Riot.win := Some true;
     Riot.tier := None;
     Riot.rank := None |}.

Definition sample_raw_match (match_id : string) (created : Z)
    : Riot.RawMatch :=
  {| Riot.info :=
       Some {| Riot.participants :=
                 Some [ sample_participant "other" "Faker" "Lux" 4;
                        sample_participant "me" "Echo" "Ahri" 10 ];
               Riot.gameCreation := Some created;
               Riot.queueId := Some 420;
               Riot.gameDuration := Some 1830;
               Riot.gameVersion := Some "14.3.456.789" |};
     Riot.metadata := Some {| Riot.matchId := Some match_id |} |}.

(** An API with three matches of the player, in one page, that answers at
    the URLs of [asia] only. *)
Definition sample_ids : list string := ["JP1_3"; "JP1_2"; "JP1_1"].

(** What [process_match_data] makes of [sample_raw_match "JP1_3"
    1793200000000] for the player [me]. *)
Definition sample_stored_match : Fetch.StoredMatch :=
  {| Fetch.matchId := "JP1_3";
     Fetch.gameCreation := 1793200000000;
     Fetch.queueId := 420;
     Fetch.gameDuration := 1830;
     Fetch.gameVersion := "14.3.456.789";
     Fetch.myData :=
       {| Fetch.my_championName := "Ahri"; Fetch.my_kills := 10;
          Fetch.my_deaths := 2; Fetch.my_assists := 5;
          Fetch.my_totalDamageDealtToChampions := 20000;
          Fetch.my_totalDamageTaken := 10000; Fetch.my_win := true;
          Fetch.my_items :=
            [ {| Fetch.itemId := 3157; Fetch.timestamp := 0 |};
              {| Fetch.itemId := 3020; Fetch.timestamp := 0 |} ];
          Fetch.my_runes :=
            {| Fetch.primary := [8112; 8126; 0; 0];
               Fetch.secondary := [0; 0];
               Fetch.stats := [5002; 0; 5005] |} |};
     Fetch.allPlayers :=
       (λ '(name, champion, kills),
          {| Fetch.summonerName := name; Fetch.teamId := 100;
             Fetch.championName := champion; Fetch.kills := kills;
             Fetch.deaths := 2; Fetch.assists := 5;
             Fetch.totalDamageDealtToChampions := 20000;
             Fetch.totalDamageTaken := 10000;
             Fetch.tier := None; Fetch.rank := None;
             Fetch.items := [3157; 3020];
             Fetch.runes :=
               {| Fetch.primary := [8112; 8126; 0; 0];
                  Fetch.secondary := [0; 0];
                  Fetch.stats := [5002; 0; 5005] |} |})
       <$> [("Faker", "Lux", 4); ("Echo", "Ahri", 10)] |}.

(** A list of ids as the API serves it: any window of [sample_ids]. *)
Definition sample_get_match_ids (puuid : string) (start count : Z)
    : Fetch.result (list string) :=
  Fetch.Ok (take (Z.to_nat count) (drop (Z.to_nat start) sample_ids)).

Definition sample_request_ids (url : string) (start count : Z)
    : Fetch.result (list string) :=
  if Py.startswith url asia_url
  then Fetch.Ok (take (Z.to_nat count) (drop (Z.to_nat start) sample_ids))
  else Fetch.Raise (Fetch.RiotAPIError "Client error: 403 - Forbidden").

Definition sample_request_match (url : string)
    : Fetch.result Riot.RawMatch :=
  if String.eqb url (asia_url +:+ "/lol/match/v5/matches/JP1_3")
  then Fetch.Ok (sample_raw_match "JP1_3" 1793200000000)
  else if String.eqb url (asia_url +:+ "/lol/match/v5/matches/JP1_2")
  then Fetch.Ok (sample_raw_match "JP1_2" 1793145600000)
  else Fetch.Raise (Fetch.DataNotFoundError ("Data not found: " +:+ url)).

(** An API that answers everywhere as [sample_request_ids] does at
    [asia]. *)
Definition open_request_ids (url : string) (start count : Z)
    : Fetch.result (list string) :=
  Fetch.Ok (take (Z.to_nat count) (drop (Z.to_nat start) sample_ids)).

Definition sample_timestamp_of (last_update : string) : Fetch.result Z :=
  if String.eqb last_update "2026-10-28T00:00:00Z"
  then Fetch.Ok 1793145600000
  else Fetch.Raise Fetch.BuiltinValueError.

(** * Facts *)

(* [set_solver] clears hypotheses that need not be there. *)
#[local] Set Warnings "-clear-no-such-hyp".

(** ** The run time on the values that CPython 3.11 gives *)

Example int_examples :
  Py.int "420" = Some 420 ∧ Py.int " +4_2_0 " = Some 420 ∧
  Py.int "-007" = Some (-7) ∧ Py.int "abc" = None ∧ Py.int "" = None ∧
  Py.int "4__2" = None ∧ Py.int "4_" = None ∧ Py.int "_4" = None ∧
  Py.int "+ 4" = None ∧ Py.int "4 2" = None ∧ Py.int "all" = None ∧
  (* digits and spaces beyond ASCII *)
  Py.int "４２０" = Some 420 ∧ Py.int "　-4２_0　" = Some (-420) ∧
  Py.int "٤٢٠" = Some 420 ∧ Py.int "４２０円" = None ∧
  Py.int "四二〇" = None.
Proof. by vm_compute. Qed.

Example str_examples :
  Py.str 420 = "420" ∧ Py.str 0 = "0" ∧ Py.str (-3) = "-3".
Proof. by vm_compute. Qed.

Example split_examples :
  Py.split "." "14.3.456.789" = ["14"; "3"; "456"; "789"] ∧
  Py.split "." "" = [""] ∧ Py.split "." "." = [""; ""] ∧
  Py.split "." "a..b" = ["a"; ""; "b"].
Proof. by vm_compute. Qed.

Example replace_examples :
  Py.replace "patch_14.3" "patch_" "" = "14.3" ∧
  Py.replace "patch_14.patch_3" "patch_" "" = "14.3" ∧
  Py.replace "ppatch_atch_" "patch_" "" = "patch_".
Proof. by vm_compute. Qed.

(** [1 / 3], [1 / 3 * 100], [round(1 / 3 * 100, 1)], [round(2.675, 2)] (which
    is 2.67: the float 2.675 is below the decimal), the least float and the
    tie below it, and an overflow. *)
Example float_examples :
  Py.truediv 1 3 = Py.Ok (6004799503160661 # 18014398509481984)%Q ∧
  Py.fmul (6004799503160661 # 18014398509481984)%Q 100
  = (2345624805922133 # 70368744177664)%Q ∧
  Py.round_ndigits (2345624805922133 # 70368744177664)%Q 1
  = (2343279181116211 # 70368744177664)%Q ∧
  Py.round_ndigits (Py.rnd64 (2675 # 1000)) 2
  = (1503076375634903 # 562949953421312)%Q ∧
  Py.truediv 3 (2 ^ 1075) = Py.Ok (Qred (Py.pow2 (-1073))) ∧
  Py.truediv 1 (2 ^ 1075) = Py.Ok 0%Q ∧
  Py.truediv (10 ^ 400) 3 = Py.Raise Py.OverflowError ∧
  Py.truediv 1 0 = Py.Raise Py.ZeroDivisionError.
Proof. by vm_compute. Qed.

Example round_examples :
  Py.round (5 # 2) = 2 ∧ Py.round (7 # 2) = 4 ∧ Py.round (28000 # 2) = 14000.
Proof. by vm_compute. Qed.

Example sorted_examples :
  Py.sorted Z.leb fst true [(1, "a"); (2, "b"); (1, "c"); (2, "d")]
  = [(2, "b"); (2, "d"); (1, "a"); (1, "c")] ∧
  Py.sorted String.leb (λ s : string, s) true ["14.1"; "14.9"; "14.10"; "9.1"]
  = ["9.1"; "14.9"; "14.10"; "14.1"] ∧
  Py.slice_to [1; 2; 3] 2 = [1; 2] ∧ Py.slice_to [1; 2; 3] (-1) = [1; 2] ∧
  Py.slice_to [1; 2; 3] 5 = [1; 2; 3].
Proof. by vm_compute. Qed.


(** * The floats *)

Section FloatFacts.
Import Py.
Local Open Scope Q_scope.

Lemma round_half_even_le (x : Q) (n : Z) :
  x <= inject_Z n → (round_half_even x ≤ n)%Z.
Proof.
  intros Hx. unfold round_half_even.
  pose proof (Qfloor_resp_le _ _ Hx) as Hf. rewrite Qfloor_Z in Hf.
  assert (Hlt : (x - inject_Z (Qfloor x) ?= 1 # 2) ≠ Lt → (Qfloor x < n)%Z).
  { intros Hc. destruct (Z.eq_dec (Qfloor x) n) as [Heq|]; [|lia].
    exfalso. apply Hc. apply Qlt_alt. rewrite Heq.
    apply Qle_lt_trans with 0; [|reflexivity].
    apply (Qplus_le_r _ _ (inject_Z n)). ring_simplify. exact Hx. }
  destruct (x - inject_Z (Qfloor x) ?= 1 # 2) eqn:Hc.
  - destruct (Z.even (Qfloor x)); [lia|]. assert (Qfloor x < n)%Z by (apply Hlt; discriminate). lia.
  - lia.
  - assert (Qfloor x < n)%Z by (apply Hlt; discriminate). lia.
Qed.

Lemma round_half_even_ge (x : Q) (n : Z) :
  inject_Z n <= x → (n ≤ round_half_even x)%Z.
Proof.
  intros Hx. unfold round_half_even.
  pose proof (Qfloor_resp_le _ _ Hx) as Hf. rewrite Qfloor_Z in Hf.
  destruct (x - inject_Z (Qfloor x) ?= 1 # 2); [destruct (Z.even _)|..]; lia.
Qed.

Lemma pow2_pos (e : Z) : 0 < pow2 e.
Proof.
  unfold pow2. destruct (0 <=? e)%Z eqn:He; [|reflexivity].
  apply Z.leb_le in He. rewrite <- (Zlt_Qlt 0). apply Z.pow_pos_nonneg; lia.
Qed.

Lemma pow2_nonpos (e : Z) :
  (e ≤ 0)%Z → pow2 e == / inject_Z (2 ^ (- e)).
Proof.
  intros He. unfold pow2. destruct (0 <=? e)%Z eqn:Hb.
  - apply Z.leb_le in Hb. assert (e = 0%Z) as -> by lia. reflexivity.
  - assert (0 < 2 ^ (- e))%Z as Hp by (apply Z.pow_pos_nonneg; lia).
    destruct (2 ^ (- e))%Z eqn:Hd; try lia. reflexivity.
Qed.

Lemma ilog2_le (x : Q) (n : Z) :
  0 < x → x <= inject_Z n → (ilog2 (Qabs x) ≤ Z.log2 n + 1)%Z.
Proof.
  intros H0 Hn. destruct x as [p q]. unfold Qlt, Qle in *. simpl in *.
  assert (0 < p)%Z by lia.
  unfold ilog2. simpl Qnum. simpl Qden. rewrite Z.abs_eq by lia.
  assert (Z.log2 p ≤ Z.log2 n + Z.log2 (Z.pos q) + 1)%Z.
  { assert (0 < n)%Z by nia.
    transitivity (Z.log2 (n * Z.pos q)); [apply Z.log2_le_mono; lia|].
    apply Z.log2_mul_above; lia. }
  destruct (Qle_bool _ _); lia.
Qed.

Lemma rnd64_nonneg (x : Q) : 0 <= x → 0 <= rnd64 x.
Proof.
  intros Hx. unfold rnd64. destruct (Qeq_bool x 0); [apply Qle_refl|].
  rewrite Qred_correct. apply Qmult_le_0_compat.
  - rewrite <- (Zle_Qle 0). apply round_half_even_ge.
    apply Qle_shift_div_l; [apply pow2_pos|]. ring_simplify. exact Hx.
  - apply Qlt_le_weak, pow2_pos.
Qed.

(** Rounding does not step over an integer [n] that is a float: one that is
    a multiple of every power of two that the rounding of a smaller number
    uses. *)
Lemma rnd64_le_grid (x : Q) (n : Z) :
  0 <= x → x <= inject_Z n →
  (∀ e, (e ≤ Z.log2 n - 51)%Z → ∃ N, inject_Z N * pow2 e == inject_Z n) →
  rnd64 x <= inject_Z n.
Proof.
  intros H0 Hn Hgrid. unfold rnd64. destruct (Qeq_bool x 0) eqn:Hz.
  { apply Qle_trans with x; done. }
  apply Qeq_bool_neq in Hz.
  assert (0 < x) as Hpos.
  { apply Qle_lteq in H0 as [|Heq]; [done|]. destruct Hz. by symmetry. }
  pose proof (ilog2_le x n Hpos Hn) as Hl.
  assert (0 ≤ Z.log2 n)%Z as Hlog by apply Z.log2_nonneg.
  set (e := Z.max (ilog2 (Qabs x) - 52) (-1074)) in *.
  destruct (Hgrid e) as [N HN]; [lia|].
  rewrite Qred_correct. pose proof (pow2_pos e) as Hp0.
  set (P := pow2 e) in *.
  assert (round_half_even (x / P) ≤ N)%Z as Hm.
  { apply round_half_even_le. apply Qle_shift_div_r; [done|]. by rewrite HN. }
  rewrite <- HN. apply Qmult_le_compat_r; [|by apply Qlt_le_weak].
  by rewrite <- Zle_Qle.
Qed.

Lemma pow2_grid (n e : Z) :
  (e ≤ 0)%Z → ∃ N, inject_Z N * pow2 e == inject_Z n.
Proof.
  intros He. exists (n * 2 ^ (- e))%Z.
  assert (0 < 2 ^ (- e))%Z as Hd by (apply Z.pow_pos_nonneg; lia).
  assert (0 < inject_Z (2 ^ (- e))) as HdQ by (rewrite <- (Zlt_Qlt 0); done).
  rewrite (pow2_nonpos e He), inject_Z_mult. field.
  intros Hd0. rewrite Hd0 in HdQ. done.
Qed.

Lemma rnd64_le (x : Q) (n : Z) :
  0 <= x → x <= inject_Z n → (Z.log2 n ≤ 50)%Z → rnd64 x <= inject_Z n.
Proof.
  intros H0 Hn Hlog. apply rnd64_le_grid; [done..|].
  intros e He. apply pow2_grid. lia.
Qed.

Lemma rnd64_le_pow2 (x : Q) (k : Z) :
  (0 ≤ k)%Z → 0 <= x → x <= inject_Z (2 ^ k) → rnd64 x <= inject_Z (2 ^ k).
Proof.
  intros Hk H0 Hn. apply rnd64_le_grid; [done..|].
  rewrite Z.log2_pow2 by done. intros e He.
  destruct (Z.le_gt_cases e 0) as [Hneg|Hpos]; [by apply pow2_grid|].
  exists (2 ^ (k - e))%Z. unfold pow2.
  destruct (Z.leb_spec 0 e); [|lia].
  rewrite <- inject_Z_mult, <- Z.pow_add_r by lia.
  by replace (k - e + e)%Z with k by lia.
Qed.

(** A quotient of two [int] in the range of a float is a float. *)
Lemma truediv_Ok (a b : Z) :
  (0 ≤ a ≤ 2 ^ 1023 * b)%Z → (1 ≤ b)%Z → ∃ r, truediv a b = Ok r.
Proof.
  intros Ha Hb. unfold truediv. destruct (Z.eqb_spec b 0); [lia|].
  set (q := inject_Z a / inject_Z b).
  assert (0 < inject_Z b) as HbQ by (rewrite <- (Zlt_Qlt 0); lia).
  assert (0 <= q) as Hq0.
  { apply Qle_shift_div_l; [done|]. ring_simplify. rewrite <- (Zle_Qle 0). lia. }
  assert (q <= inject_Z (2 ^ 1023)) as Hq1.
  { apply Qle_shift_div_r; [done|]. rewrite <- inject_Z_mult, <- Zle_Qle. lia. }
  pose proof (rnd64_nonneg _ Hq0) as Hr0.
  pose proof (rnd64_le_pow2 _ 1023 ltac:(lia) Hq0 Hq1) as Hr1.
  destruct (Qle_bool (pow2 1024) (Qabs (rnd64 q))) eqn:Hover; [|by eexists].
  apply Qle_bool_iff in Hover. rewrite (Qabs_pos _ Hr0) in Hover.
  exfalso. apply (Qle_not_lt _ _ (Qle_trans _ _ _ Hover Hr1)).
  by vm_compute.
Qed.

Lemma round_ndigits_1_bounds (x : Q) :
  0 <= x → x <= 100 → 0 <= round_ndigits x 1 ∧ round_ndigits x 1 <= 100.
Proof.
  intros H0 H100. unfold round_ndigits. change (inject_Z (10 ^ 1)) with 10.
  split.
  - apply rnd64_nonneg. apply Qle_shift_div_l; [reflexivity|].
    ring_simplify. rewrite <- (Zle_Qle 0). apply round_half_even_ge.
    apply Qmult_le_0_compat; [done|discriminate].
  - apply (rnd64_le _ 100); [| |by vm_compute].
    + apply Qle_shift_div_l; [reflexivity|].
      ring_simplify. rewrite <- (Zle_Qle 0). apply round_half_even_ge.
      apply Qmult_le_0_compat; [done|discriminate].
    + apply Qle_shift_div_r; [reflexivity|].
      change (inject_Z 100 * 10) with (inject_Z 1000).
      rewrite <- Zle_Qle. apply round_half_even_le.
      change (inject_Z 1000) with (100 * 10).
      apply Qmult_le_compat_r; [done|discriminate].
Qed.

(** The rate [wins / games * 100] of the source, for [0 <= wins <= games]. *)
Lemma rate_bounds (w g : Z) (r : float) :
  (0 ≤ w ≤ g)%Z → (0 < g)%Z → truediv w g = Ok r →
  0 <= fmul r 100 ∧ fmul r 100 <= 100.
Proof.
  intros Hw Hg Hr. unfold truediv in Hr.
  destruct (Z.eqb_spec g 0); [lia|].
  destruct (Qle_bool _ _); [done|]. injection Hr as <-.
  assert (0 < inject_Z g) as HgQ by (rewrite <- (Zlt_Qlt 0); done).
  assert (0 <= inject_Z w / inject_Z g) as Hq0.
  { apply Qle_shift_div_l; [done|]. ring_simplify. rewrite <- (Zle_Qle 0). lia. }
  assert (inject_Z w / inject_Z g <= inject_Z 1) as Hq1.
  { apply Qle_shift_div_r; [done|]. ring_simplify. rewrite <- Zle_Qle. lia. }
  pose proof (rnd64_nonneg _ Hq0) as Hr0.
  pose proof (rnd64_le _ 1 Hq0 Hq1 ltac:(by vm_compute)) as Hr1.
  unfold fmul. split.
  - apply rnd64_nonneg. apply Qmult_le_0_compat; [done|discriminate].
  - apply (rnd64_le _ 100); [| |by vm_compute].
    + apply Qmult_le_0_compat; [done|discriminate].
    + change (inject_Z 100) with (1 * inject_Z 100).
      apply Qmult_le_compat_r; [done|discriminate].
Qed.
End FloatFacts.

(** * The sort *)

Lemma StronglySorted_weaken {A} (R R' : A → A → Prop) (l : list A) :
  (∀ a b, R a b → R' a b) → StronglySorted R l → StronglySorted R' l.
Proof.
  intros HR. induction 1 as [|x l _ IH Hx]; constructor; [done|].
  eapply Forall_impl; [exact Hx|]. simpl. auto.
Qed.

Section SortFacts.
Context {A : Type} (before : A → A → bool).

Lemma insert_sorted_perm (x : A) (l : list A) :
  Py.insert_sorted before x l ≡ₚ x :: l.
Proof.
  induction l as [|y l IH]; simpl; [done|].
  destruct (before x y); [done|]. rewrite IH. apply Permutation_swap.
Qed.

Lemma stable_sort_perm (l : list A) : Py.stable_sort before l ≡ₚ l.
Proof.
  induction l as [|x l IH]; simpl; [done|].
  rewrite insert_sorted_perm. by rewrite IH.
Qed.

Lemma sublist_filter_mono (P : A → Prop) `{!∀ x, Decision (P x)}
    (l1 l2 : list A) :
  l1 `sublist_of` l2 → filter P l1 `sublist_of` filter P l2.
Proof.
  induction 1 as [|x l1 l2 _ IH|x l1 l2 _ IH]; [done|..];
    rewrite !filter_cons; destruct (decide (P x));
    auto using sublist_skip, sublist_cons.
Qed.

Lemma insert_sorted_filter (P : A → Prop) `{!∀ x, Decision (P x)}
    (x : A) (l : list A) :
  (∀ y, P x → P y → before x y = true) →
  filter P (Py.insert_sorted before x l) = filter P (x :: l).
Proof.
  intros Hxy. induction l as [|y l IH]; simpl; [done|].
  destruct (before x y) eqn:Hb; [done|].
  rewrite filter_cons, IH, !filter_cons.
  destruct (decide (P x)), (decide (P y)); try done.
  rewrite Hxy in Hb; done.
Qed.

Lemma stable_sort_filter (P : A → Prop) `{!∀ x, Decision (P x)}
    (l : list A) :
  (∀ x y, P x → P y → before x y = true) →
  filter P (Py.stable_sort before l) = filter P l.
Proof.
  intros HP. induction l as [|x l IH]; simpl; [done|].
  rewrite insert_sorted_filter by eauto. by rewrite !filter_cons, IH.
Qed.

Context (before_total : ∀ a b, before a b = false → before b a = true).
Context (before_trans :
  ∀ a b c, before a b = true → before b c = true → before a c = true).

Lemma insert_sorted_sorted (x : A) (l : list A) :
  StronglySorted (λ a b, before a b = true) l →
  StronglySorted (λ a b, before a b = true) (Py.insert_sorted before x l).
Proof.
  induction 1 as [|y l Hl IH Hy]; simpl; [repeat constructor|].
  destruct (before x y) eqn:Hb.
  - constructor; [by constructor|]. constructor; [done|].
    eapply Forall_impl; [exact Hy|]. simpl. eauto.
  - constructor; [done|]. rewrite insert_sorted_perm.
    constructor; [by apply before_total|done].
Qed.

Lemma stable_sort_sorted (l : list A) :
  StronglySorted (λ a b, before a b = true) (Py.stable_sort before l).
Proof.
  induction l; simpl; [constructor|by apply insert_sorted_sorted].
Qed.

(** Two elements that the order does not tell apart stand as they stood. *)
Lemma stable_sort_stable (x y : A) (l : list A) :
  [x; y] `sublist_of` Py.stable_sort before l →
  before y x = true →
  [x; y] `sublist_of` l.
Proof.
  intros Hsub Hyx.
  assert (before x y = true) as Hxy.
  { pose proof (stable_sort_sorted l) as Hs.
    apply sublist_cons_l in Hsub as (k1 & k2 & Hk & Hy). rewrite Hk in Hs.
    apply StronglySorted_app in Hs as (_ & _ & Hs).
    apply StronglySorted_inv in Hs as [_ Hs].
    rewrite Forall_forall in Hs. apply Hs.
    eapply elem_of_sublist; [|exact Hy]. set_solver. }
  set (P := λ z, before z x = true ∧ before x z = true).
  assert (∀ z, Decision (P z)) as HdecP by (intros z; unfold P; apply _).
  assert (before x x = true) as Hxx.
  { destruct (before x x) eqn:Hb; [done|]. by rewrite (before_total _ _ Hb) in Hb. }
  assert (filter P [x; y] = [x; y]) as Hf.
  { rewrite !filter_cons, filter_nil.
    destruct (decide (P x)) as [|[]]; [|done].
    destruct (decide (P y)) as [|[]]; done. }
  rewrite <- Hf.
  transitivity (filter P l); [|apply sublist_filter].
  rewrite <- (stable_sort_filter P l).
  - by apply sublist_filter_mono.
  - intros a b [Ha _] [_ Hb]. eauto.
Qed.
End SortFacts.

Section SortedByKey.
Context {A : Type} (key : A → Z).

Lemma sorted_reverse_perm (l : list A) : Py.sorted Z.leb key true l ≡ₚ l.
Proof. apply stable_sort_perm. Qed.

Lemma sorted_reverse_sorted (l : list A) :
  StronglySorted (λ a b, key b ≤ key a) (Py.sorted Z.leb key true l).
Proof.
  eapply StronglySorted_weaken; [|apply stable_sort_sorted].
  - intros a b Hab. by apply Z.leb_le.
  - intros a b Hab. apply Z.leb_le. apply Z.leb_gt in Hab. lia.
  - intros a b c ?%Z.leb_le ?%Z.leb_le. apply Z.leb_le. lia.
Qed.

Lemma sorted_reverse_filter (k : Z) (l : list A) :
  filter (λ a, key a = k) (Py.sorted Z.leb key true l)
  = filter (λ a, key a = k) l.
Proof.
  apply stable_sort_filter. intros x y -> ->. apply Z.leb_refl.
Qed.

Lemma sorted_reverse_stable (x y : A) (l : list A) :
  [x; y] `sublist_of` Py.sorted Z.leb key true l →
  key x = key y →
  [x; y] `sublist_of` l.
Proof.
  intros Hsub Hk. eapply stable_sort_stable; [| |exact Hsub|].
  - intros a b Hab. apply Z.leb_le. apply Z.leb_gt in Hab. lia.
  - intros a b c ?%Z.leb_le ?%Z.leb_le. apply Z.leb_le. lia.
  - apply Z.leb_le. lia.
Qed.
End SortedByKey.

Section SortRelated.
Context {A B : Type} (R : A → B → Prop).
Context (before1 : A → A → bool) (before2 : B → B → bool).
Context (HR : ∀ a b a' b', R a b → R a' b' → before1 a a' = before2 b b').

Lemma insert_sorted_Forall2 a b l1 l2 :
  R a b → Forall2 R l1 l2 →
  Forall2 R (Py.insert_sorted before1 a l1) (Py.insert_sorted before2 b l2).
Proof.
  intros Hab. induction 1 as [|a' b' l1 l2 Hab' Hl IH]; simpl.
  { by repeat constructor. }
  rewrite (HR _ _ _ _ Hab Hab'). destruct (before2 b b'); by repeat constructor.
Qed.

Lemma stable_sort_Forall2 l1 l2 :
  Forall2 R l1 l2 →
  Forall2 R (Py.stable_sort before1 l1) (Py.stable_sort before2 l2).
Proof.
  induction 1; simpl; [constructor|by apply insert_sorted_Forall2].
Qed.
End SortRelated.



(** * Dicts *)

Section DictFacts.
Context {V : Type}.
Implicit Types (d : dict V) (k : string) (v : V).

Lemma dict_get_None d k : dict_get d k = None ↔ k ∉ d.*1.
Proof.
  induction d as [|[k' v'] d IH]; simpl; [set_solver|].
  destruct (String.eqb_spec k' k) as [->|Hne]; [set_solver|].
  rewrite IH. set_solver.
Qed.

Lemma dict_get_Some d k v :
  dict_get d k = Some v →
  ∃ d1 d2, d = d1 ++ (k, v) :: d2 ∧ k ∉ d1.*1.
Proof.
  induction d as [|[k' v'] d IH]; simpl; [done|].
  destruct (String.eqb_spec k' k) as [->|Hne].
  - intros [= ->]. exists [], d. set_solver.
  - intros (d1 & d2 & -> & Hk)%IH. exists ((k', v') :: d1), d2. set_solver.
Qed.

Lemma dict_set_new d k v :
  dict_get d k = None → dict_set d k v = d ++ [(k, v)].
Proof.
  induction d as [|[k' v'] d IH]; simpl; [done|].
  destruct (String.eqb_spec k' k); [done|]. intros ?. by rewrite IH.
Qed.

Lemma dict_set_old d1 d2 k v v' :
  k ∉ d1.*1 → dict_set (d1 ++ (k, v) :: d2) k v' = d1 ++ (k, v') :: d2.
Proof.
  induction d1 as [|[k1 v1] d1 IH]; simpl; intros Hk.
  - by rewrite String.eqb_refl.
  - destruct (String.eqb_spec k1 k) as [->|]; [set_solver|].
    rewrite IH; [done|set_solver].
Qed.

Lemma dict_get_app_new d k v :
  dict_get d k = None → dict_get (d ++ [(k, v)]) k = Some v.
Proof.
  induction d as [|[k' v'] d IH]; simpl.
  - by rewrite String.eqb_refl.
  - by destruct (String.eqb_spec k' k).
Qed.
End DictFacts.

(** * The first loop of [calculate_champion_stats] *)

Lemma accumulate_eq (d : dict Aggregate) (m : Match) :
  accumulate d m =
    match dict_get d (champion m) with
    | None =>
        d ++ [(champion m, add_match (new_aggregate (champion m)) (myData m))]
    | Some agg => dict_set d (champion m) (add_match agg (myData m))
    end.
Proof.
  unfold accumulate, champion. destruct (dict_get d _) as [agg|] eqn:Hget.
  - by rewrite Hget.
  - rewrite (dict_set_new _ _ _ Hget), (dict_get_app_new _ _ _ Hget).
    apply dict_get_None in Hget. by rewrite dict_set_old.
Qed.

Lemma sum_Z_app (l1 l2 : list Z) : sum_Z (l1 ++ l2) = sum_Z l1 + sum_Z l2.
Proof. unfold sum_Z. induction l1; simpl; lia. Qed.

Lemma sum_Z_perm (l1 l2 : list Z) : l1 ≡ₚ l2 → sum_Z l1 = sum_Z l2.
Proof. unfold sum_Z. induction 1; simpl; lia. Qed.

Lemma first_index_app_l (n : string) (l1 l2 : list Match) (p : nat) :
  first_index n l1 = Some p → first_index n (l1 ++ l2) = Some p.
Proof.
  unfold first_index. destruct (list_find _ l1) as [[i x]|] eqn:Hf; [|done].
  intros [= <-]. by rewrite (list_find_app_l _ _ _ _ _ Hf).
Qed.

Lemma first_index_elem (n : string) (l : list Match) :
  n ∈ champion <$> l → ∃ p, first_index n l = Some p ∧ (p < length l)%nat.
Proof.
  intros (m & -> & Hm)%list_elem_of_fmap. unfold first_index.
  destruct (list_find_elem_of (λ m', champion m' = champion m) l m)
    as [[i x] Hf]; [done..|].
  rewrite Hf. exists i. split; [done|].
  apply list_find_Some in Hf as (Hi & _). by apply lookup_lt_Some in Hi.
Qed.

Lemma first_index_snoc (m : Match) (l : list Match) :
  champion m ∉ champion <$> l →
  first_index (champion m) (l ++ [m]) = Some (length l).
Proof.
  intros Hn. unfold first_index. rewrite list_find_app_r.
  - simpl. by rewrite decide_True.
  - apply list_find_None, Forall_forall. intros x Hx Heq.
    apply Hn, list_elem_of_fmap. eauto.
Qed.

Lemma aggregates_of_nil : aggregates_of [] [].
Proof.
  split; simpl; try done.
  - constructor.
  - intros n1 n2 H%sublist_nil_r. done.
  - intros n a H. by apply elem_of_nil in H.
Qed.

Lemma aggregates_of_snoc (l : list Match) (d : dict Aggregate) (m : Match) :
  aggregates_of l d → aggregates_of (l ++ [m]) (accumulate d m).
Proof.
  intros [Hnd Hkeys Hord Hcnt Htot]. rewrite accumulate_eq.
  destruct (dict_get d (champion m)) as [agg|] eqn:Hget.
  - apply dict_get_Some in Hget as (d1 & d2 & -> & Hk).
    rewrite dict_set_old by done.
    assert (∀ v, (d1 ++ (champion m, v) :: d2).*1
                 = (d1 ++ (champion m, agg) :: d2).*1) as Hk1.
    { intros v. by rewrite !fmap_app, !fmap_cons. }
    split.
    + by rewrite Hk1.
    + intros n. rewrite Hk1, Hkeys, fmap_app. simpl.
      rewrite elem_of_app, list_elem_of_singleton. intuition; subst.
      apply Hkeys. rewrite fmap_app. set_solver.
    + intros n1 n2. rewrite Hk1. intros (p & q & Hp & Hq & Hlt)%Hord.
      exists p, q. eauto using first_index_app_l.
    + intros n a. rewrite elem_of_app, elem_of_cons.
      intros [Hin|[[= -> ->]|Hin]].
      * apply (Hcnt n). set_solver.
      * destruct (Hcnt (champion m) agg) as [? ?]; [set_solver|].
        simpl. destruct (win (myData m)); lia.
      * apply (Hcnt n). set_solver.
    + revert Htot. rewrite !fmap_app, !fmap_cons, !sum_Z_app, length_app.
      unfold sum_Z. simpl. lia.
  - apply dict_get_None in Hget.
    assert (champion m ∉ champion <$> l) as Hnew by by rewrite <- Hkeys.
    split.
    + rewrite fmap_app. simpl. apply NoDup_app. split_and!; [done| |].
      * intros x Hx ->%list_elem_of_singleton. done.
      * apply NoDup_singleton.
    + intros n. rewrite !fmap_app. simpl. rewrite !elem_of_app, Hkeys. done.
    + intros n1 n2. rewrite fmap_app. simpl.
      intros (k1 & k2 & Hk & Hs1 & Hs2)%sublist_app_r.
      destruct k2 as [|x k2].
      * rewrite app_nil_r in Hk. subst k1.
        apply Hord in Hs1 as (p & q & Hp & Hq & Hlt).
        exists p, q. eauto using first_index_app_l.
      * assert (x = champion m ∧ k2 = []) as [-> ->].
        { apply sublist_cons_l in Hs2 as (j1 & j2 & Hj & Hs2).
          destruct j1 as [|? [|? ?]]; simplify_eq/=.
          by apply sublist_nil_r in Hs2 as ->. }
        destruct k1 as [|a [|b k1]]; [done| |by destruct k1].
        injection Hk as <- ->.
        assert (n1 ∈ champion <$> l) as Hn1.
        { apply Hkeys. eapply elem_of_sublist; [|exact Hs1]. set_solver. }
        apply first_index_elem in Hn1 as (p & Hp & Hlt).
        exists p, (length l). split_and!; [|by apply first_index_snoc|done].
        by apply first_index_app_l.
    + intros n a. rewrite elem_of_app, list_elem_of_singleton.
      intros [Hin|[= -> ->]]; [by apply (Hcnt n)|].
      simpl. destruct (win (myData m)); lia.
    + revert Htot. rewrite !fmap_app, !sum_Z_app, length_app.
      unfold sum_Z. simpl. lia.
Qed.

Lemma aggregates_of_foldl (l : list Match) :
  aggregates_of l (foldl accumulate [] l).
Proof.
  induction l as [|m l IH] using rev_ind; [apply aggregates_of_nil|].
  rewrite foldl_app. simpl. by apply aggregates_of_snoc.
Qed.

Lemma stats_total_nonneg (l : list Match) :
  Forall nonneg_stats l → 0 ≤ stats_total l.
Proof.
  unfold stats_total, sum_Z.
  induction 1 as [|m l (? & ? & ? & ? & ?) _ IH]; [done|].
  rewrite fmap_cons. simpl.
  apply Z.add_nonneg_nonneg; [unfold stats_sum; lia|done].
Qed.

Lemma totals_within_foldl (l : list Match) (n : string) (agg : Aggregate) :
  Forall nonneg_stats l → (n, agg) ∈ foldl accumulate [] l →
  totals_within (stats_total l) agg.
Proof.
  revert n agg. induction l as [|m l IH] using rev_ind; intros n agg Hl.
  { by intros ?%elem_of_nil. }
  apply Forall_app in Hl as [Hl Hm%Forall_inv].
  pose proof (stats_total_nonneg l Hl) as Hl0.
  assert (stats_total (l ++ [m]) = stats_total l + stats_sum (myData m))
    as Htotal.
  { unfold stats_total. rewrite fmap_app, sum_Z_app. unfold sum_Z. simpl. lia. }
  assert (∀ a, totals_within (stats_total l) a →
               totals_within (stats_total (l ++ [m])) a ∧
               totals_within (stats_total (l ++ [m])) (add_match a (myData m)))
    as Hstep.
  { intros a Ha. unfold nonneg_stats in Hm.
    unfold totals_within in *. rewrite Htotal. unfold stats_sum.
    simpl. lia. }
  rewrite foldl_app. simpl. rewrite accumulate_eq.
  destruct (dict_get _ (champion m)) as [a|] eqn:Hget.
  - apply dict_get_Some in Hget as (d1 & d2 & Hd & Hk). rewrite Hd in *.
    rewrite dict_set_old by done.
    rewrite elem_of_app, elem_of_cons. intros [Hin|[[= -> ->]|Hin]].
    + apply Hstep, (IH n); [done|]. rewrite elem_of_app. by left.
    + apply Hstep, (IH (champion m)); [done|].
      rewrite elem_of_app, elem_of_cons. right. by left.
    + apply Hstep, (IH n); [done|].
      rewrite elem_of_app, elem_of_cons. right. by right.
  - rewrite elem_of_app, list_elem_of_singleton. intros [Hin|[= -> ->]].
    + by apply Hstep, (IH n).
    + apply Hstep. unfold totals_within. simpl. lia.
Qed.

(** * Two dicts with the same keys *)

Section DictRelated.
Context {V W : Type}.

Lemma dict_related_get (P : V → W → Prop) (d1 : dict V) (d2 : dict W) k :
  dict_related P d1 d2 →
  match dict_get d1 k, dict_get d2 k with
  | Some v, Some w => P v w ∧ v ∈ d1.*2
  | None, None => True
  | _, _ => False
  end.
Proof.
  induction 1 as [|[k1 v] [k2 w] d1 d2 [Hk Hvw] _ IH]; simpl in *; [done|].
  subst k2. destruct (String.eqb k1 k).
  - split; [done|]. by left.
  - destruct (dict_get d1 k), (dict_get d2 k); try done.
    destruct IH. split; [done|]. by right.
Qed.

Lemma dict_related_impl (P P' : V → W → Prop) (d1 : dict V) (d2 : dict W) :
  dict_related P d1 d2 →
  (∀ v w, v ∈ d1.*2 → P v w → P' v w) →
  dict_related P' d1 d2.
Proof.
  induction 1 as [|[k1 v] [k2 w] d1 d2 [Hk Hvw] _ IH]; intros HP.
  - constructor.
  - constructor.
    + split; [done|]. apply HP; [by left|done].
    + apply IH. intros v' w' Hv'. apply HP. by right.
Qed.

Lemma dict_related_set (P P' : V → W → Prop) (d1 : dict V) (d2 : dict W)
    k v w' :
  dict_related P d1 d2 → NoDup d1.*2 → dict_get d1 k = Some v →
  P' v w' → (∀ v0 w0, P v0 w0 → v0 ≠ v → P' v0 w0) →
  dict_related P' d1 (dict_set d2 k w').
Proof.
  intros Hrel. revert v.
  induction Hrel as [|[k1 v1] [k2 w] d1 d2 [Hk Hvw] Hrel IH];
    intros v Hnd Hget Hv HP; simpl in *; [done|].
  subst k2. apply NoDup_cons in Hnd as [Hv1 Hnd].
  destruct (String.eqb k1 k).
  - injection Hget as ->. constructor; [done|].
    eapply dict_related_impl; [exact Hrel|].
    intros v0 w0 Hv0 HP0. apply HP; [done|]. by intros ->.
  - constructor.
    + split; [done|]. simpl. apply HP; [done|]. intros ->.
      pose proof (dict_related_get P d1 d2 k Hrel) as Hk.
      rewrite Hget in Hk. destruct (dict_get d2 k); [|done].
      by destruct Hk.
    + by eapply IH.
Qed.
End DictRelated.



Lemma mapM_Ok_Forall2 {A B} (f : A → Py.result B) (l : list A) (k : list B) :
  mapM f l = Py.Ok k → Forall2 (λ x y, f x = Py.Ok y) l k.
Proof.
  revert k. induction l as [|x l IH]; intros k; simpl.
  - intros [= <-]. constructor.
  - unfold mbind, Py.result_bind at 1.
    destruct (f x) as [y|] eqn:Hy; [|done].
    unfold mbind, Py.result_bind at 1.
    destruct (mapM f l) as [k'|]; [|done].
    intros [= <-]. constructor; auto.
Qed.

Lemma sublist_lookup_lt {A} (l : list A) (i j : nat) (x y : A) :
  l !! i = Some x → l !! j = Some y → (i < j)%nat → [x; y] `sublist_of` l.
Proof.
  intros Hi Hj Hlt. rewrite <- (take_drop_middle l i x Hi).
  apply sublist_inserts_l, sublist_skip, singleton_sublist_l.
  apply list_elem_of_lookup. exists (j - S i)%nat.
  rewrite lookup_drop. rewrite <- Hj. f_equal. lia.
Qed.

Lemma champion_stat_Ok (n : string) (a : Aggregate) (s : ChampionStats) :
  champion_stat (n, a) = Py.Ok s →
  stat_championName s = n ∧ games s = agg_games a ∧ wins s = agg_wins a ∧
  losses s = agg_games a - agg_wins a ∧
  (1 ≤ agg_games a → 0 ≤ agg_wins a ≤ agg_games a →
   (0 <= Py.num_value (winRate s) <= 100)%Q).
Proof.
  unfold champion_stat.
  destruct (0 <? agg_games a) eqn:Hg.
  - unfold mbind at 1 2, Py.result_bind at 1 2.
    destruct (Py.truediv (agg_wins a) (agg_games a)) as [r|] eqn:Hr; [|done].
    unfold mbind at 1, Py.result_bind at 1.
    destruct (Py.truediv (_ + _) _) as [kda|]; [|done].
    unfold mbind at 1, Py.result_bind at 1.
    destruct (Py.Float <$> Py.truediv (agg_totalDamageDealt a) _) as [dd|]; [|done].
    unfold mbind at 1, Py.result_bind at 1.
    destruct (Py.Float <$> Py.truediv (agg_totalDamageTaken a) _) as [dt|]; [|done].
    intros [= <-]. simpl. split_and!; try done.
    intros Hg1 Hw.
    destruct (rate_bounds _ _ _ Hw ltac:(lia) Hr) as [H0 H100].
    by apply round_ndigits_1_bounds.
  - unfold mbind at 1 2, Py.result_bind at 1 2.
    destruct (Py.truediv (_ + _) _) as [kda|]; [|done].
    unfold mbind at 1 2, Py.result_bind at 1 2.
    intros [= <-]. simpl. split_and!; try done.
Qed.

(** The second loop does not raise on sums in the range of a float. *)
Lemma champion_stat_returns (n : string) (agg : Aggregate) :
  1 ≤ agg_games agg → 0 ≤ agg_wins agg ≤ agg_games agg →
  totals_within (2 ^ 1023 - 1) agg →
  ∃ s, champion_stat (n, agg) = Py.Ok s.
Proof.
  intros Hg Hw (? & ? & ? & ? & ? & ?). unfold champion_stat.
  destruct (Z.ltb_spec 0 (agg_games agg)); [|lia].
  assert (0 < 2 ^ 1023) as Hpow by done.
  destruct (truediv_Ok (agg_wins agg) (agg_games agg)) as [r ->];
    [nia|lia|].
  destruct (truediv_Ok (agg_totalKills agg + agg_totalAssists agg)
              (if agg_totalDeaths agg =? 0 then 1 else agg_totalDeaths agg))
    as [kda ->]; [|by destruct (Z.eqb_spec (agg_totalDeaths agg) 0); lia|].
  { destruct (Z.eqb_spec (agg_totalDeaths agg) 0); nia. }
  destruct (truediv_Ok (agg_totalDamageDealt agg) (agg_games agg))
    as [dd ->]; [nia|lia|].
  destruct (truediv_Ok (agg_totalDamageTaken agg) (agg_games agg))
    as [dt ->]; [nia|lia|].
  by eexists.
Qed.

Lemma mapM_Ok_total {A B} (f : A → Py.result B) (l : list A) :
  Forall (λ x, ∃ y, f x = Py.Ok y) l → ∃ k, mapM f l = Py.Ok k.
Proof.
  induction 1 as [|x l [y Hy] _ [k IH]]; [by eexists|].
  simpl. rewrite Hy, IH. by eexists.
Qed.

Section Aggregate.
Context (timestamp_ms : datetime → Z).

Lemma calculate_champion_stats_Ok now ms period mode filtered out :
  filter_matches timestamp_ms now ms period mode = Py.Ok filtered →
  calculate_champion_stats timestamp_ms now ms period mode = Py.Ok out →
  ∃ stats,
    Forall2 (λ x s, champion_stat x = Py.Ok s)
      (foldl accumulate [] filtered) stats ∧
    out = Py.sorted Z.leb games true stats.
Proof.
  intros Hf. unfold calculate_champion_stats. rewrite Hf.
  unfold mbind at 1, Py.result_bind at 1.
  destruct filtered as [|m filtered].
  { intros [= <-]. exists []. split; [constructor|done]. }
  unfold mbind at 1, Py.result_bind at 1.
  destruct (mapM _ _) as [stats|] eqn:Hstats; [|done].
  intros [= <-]. exists stats. split; [|done].
  by apply mapM_Ok_Forall2.
Qed.

(** On matches whose statistics are natural numbers with a sum in the range
    of a float, [calculate_champion_stats] returns a list. *)
Lemma calculate_champion_stats_total now ms period mode filtered :
  filter_matches timestamp_ms now ms period mode = Py.Ok filtered →
  Forall nonneg_stats filtered → stats_total filtered < 2 ^ 1023 →
  ∃ out,
    calculate_champion_stats timestamp_ms now ms period mode = Py.Ok out.
Proof.
  intros Hf Hnonneg Htotal.
  unfold calculate_champion_stats. rewrite Hf. simpl.
  destruct filtered as [|m filtered]; [by eexists|].
  set (l := m :: filtered) in *.
  destruct (mapM_Ok_total champion_stat (foldl accumulate [] l))
    as [stats ->]; [|by eexists].
  apply Forall_forall. intros [n agg] Hin.
  destruct (aggregates_of_foldl l) as [_ _ _ Hcnt _].
  destruct (Hcnt n agg Hin) as [Hg Hw].
  apply champion_stat_returns; [done..|].
  pose proof (totals_within_foldl l n agg Hnonneg Hin) as Hwithin.
  unfold totals_within in *. lia.
Qed.

(** C2. Whatever the matches, the period and the mode: when the filtered
    list is empty, [calculate_champion_stats] returns the empty list and does
    not raise; and a list that it returns has at most as many elements as the
    filtered matches have distinct champions, its [games] add up to the
    number of filtered matches, and each of its elements has
    [losses + wins = games] and a [winRate] between 0 and 100. It returns a
    list when the statistics of the filtered matches are natural numbers
    with a sum in the range of a float. *)
Theorem aggregate_invariants now ms period mode filtered :
  filter_matches timestamp_ms now ms period mode = Py.Ok filtered →
  (filtered = [] →
   calculate_champion_stats timestamp_ms now ms period mode = Py.Ok []) ∧
  (Forall nonneg_stats filtered → stats_total filtered < 2 ^ 1023 →
   ∃ out,
     calculate_champion_stats timestamp_ms now ms period mode = Py.Ok out) ∧
  ∀ out,
    calculate_champion_stats timestamp_ms now ms period mode = Py.Ok out →
    (length out ≤ size (list_to_set (champion <$> filtered) : gset string))%nat ∧
    sum_Z (games <$> out) = Z.of_nat (length filtered) ∧
    Forall (λ s, losses s + wins s = games s ∧
                 (0 <= Py.num_value (winRate s) <= 100)%Q) out.
Proof.
  intros Hf. split.
  { intros ->. unfold calculate_champion_stats. by rewrite Hf. }
  split; [by apply calculate_champion_stats_total|].
  intros out Hout.
  destruct (calculate_champion_stats_Ok _ _ _ _ _ _ Hf Hout)
    as (stats & Hstats & ->).
  destruct (aggregates_of_foldl filtered) as [Hnd Hkeys _ Hcnt Htot].
  revert Hstats Hnd Hkeys Hcnt Htot.
  generalize (foldl accumulate [] filtered). intros d Hstats Hnd Hkeys Hcnt Htot.
  pose proof (sorted_reverse_perm games stats) as Hperm.
  split_and!.
  - rewrite Hperm. rewrite <- (Forall2_length _ _ _ Hstats).
    rewrite <- (length_fmap fst d).
    rewrite <- (size_list_to_set (C := gset string)) by done.
    apply Nat.eq_le_incl. f_equal. apply set_eq. intros n.
    rewrite !elem_of_list_to_set. apply Hkeys.
  - rewrite (sum_Z_perm _ (games <$> stats)) by by rewrite Hperm.
    rewrite <- Htot. f_equal. clear -Hstats.
    induction Hstats as [|[n a] s d stats Hs _ IH]; [done|].
    simpl. f_equal; [|done]. by apply champion_stat_Ok in Hs as (_ & -> & _).
  - rewrite Hperm. clear -Hstats Hcnt.
    induction Hstats as [|[n a] s d stats Hs _ IH]; constructor.
    + apply champion_stat_Ok in Hs as (_ & Hg & Hw & Hl & Hrate).
      split; [lia|]. destruct (Hcnt n a) as [? ?]; [set_solver|]. auto.
    + apply IH. intros n' a' Hin. apply (Hcnt n'). set_solver.
Qed.

(** C3. The list that [calculate_champion_stats] returns is sorted by
    [games], largest first, and two of its elements with the same [games]
    stand in the order in which their champions first occur in the filtered
    matches. It returns a list when the statistics of the filtered matches
    are natural numbers with a sum in the range of a float. *)
Theorem aggregate_order now ms period mode filtered :
  filter_matches timestamp_ms now ms period mode = Py.Ok filtered →
  (Forall nonneg_stats filtered → stats_total filtered < 2 ^ 1023 →
   ∃ out,
     calculate_champion_stats timestamp_ms now ms period mode = Py.Ok out) ∧
  ∀ out,
    calculate_champion_stats timestamp_ms now ms period mode = Py.Ok out →
    StronglySorted (λ a b, games b ≤ games a) out ∧
    ∀ i j s1 s2,
      out !! i = Some s1 → out !! j = Some s2 → (i < j)%nat →
      games s1 = games s2 →
      ∃ p q,
        first_index (stat_championName s1) filtered = Some p ∧
        first_index (stat_championName s2) filtered = Some q ∧
        (p < q)%nat.
Proof.
  intros Hf. split; [by apply calculate_champion_stats_total|].
  intros out Hout.
  destruct (calculate_champion_stats_Ok _ _ _ _ _ _ Hf Hout)
    as (stats & Hstats & ->).
  split; [apply sorted_reverse_sorted|].
  intros i j s1 s2 Hi Hj Hlt Hg.
  pose proof (sublist_lookup_lt _ _ _ _ _ Hi Hj Hlt) as Hsub.
  apply sorted_reverse_stable in Hsub; [|done].
  destruct (aggregates_of_foldl filtered) as [_ _ Hord _ _].
  apply Hord.
  assert (stat_championName <$> stats = (foldl accumulate [] filtered).*1)
    as <-.
  { clear -Hstats. induction Hstats as [|[n a] s d stats Hs _ IH]; [done|].
    simpl. f_equal; [|done]. by apply champion_stat_Ok in Hs as (-> & _). }
  change [stat_championName s1; stat_championName s2]
    with (stat_championName <$> [s1; s2]).
  by apply fmap_sublist.
Qed.
End Aggregate.

(** C1. The two games on Ahri of the specification, with the period and the
    mode ["all"], give one element: 2 games, 1 win, 1 loss, a win rate of
    50.0, a KDA of [(12 + 8) / 10 = 2.0], 14000 damage dealt and 12500 damage
    taken on average. The other fields of the two matches and the clock do
    not matter. *)
Theorem aggregate_two_ahri_games timestamp_ms now
    id1 created1 queue1 version1 id2 created2 queue2 version2 :
  calculate_champion_stats timestamp_ms now
    [ {| matchId := id1; gameCreation := created1; queueId := queue1;
         gameVersion := version1; myData := ahri_win |};
      {| matchId := id2; gameCreation := created2; queueId := queue2;
         gameVersion := version2; myData := ahri_loss |} ]
    "all" "all" =
  Py.Ok [ {| stat_championName := "Ahri"; games := 2; wins := 1; losses := 1;
             winRate := Py.Float 50%Q; totalKills := 12; totalDeaths := 10;
             totalAssists := 8; avgKDA := 2%Q; avgDamageDealt := 14000;
             avgDamageTaken := 12500 |} ].
Proof. reflexivity. Qed.

(** C4. For [0 <= count], [get_recent_matches] returns
    [min count (len matches)] matches, sorted by [gameCreation], latest first;
    they are the latest ones: with the matches that are left out they make up
    the input, and none that is left out is later than one that is returned;
    matches with the same [gameCreation] keep the order of the input (those
    returned are the first of them). No period or mode comes into play. *)
Theorem recent_matches (matches : list Match) (count : Z) :
  0 ≤ count →
  let recent := get_recent_matches matches count in
  Z.of_nat (length recent) = count `min` Z.of_nat (length matches) ∧
  StronglySorted (λ a b, gameCreation b ≤ gameCreation a) recent ∧
  (∃ rest, recent ++ rest ≡ₚ matches ∧
     ∀ a b, a ∈ recent → b ∈ rest → gameCreation b ≤ gameCreation a) ∧
  ∀ t, filter (λ m, gameCreation m = t) recent
       `prefix_of` filter (λ m, gameCreation m = t) matches.
Proof.
  intros Hc. unfold get_recent_matches, Py.slice_to.
  destruct (count <? 0) eqn:Hneg; [lia|]. clear Hneg. simpl.
  set (l := Py.sorted Z.leb gameCreation true matches).
  pose proof (sorted_reverse_perm gameCreation matches) as Hperm.
  pose proof (sorted_reverse_sorted gameCreation matches) as Hsorted.
  fold l in Hperm, Hsorted.
  rewrite <- (take_drop (Z.to_nat count) l) in Hsorted.
  apply StronglySorted_app in Hsorted as (Hcross & Htake & _).
  split_and!.
  - rewrite length_take, <- (Permutation_length Hperm). lia.
  - done.
  - exists (drop (Z.to_nat count) l). split; [by rewrite take_drop|].
    intros a b Ha Hb. by apply Hcross.
  - intros t. rewrite <- (sorted_reverse_filter gameCreation t matches).
    fold l. rewrite <- (take_drop (Z.to_nat count) l) at 2.
    rewrite filter_app. by apply prefix_app_r.
Qed.

(** * [filter_matches] *)

Lemma replace_from_absent (old new s : string) :
  Py.contains old s = false → Py.replace_from old new 0 s = s.
Proof.
  induction s as [|c s IH]; [done|]. cbn [Py.contains Py.replace_from].
  intros [Hp Hc]%orb_false_iff. rewrite Hp. by rewrite IH.
Qed.

Lemma comprehension_Ok {A} (cond : A → Py.result bool) (p : A → bool)
    (l : list A) :
  Forall (λ x, cond x = Py.Ok (p x)) l →
  comprehension cond l = Py.Ok (List.filter p l).
Proof.
  induction 1 as [|x l Hx _ IH]; [done|].
  simpl. rewrite Hx, IH. simpl. by destruct (p x).
Qed.

Lemma comprehension_total {A} (cond : A → Py.result bool) (l : list A) :
  Forall (λ x, ∃ b, cond x = Py.Ok b) l → ∃ r, comprehension cond l = Py.Ok r.
Proof.
  induction 1 as [|x l [b Hx] _ [r IH]]; [by eexists|].
  simpl. rewrite Hx, IH. simpl. by eexists.
Qed.

Lemma startswith_patch (v : string) :
  Py.startswith ("patch_" +:+ v) "patch_" = true.
Proof. unfold Py.startswith. cbn. by destruct v. Qed.

Lemma replace_patch (v : string) :
  Py.contains "patch_" v = false →
  Py.replace ("patch_" +:+ v) "patch_" "" = v.
Proof.
  intros Hv. transitivity (Py.replace_from "patch_" "" 0 v).
  - unfold Py.replace. by destruct v.
  - by apply replace_from_absent.
Qed.

Lemma patch_number_contains (v : string) :
  patch_number v = true → Py.contains "patch_" v = false.
Proof.
  induction v as [|c v IH]; [done|]. cbn [patch_number Py.contains].
  intros [Hc Hv]%andb_true_iff. rewrite (IH Hv), orb_false_r.
  cbn [String.prefix]. destruct (ascii_dec "p" c) as [<-|]; [|done].
  by vm_compute in Hc.
Qed.

Section Filter.
Context (timestamp_ms : datetime → Z).

(** The patch filter on a patch that holds no ["patch_"]: [str.replace]
    takes the prefix away and nothing else. *)
Lemma filter_patch_prefix now ms v :
  Py.contains "patch_" v = false →
  Forall (λ m, is_Some (gameVersion m)) ms →
  filter_matches timestamp_ms now ms ("patch_" +:+ v) "all"
  = Py.Ok (List.filter (version_startswith v) ms).
Proof.
  intros Hv Hms. unfold filter_matches, period_filter.
  rewrite startswith_patch.
  change (String.eqb ("patch_" +:+ v) "all") with false.
  cbn [negb].
  rewrite replace_patch by done.
  rewrite (comprehension_Ok _ (version_startswith v)); [done|].
  eapply Forall_impl; [exact Hms|]. intros m [g Hg].
  unfold subscript_gameVersion, version_startswith. by rewrite Hg.
Qed.

(** C5. With a period ["patch_" + v], where [v] is a patch number, and the
    mode ["all"], [filter_matches] keeps the matches whose [gameVersion]
    starts with [v], in their order. With ["patch_14.3"], a match of version
    ["14.3.456.789"] is kept, and so is one of version ["14.30.1.1"]. *)
Theorem filter_by_patch (now : datetime) :
  (∀ ms v,
     patch_number v = true →
     Forall (λ m, is_Some (gameVersion m)) ms →
     filter_matches timestamp_ms now ms ("patch_" +:+ v) "all"
     = Py.Ok (List.filter (version_startswith v) ms)) ∧
  (∀ m1 m2,
     gameVersion m1 = Some "14.3.456.789" →
     gameVersion m2 = Some "14.30.1.1" →
     filter_matches timestamp_ms now [m1; m2] "patch_14.3" "all"
     = Py.Ok [m1; m2]).
Proof.
  split.
  - intros ms v Hv Hms.
    apply filter_patch_prefix; [by apply patch_number_contains|done].
  - intros m1 m2 H1 H2. unfold filter_matches. cbn.
    unfold subscript_gameVersion. rewrite H1, H2. reflexivity.
Qed.

(** A period with an inner ["patch_"] loses it too: the period
    ["patch_1patch_4.3"] is the period ["patch_14.3"]. *)
Remark filter_patch_inner_occurrence now ms :
  filter_matches timestamp_ms now ms "patch_1patch_4.3" "all"
  = filter_matches timestamp_ms now ms "patch_14.3" "all".
Proof. reflexivity. Qed.

Lemma period_filter_total now ms period :
  Forall has_keys ms →
  ∃ l, period_filter timestamp_ms now ms period = Py.Ok l ∧
       Forall has_keys l.
Proof.
  intros Hms. unfold period_filter.
  assert (∀ p, Forall has_keys (List.filter p ms)) as Hfilter.
  { intros p. apply Forall_forall. intros m [Hm _]%list_elem_of_In%filter_In.
    rewrite Forall_forall in Hms. by apply Hms, list_elem_of_In. }
  repeat case_match; eauto.
  set (p := λ m, match gameVersion m with
                 | Some g => Py.startswith g (Py.replace period "patch_" "")
                 | None => false
                 end).
  exists (List.filter p ms). split; [|done].
  apply comprehension_Ok. eapply Forall_impl; [exact Hms|].
  intros m [[g Hg] _]. unfold subscript_gameVersion, p. by rewrite Hg.
Qed.

Lemma mode_filter_total ms mode :
  Forall has_keys ms → ∃ l, mode_filter ms mode = Py.Ok l.
Proof.
  intros Hms. unfold mode_filter. repeat case_match; eauto.
  apply comprehension_total. eapply Forall_impl; [exact Hms|].
  intros m [_ Hq]. unfold subscript_queueId.
  destruct (queueId m); [done|by eexists..].
Qed.

(** The comprehension of the mode filter raises at the first match without
    the key [queueId]. *)
Lemma mode_comprehension_raises (queue_id : Z) (ms : list Match) (m : Match) :
  m ∈ ms → queueId m = Absent →
  comprehension
    (λ m, q ← subscript_queueId m; Py.Ok (bool_decide (q = Some queue_id)))
    ms
  = Py.Raise (Py.KeyError "queueId").
Proof.
  intros Hin Hm. unfold subscript_queueId.
  induction ms as [|x ms IH]; [by apply elem_of_nil in Hin|].
  cbn [comprehension].
  destruct (queueId x) as [| |q] eqn:Hx; [done|..];
    (assert (m ∈ ms) as Hin'
       by (apply elem_of_cons in Hin as [->|Hin]; [congruence|done]));
    simpl; by rewrite (IH Hin').
Qed.

(** The keys matter: with a mode that is a number, a match without the key
    [queueId] raises [KeyError]. *)
Remark filter_matches_needs_keys now m :
  queueId m = Absent →
  filter_matches timestamp_ms now [m] "all" "420"
  = Py.Raise (Py.KeyError "queueId").
Proof.
  intros Hq. unfold filter_matches. cbn.
  unfold subscript_queueId. by rewrite Hq.
Qed.

(** C6. A mode that [int] does not read is the mode ["all"]; a period that
    is not known is the period ["all"]; with both, [filter_matches] returns
    its input. On matches that have their keys [filter_matches] never
    raises; on a list with a match without the key [queueId] it raises
    [KeyError] with every mode that [int] reads (and the period
    ["all"]). *)
Theorem filter_permissive now ms period mode :
  (Py.int mode = None →
   filter_matches timestamp_ms now ms period mode
   = filter_matches timestamp_ms now ms period "all") ∧
  (known_period period = false →
   filter_matches timestamp_ms now ms period mode
   = filter_matches timestamp_ms now ms "all" mode) ∧
  (Py.int mode = None → known_period period = false →
   filter_matches timestamp_ms now ms period mode = Py.Ok ms) ∧
  (Forall has_keys ms →
   ∃ filtered, filter_matches timestamp_ms now ms period mode
               = Py.Ok filtered) ∧
  (∀ m, is_Some (Py.int mode) → m ∈ ms → queueId m = Absent →
        filter_matches timestamp_ms now ms "all" mode
        = Py.Raise (Py.KeyError "queueId")).
Proof.
  assert (Hmode : ∀ l, Py.int mode = None → mode_filter l mode = Py.Ok l).
  { intros l Hint. unfold mode_filter. rewrite Hint. by case_match. }
  assert (Hperiod : known_period period = false →
    period_filter timestamp_ms now ms period = Py.Ok ms).
  { unfold known_period.
    intros (((((H1 & H2)%orb_false_iff & H3)%orb_false_iff
               & H4)%orb_false_iff & H5)%orb_false_iff & H6)%orb_false_iff.
    unfold period_filter. by rewrite H1, H2, H3, H4, H5, H6. }
  unfold filter_matches. split_and!.
  - intros Hint. destruct (period_filter _ _ _ _) as [l|]; [|done].
    simpl. by rewrite Hmode.
  - intros Hk. by rewrite Hperiod.
  - intros Hint Hk. rewrite Hperiod by done. simpl. by apply Hmode.
  - intros Hms. destruct (period_filter_total now ms period Hms)
      as (l & -> & Hl). simpl. by apply mode_filter_total.
  - intros m [q Hq] Hin Hm. simpl. unfold mode_filter.
    destruct (String.eqb_spec mode "all") as [->|_]; [done|].
    rewrite Hq. simpl. by apply (mode_comprehension_raises q ms m).
Qed.

Lemma comprehension_sublist {A} (cond : A → Py.result bool) (l r : list A) :
  comprehension cond l = Py.Ok r → r `sublist_of` l.
Proof.
  revert r. induction l as [|x l IH]; intros r; simpl.
  { by intros [= <-]. }
  destruct (cond x) as [b|]; [|done]. simpl.
  destruct (comprehension cond l) as [r'|]; [|done]. simpl.
  intros [= <-]. destruct b; [apply sublist_skip|apply sublist_cons]; auto.
Qed.

Lemma List_filter_sublist {A} (p : A → bool) (l : list A) :
  List.filter p l `sublist_of` l.
Proof.
  induction l as [|x l IH]; simpl; [done|].
  destruct (p x); [by apply sublist_skip|by apply sublist_cons].
Qed.

(** [filter_matches] returns some of the matches, in their order. *)
Lemma filter_matches_sublist now ms period mode filtered :
  filter_matches timestamp_ms now ms period mode = Py.Ok filtered →
  filtered `sublist_of` ms.
Proof.
  unfold filter_matches. simpl.
  destruct (period_filter _ _ _ _) as [l|] eqn:Hp; [|done]. simpl.
  intros Hm. transitivity l.
  - unfold mode_filter in Hm.
    repeat case_match; simplify_eq; eauto using comprehension_sublist.
  - unfold period_filter in Hp.
    repeat case_match; simplify_eq;
      eauto using comprehension_sublist, List_filter_sublist.
Qed.

Lemma stats_total_sublist (l1 l2 : list Match) :
  l1 `sublist_of` l2 → Forall nonneg_stats l2 →
  stats_total l1 ≤ stats_total l2.
Proof.
  unfold stats_total, sum_Z.
  induction 1 as [|m l1 l2 _ IH|m l1 l2 _ IH]; [done|..];
    intros [Hm Hl]%Forall_cons; specialize (IH Hl); rewrite ?fmap_cons;
    cbn [foldr].
  - by apply Z.add_le_mono_l.
  - destruct Hm as (? & ? & ? & ? & ?).
    assert (0 ≤ (stats_sum ∘ myData) m) by (unfold stats_sum; simpl; lia).
    lia.
Qed.

(** [calculate_champion_stats] returns a list, and does not raise, on
    matches that have their keys and whose statistics are natural numbers
    that stay below 2^1023 in total. *)
Lemma calculate_champion_stats_returns now ms period mode :
  Forall has_keys ms → Forall nonneg_stats ms → stats_total ms < 2 ^ 1023 →
  ∃ out,
    calculate_champion_stats timestamp_ms now ms period mode = Py.Ok out.
Proof.
  intros Hkeys Hnonneg Htotal.
  assert (∃ filtered, filter_matches timestamp_ms now ms period mode
                      = Py.Ok filtered) as [filtered Hf].
  { unfold filter_matches.
    destruct (period_filter_total now ms period Hkeys) as (l & -> & Hl).
    by apply mode_filter_total. }
  pose proof (filter_matches_sublist _ _ _ _ _ Hf) as Hsub.
  assert (Forall nonneg_stats filtered) as Hnonneg'.
  { rewrite Forall_forall in *. eauto using elem_of_sublist. }
  pose proof (stats_total_sublist _ _ Hsub Hnonneg) as Hle.
  apply (calculate_champion_stats_total _ _ _ _ _ _ Hf Hnonneg'). lia.
Qed.
End Filter.

(** * Strings *)

Lemma split_nonempty (sep : ascii) (s : string) : Py.split sep s ≠ [].
Proof. induction s as [|c s IH]; simpl; [done|]. by repeat case_match. Qed.

(** A segment of a split holds no separator. *)
Lemma split_segment (sep : ascii) (s seg : string) :
  seg ∈ Py.split sep s → Py.split sep seg = [seg].
Proof.
  revert seg. induction s as [|c s IH]; intros seg; simpl.
  - by intros ->%list_elem_of_singleton.
  - destruct (Ascii.eqb c sep) eqn:Hc.
    + intros [->|Hin]%elem_of_cons; [done|by apply IH].
    + pose proof (split_nonempty sep s).
      destruct (Py.split sep s) as [|p ps]; [done|].
      intros [->|Hin]%elem_of_cons.
      * simpl. rewrite Hc. rewrite (IH p); [done|by left].
      * apply IH. by right.
Qed.

Lemma split_join (sep : ascii) (p0 p1 : string) :
  Py.split sep p0 = [p0] →
  Py.split sep (p0 +:+ String sep p1) = p0 :: Py.split sep p1.
Proof.
  induction p0 as [|c p0 IH]; simpl.
  - by rewrite Ascii.eqb_refl.
  - destruct (Ascii.eqb c sep); [done|].
    pose proof (split_nonempty sep p0).
    destruct (Py.split sep p0) as [|q [|? ?]] eqn:Hq; [done| |done].
    intros [= ->]. by rewrite IH.
Qed.

Lemma string_leb_total (a b : string) :
  String.leb b a = false → String.leb a b = true.
Proof. destruct (String.leb_total a b) as [->| ->]; done. Qed.

Lemma string_ltb_trans (a b c : string) :
  String.ltb a b = true → String.ltb b c = true → String.ltb a c = true.
Proof.
  unfold String.ltb. intros Hab Hbc.
  destruct (String.compare a b) eqn:Hab'; try done.
  destruct (String.compare b c) eqn:Hbc'; try done.
  apply String_as_OT.cmp_lt in Hab', Hbc'.
  pose proof (String_as_OT.lt_trans _ _ _ Hab' Hbc') as Hac.
  apply String_as_OT.cmp_lt in Hac. unfold String_as_OT.cmp in Hac.
  by rewrite Hac.
Qed.

Lemma string_leb_ltb (a b : string) :
  String.leb a b = true ↔ String.ltb a b = true ∨ a = b.
Proof.
  unfold String.leb, String.ltb.
  destruct (String.compare a b) eqn:Hc.
  - apply String_as_OT.cmp_eq in Hc. naive_solver.
  - naive_solver.
  - split; [done|]. intros [?| ->]; [done|].
    assert (String.compare b b = Eq) by by apply String_as_OT.cmp_eq.
    congruence.
Qed.

Lemma string_leb_trans (a b c : string) :
  String.leb a b = true → String.leb b c = true → String.leb a c = true.
Proof.
  rewrite !string_leb_ltb. intros [?| ->] [?| ->]; eauto using string_ltb_trans.
Qed.

Lemma StronglySorted_strict {A} (R : A → A → Prop) (l : list A) :
  StronglySorted R l → NoDup l → StronglySorted (λ a b, R a b ∧ a ≠ b) l.
Proof.
  induction 1 as [|x l _ IH Hx]; intros Hnd; [constructor|].
  apply NoDup_cons in Hnd as [Hx' Hnd]. constructor; [auto|].
  rewrite Forall_forall in *. intros y Hy. split; [auto|]. by intros ->.
Qed.

(** * [get_available_patches] *)

Lemma elem_of_patches_of (matches : list Match) (acc : gset string) (p : string) :
  p ∈ patches_of matches acc ↔
  p ∈ acc ∨ ∃ m, m ∈ matches ∧ patch_of m = Some p.
Proof.
  unfold patches_of. revert acc.
  induction matches as [|m ms IH]; intros acc; simpl.
  - split; [auto|]. intros [?|(m & Hm & _)]; [done|]. by apply elem_of_nil in Hm.
  - rewrite IH. destruct (patch_of m) as [q|] eqn:Hq.
    + rewrite elem_of_union, elem_of_singleton. split.
      * intros [[?| ->]|(m' & ? & ?)]; [auto|right..].
        -- exists m. split; [left|done].
        -- exists m'. split; [by right|done].
      * intros [?|(m' & [->|?]%elem_of_cons & ?)]; [auto| |by eauto].
        left. right. congruence.
    + split.
      * intros [?|(m' & ? & ?)]; [auto|right]. exists m'. split; [by right|done].
      * intros [?|(m' & [->|?]%elem_of_cons & ?)]; [auto|congruence|eauto].
Qed.

Lemma patch_of_Some (m : Match) (p : string) :
  patch_of m = Some p ↔
  ∃ p0 p1 rest,
    Py.split "." (default "" (gameVersion m)) = p0 :: p1 :: rest ∧
    p = p0 +:+ "." +:+ p1.
Proof.
  unfold patch_of. destruct (Py.split _ _) as [|p0 [|p1 rest]]; [naive_solver..|].
  split; [intros [= <-]; eauto|]. by intros (? & ? & ? & [= <- <- <-] & ->).
Qed.

(** C7. [get_available_patches] returns at most 5 strings, sorted as
    strings, largest first and without repetition. Each is made of the first
    two segments of the version of a match, and has two segments. The patch
    of every match with two segments or more is returned, unless 5 larger
    ones are. The empty list gives the empty list. As strings, ["14.9"] is
    larger than ["14.10"]. *)
Theorem available_patches (matches : list Match) :
  let patches := get_available_patches matches in
  (length patches ≤ 5)%nat ∧
  StronglySorted (λ a b, String.ltb b a = true) patches ∧
  (∀ p, p ∈ patches →
     ∃ m p0 p1 rest,
       m ∈ matches ∧
       Py.split "." (default "" (gameVersion m)) = p0 :: p1 :: rest ∧
       p = p0 +:+ "." +:+ p1 ∧ Py.split "." p = [p0; p1]) ∧
  (∀ m p0 p1 rest,
     m ∈ matches →
     Py.split "." (default "" (gameVersion m)) = p0 :: p1 :: rest →
     p0 +:+ "." +:+ p1 ∈ patches ∨
     (length patches = 5%nat ∧
      ∀ q, q ∈ patches → String.ltb (p0 +:+ "." +:+ p1) q = true)) ∧
  (matches = [] → patches = []) ∧
  String.ltb "14.10" "14.9" = true ∧
  (∀ m1 m2,
     gameVersion m1 = Some "14.10.1.1" → gameVersion m2 = Some "14.9.1.1" →
     get_available_patches [m1; m2] = ["14.9"; "14.10"]).
Proof.
  assert (∀ m1 m2,
    gameVersion m1 = Some "14.10.1.1" → gameVersion m2 = Some "14.9.1.1" →
    get_available_patches [m1; m2] = ["14.9"; "14.10"]) as Hscenario.
  { intros m1 m2 H1 H2. unfold get_available_patches, patch_of. simpl.
    rewrite H1, H2. by vm_compute. }
  destruct matches as [|m0 ms].
  { simpl. split_and!; try done; [lia|constructor|..].
    - intros p Hp. by apply elem_of_nil in Hp.
    - intros m ? ? ? Hm. by apply elem_of_nil in Hm. }
  set (matches := m0 :: ms).
  change (get_available_patches matches) with
    (Py.slice_to (Py.sorted String.leb (λ p : string, p) true
                    (elements (patches_of matches ∅))) 5).
  set (l := Py.sorted _ _ _ _).
  assert (l ≡ₚ elements (patches_of matches ∅)) as Hperm
    by apply stable_sort_perm.
  assert (NoDup l) as Hnd by (rewrite Hperm; apply NoDup_elements).
  assert (StronglySorted (λ a b, String.ltb b a = true) l) as Hsorted.
  { eapply StronglySorted_weaken;
      [|apply StronglySorted_strict; [apply stable_sort_sorted|exact Hnd]].
    - simpl. intros a b [[?| ->]%string_leb_ltb ?]; done.
    - simpl. intros a b. apply string_leb_total.
    - simpl. intros a b c ? ?. by eapply string_leb_trans. }
  assert (∀ p, p ∈ l ↔ ∃ m, m ∈ matches ∧ patch_of m = Some p) as Hl.
  { intros p. rewrite Hperm, elem_of_elements, elem_of_patches_of. set_solver. }
  unfold Py.slice_to. simpl. change (Pos.to_nat 5) with 5%nat.
  rewrite <- (take_drop 5 l) in Hsorted.
  apply StronglySorted_app in Hsorted as (Hcross & Htake & _).
  split_and!; [| | | | |done|done].
  - rewrite length_take. lia.
  - done.
  - intros p Hp. assert (p ∈ l) as (m & Hm & Hpm)%Hl.
    { eapply elem_of_sublist; [exact Hp|apply sublist_take]. }
    apply patch_of_Some in Hpm as (p0 & p1 & rest & Hsplit & ->).
    exists m, p0, p1, rest. split_and!; try done.
    assert (p0 ∈ Py.split "." (default "" (gameVersion m))) as H0
      by (rewrite Hsplit; set_solver).
    assert (p1 ∈ Py.split "." (default "" (gameVersion m))) as H1
      by (rewrite Hsplit; set_solver).
    apply split_segment in H0, H1.
    change ("." +:+ p1) with (String "." p1).
    by rewrite split_join, H1.
  - intros m p0 p1 rest Hm Hsplit.
    assert (p0 +:+ "." +:+ p1 ∈ l) as Hin.
    { apply Hl. exists m. split; [done|]. apply patch_of_Some. eauto. }
    rewrite <- (take_drop 5 l) in Hin. apply elem_of_app in Hin as [?|Hin]; [auto|].
    right. split.
    + rewrite length_take. apply list_elem_of_lookup in Hin as [i Hi].
      apply lookup_lt_Some in Hi. rewrite length_drop in Hi. lia.
    + intros q Hq. by apply Hcross.
  - done.
Qed.

(** * [get_available_modes] *)

Lemma elem_of_queue_ids_of (matches : list Match) (acc : gset Z) (q : Z) :
  q ∈ queue_ids_of matches acc ↔
  q ∈ acc ∨ ∃ m, m ∈ matches ∧ queueId m = Value q.
Proof.
  unfold queue_ids_of. revert acc.
  induction matches as [|m ms IH]; intros acc; simpl.
  - split; [auto|]. intros [?|(m & Hm & _)]; [done|]. by apply elem_of_nil in Hm.
  - rewrite IH. destruct (queueId m) as [| |q'] eqn:Hq.
    + split.
      * intros [?|(m' & ? & ?)]; [auto|right]. exists m'. split; [by right|done].
      * intros [?|(m' & [->|?]%elem_of_cons & ?)]; [auto|congruence|eauto].
    + split.
      * intros [?|(m' & ? & ?)]; [auto|right]. exists m'. split; [by right|done].
      * intros [?|(m' & [->|?]%elem_of_cons & ?)]; [auto|congruence|eauto].
    + rewrite elem_of_union, elem_of_singleton. split.
      * intros [[?| ->]|(m' & ? & ?)]; [auto|right..].
        -- exists m. split; [left|done].
        -- exists m'. split; [by right|done].
      * intros [?|(m' & [->|?]%elem_of_cons & ?)]; [auto| |by eauto].
        left. right. congruence.
Qed.

(** [str(n)] within the limit of the digits, and beyond it. *)
Lemma str_of_int_Ok (q : Z) :
  within_str_digits q → Py.str_of_int q = Py.Ok (Py.str q).
Proof.
  unfold within_str_digits, Py.str_of_int. intros Hq.
  by destruct (Nat.leb_spec (Py.count_digits (Py.str q)) Py.max_str_digits);
    [|lia].
Qed.

Lemma str_of_int_Raise (q : Z) :
  ¬ within_str_digits q → Py.str_of_int q = Py.Raise Py.ValueError.
Proof.
  unfold within_str_digits, Py.str_of_int. intros Hq.
  by destruct (Nat.leb_spec (Py.count_digits (Py.str q)) Py.max_str_digits).
Qed.

Lemma get_queue_name_Ok (q : Z) :
  within_str_digits q → get_queue_name q = Py.Ok (queue_name q).
Proof. intros Hq. unfold get_queue_name. by rewrite str_of_int_Ok. Qed.

Lemma get_queue_name_Raise (q : Z) :
  ¬ within_str_digits q → get_queue_name q = Py.Raise Py.ValueError.
Proof. intros Hq. unfold get_queue_name. by rewrite str_of_int_Raise. Qed.

Lemma make_mode_Ok (q : Z) :
  within_str_digits q → make_mode q = Py.Ok (mode_of q).
Proof.
  intros Hq. unfold make_mode.
  by rewrite str_of_int_Ok, get_queue_name_Ok.
Qed.

Lemma make_mode_Raise (q : Z) :
  ¬ within_str_digits q → make_mode q = Py.Raise Py.ValueError.
Proof. intros Hq. unfold make_mode. by rewrite str_of_int_Raise. Qed.

Lemma within_str_digits_dec (q : Z) :
  within_str_digits q ∨ ¬ within_str_digits q.
Proof. unfold within_str_digits. lia. Qed.

(** The second loop of [get_available_modes]: it ends at the first id that
    [str] does not return. *)
Lemma mapM_make_mode (ids : list Z) :
  (Forall within_str_digits ids →
   mapM make_mode ids = Py.Ok (mode_of <$> ids)) ∧
  (¬ Forall within_str_digits ids →
   mapM make_mode ids = Py.Raise Py.ValueError).
Proof.
  induction ids as [|q ids [IHok IHraise]].
  { split; [done|]. intros []. constructor. }
  cbn [mapM]. destruct (within_str_digits_dec q) as [Hq|Hq].
  - rewrite make_mode_Ok by done. simpl. split.
    + intros [_ Hids]%Forall_cons. by rewrite IHok.
    + intros Hids. rewrite IHraise; [done|].
      intros ?. apply Hids. by constructor.
  - rewrite make_mode_Raise by done. split; [|done].
    by intros [? _]%Forall_cons.
Qed.

Lemma mapM_make_mode_Ok (ids : list Z) (modes : list Mode) :
  mapM make_mode ids = Py.Ok modes →
  Forall within_str_digits ids ∧ modes = mode_of <$> ids.
Proof.
  intros Hmodes. destruct (mapM_make_mode ids) as [Hok Hraise].
  assert (Forall within_str_digits ids) as Hids.
  { apply Forall_forall. intros q Hq.
    destruct (within_str_digits_dec q) as [|Hn]; [done|].
    rewrite Hraise in Hmodes; [done|].
    intros Hall. by apply Hn, (proj1 (Forall_forall _ _) Hall). }
  split; [done|]. rewrite Hok in Hmodes by done. congruence.
Qed.

(** The queue ids of the matches, as [get_available_modes] sorts them. *)
Lemma sorted_queue_ids (matches : list Match) :
  ∃ ids,
    StronglySorted Z.lt ids ∧
    (∀ q, q ∈ ids ↔ ∃ m, m ∈ matches ∧ queueId m = Value q) ∧
    get_available_modes matches = mapM make_mode ids.
Proof.
  destruct matches as [|m0 ms].
  { exists []. split_and!; [constructor| |done].
    intros q. split; [by intros ?%elem_of_nil|].
    by intros (m & ?%elem_of_nil & _). }
  set (ms' := m0 :: ms).
  exists (Py.sorted Z.leb (λ q : Z, q) false (elements (queue_ids_of ms' ∅))).
  set (l := Py.sorted _ _ _ _).
  assert (l ≡ₚ elements (queue_ids_of ms' ∅)) as Hperm
    by apply stable_sort_perm.
  split_and!; [| |done].
  - eapply StronglySorted_weaken;
      [|apply StronglySorted_strict; [apply stable_sort_sorted|]].
    + simpl. intros a b [?%Z.leb_le ?]. lia.
    + simpl. intros a b ?%Z.leb_gt. apply Z.leb_le. lia.
    + simpl. intros a b c ?%Z.leb_le ?%Z.leb_le. apply Z.leb_le. lia.
    + rewrite Hperm. apply NoDup_elements.
  - intros q. rewrite Hperm, elem_of_elements, elem_of_queue_ids_of.
    set_solver.
Qed.

(** C8. Within the limit that [str] puts on the digits of an [int],
    [get_available_modes] returns one mode per queue id that a match has
    (absent keys and [None] do not count), by increasing id, with the id as
    a string and its name; with an id beyond the limit it raises
    [ValueError]. The table of names has the seven ids of the
    specification, and another id has a name that holds the id. The empty
    list gives the empty list. *)
Theorem available_modes (matches : list Match) :
  (∃ ids,
     StronglySorted Z.lt ids ∧
     (∀ q, q ∈ ids ↔ ∃ m, m ∈ matches ∧ queueId m = Value q) ∧
     (Forall within_str_digits ids →
      get_available_modes matches = Py.Ok (mode_of <$> ids)) ∧
     (¬ Forall within_str_digits ids →
      get_available_modes matches = Py.Raise Py.ValueError)) ∧
  Forall (λ q, is_Some (QUEUE_NAMES !! q))
    [420; 440; 400; 430; 450; 1700; 1900] ∧
  (∀ q name, QUEUE_NAMES !! q = Some name →
             get_queue_name q = Py.Ok name) ∧
  (∀ q, q ∉ [420; 440; 400; 430; 450; 1700; 1900] →
        (within_str_digits q →
         get_queue_name q = Py.Ok ("その他 (" +:+ Py.str q +:+ ")")) ∧
        (¬ within_str_digits q →
         get_queue_name q = Py.Raise Py.ValueError)) ∧
  get_available_modes [] = Py.Ok [].
Proof.
  split_and!.
  - destruct (sorted_queue_ids matches) as (ids & Hsorted & Hids & ->).
    exists ids. split_and!; [done|done|apply mapM_make_mode..].
  - repeat (apply Forall_cons; split; [vm_compute; by eexists|]).
    constructor.
  - intros q name Hq. rewrite get_queue_name_Ok.
    + unfold queue_name. by rewrite Hq.
    + unfold QUEUE_NAMES in Hq. simpl in Hq.
      repeat (rewrite lookup_insert_Some in Hq;
              destruct Hq as [[<- _]|[_ Hq]];
              [unfold within_str_digits; vm_compute; lia|]).
      by rewrite lookup_empty in Hq.
  - intros q Hq. split; [|apply get_queue_name_Raise].
    intros Hd. rewrite get_queue_name_Ok by done. f_equal.
    unfold queue_name, QUEUE_NAMES. simpl.
    rewrite !lookup_insert_ne, lookup_empty by set_solver. done.
  - done.
Qed.

(** C8, as stated, fails on a queue id of 4301 digits: [str] does not return
    the id, and the call raises [ValueError]. *)
Lemma available_modes_raises :
  get_available_modes [sample_match 0 "14.3.1.1" (Value (10 ^ 4300)) ahri_win]
  = Py.Raise Py.ValueError.
Proof. by vm_compute. Qed.

(** * The programs on a store *)

Module HeapFacts.
Import Heap.



(** ** Weakest preconditions *)

Lemma wp_ret {A} (a : A) σ Q : Q (Py.Ok a) σ → wp (mret a) σ Q.
Proof. done. Qed.

Lemma wp_lift {A} (r : Py.result A) σ Q : Q r σ → wp (lift r) σ Q.
Proof. done. Qed.

Lemma wp_bind {A B} (c : M A) (k : A → M B) σ Q :
  wp c σ (λ r σ', match r with
                  | Py.Ok a => wp (k a) σ' Q
                  | Py.Raise e => Q (Py.Raise e) σ'
                  end) →
  wp (c ≫= k) σ Q.
Proof. unfold wp, mbind, M_bind. by destruct (c σ) as [[a|e] σ']. Qed.

Lemma wp_mono {A} (c : M A) σ (Q Q' : Py.result A → store → Prop) :
  wp c σ Q → (∀ r σ', Q r σ' → Q' r σ') → wp c σ Q'.
Proof. unfold wp. auto. Qed.

Lemma wp_alloc o σ Q :
  (∀ l, σ !! l = None → Q (Py.Ok l) (<[l:=o]> σ)) → wp (alloc o) σ Q.
Proof.
  intros HQ. unfold wp, alloc. simpl. apply HQ.
  apply not_elem_of_dom, is_fresh.
Qed.

Lemma wp_load l o σ Q : σ !! l = Some o → Q (Py.Ok o) σ → wp (load l) σ Q.
Proof. intros Hl HQ. unfold wp, load. by rewrite Hl. Qed.

Lemma wp_store_at l o σ Q : Q (Py.Ok ()) (<[l:=o]> σ) → wp (store_at l o) σ Q.
Proof. done. Qed.

Lemma wp_load_list l items σ Q :
  σ !! l = Some (OList items) → Q (Py.Ok items) σ → wp (load_list l) σ Q.
Proof.
  intros Hl HQ. apply wp_bind, (wp_load _ _ _ _ Hl). by apply wp_ret.
Qed.

Lemma wp_load_match v m σ Q :
  read_match σ v = Some m → Q (Py.Ok m) σ → wp (load_match v) σ Q.
Proof.
  unfold read_ref. destruct v as [l| |]; [|done..].
  destruct (σ !! l) as [[]|] eqn:Hl; try done. intros [= ->] HQ.
  apply wp_bind. unfold load_ref. apply (wp_load _ _ _ _ Hl). by apply wp_ret.
Qed.

Lemma wp_load_stats v s σ Q :
  read_stats σ v = Some s → Q (Py.Ok s) σ → wp (load_stats v) σ Q.
Proof.
  unfold read_ref. destruct v as [l| |]; [|done..].
  destruct (σ !! l) as [[]|] eqn:Hl; try done. intros [= ->] HQ.
  apply wp_bind. unfold load_ref. apply (wp_load _ _ _ _ Hl). by apply wp_ret.
Qed.

(** ** Reading *)

Lemma read_list_Some {A} (rd : store → val → option A) σ l xs :
  read_list rd σ l = Some xs ↔
  ∃ items, σ !! l = Some (OList items) ∧
           Forall2 (λ v x, rd σ v = Some x) items xs.
Proof.
  unfold read_list. destruct (σ !! l) as [o|]; [|naive_solver].
  destruct o; try naive_solver. rewrite mapM_Some. naive_solver.
Qed.

Lemma read_ref_mono {A} (as_A : obj → option A) σ σ' v x :
  σ ⊆ σ' → read_ref as_A σ v = Some x → read_ref as_A σ' v = Some x.
Proof.
  intros Hsub. unfold read_ref. destruct v as [l| |]; [|done..].
  destruct (σ !! l) as [o|] eqn:Hl; [|done].
  by rewrite (lookup_weaken _ _ _ _ Hl Hsub).
Qed.

(** An update of an object of another kind does not show. *)
Lemma read_ref_insert {A} (as_A : obj → option A) σ p o v x :
  σ !! p ≫= as_A = None →
  read_ref as_A σ v = Some x → read_ref as_A (<[p:=o]> σ) v = Some x.
Proof.
  intros Hp. unfold read_ref. destruct v as [l| |]; [|done..].
  intros Hl. rewrite lookup_insert_ne; [done|]. intros ->.
  rewrite Hl in Hp. done.
Qed.

Lemma read_list_mono {A} (as_A : obj → option A) σ σ' l xs :
  σ ⊆ σ' → read_list (read_ref as_A) σ l = Some xs →
  read_list (read_ref as_A) σ' l = Some xs.
Proof.
  intros Hsub (items & Hl & Hitems)%read_list_Some. apply read_list_Some.
  exists items. split; [by eapply lookup_weaken|].
  eapply Forall2_impl; [exact Hitems|]. eauto using read_ref_mono.
Qed.

(** ** List comprehensions *)

Lemma wp_keep cond items ms σ Q :
  Forall2 (λ v m, read_match σ v = Some m) items ms →
  (∀ r, match Stats.comprehension cond ms with
        | Py.Ok ms' =>
            ∃ items', r = Py.Ok items' ∧
                      Forall2 (λ v m, read_match σ v = Some m) items' ms'
        | Py.Raise e => r = Py.Raise e
        end → Q r σ) →
  wp (keep cond items) σ Q.
Proof.
  intros Hitems. revert Q.
  induction Hitems as [|v m items ms Hv _ IH]; intros Q HQ; simpl.
  { apply wp_ret, HQ. simpl. eauto. }
  apply wp_bind, (wp_load_match _ _ _ _ Hv).
  apply wp_bind, wp_lift. cbn [Stats.comprehension] in HQ.
  destruct (cond m) as [b|e]; simpl in *; [|by apply HQ].
  apply wp_bind, IH. intros r Hr.
  destruct (Stats.comprehension cond ms) as [ms'|e]; simpl in *.
  - destruct Hr as (items' & -> & Hitems'). apply wp_ret, HQ.
    destruct b; eauto.
  - subst r. by apply HQ.
Qed.

Lemma wp_comprehension cond l items ms σ Q :
  σ !! l = Some (OList items) →
  Forall2 (λ v m, read_match σ v = Some m) items ms →
  (∀ r σ',
     match Stats.comprehension cond ms with
     | Py.Ok ms' =>
         ∃ l' items', r = Py.Ok l' ∧ σ !! l' = None ∧
                      σ' = <[l':=OList items']> σ ∧
                      Forall2 (λ v m, read_match σ v = Some m) items' ms'
     | Py.Raise e => r = Py.Raise e ∧ σ' = σ
     end → Q r σ') →
  wp (Heap.comprehension cond l) σ Q.
Proof.
  intros Hl Hitems HQ. unfold Heap.comprehension.
  apply wp_bind, (wp_load_list _ _ _ _ Hl).
  apply wp_bind, (wp_keep _ _ _ _ _ Hitems). intros r Hr.
  destruct (Stats.comprehension cond ms) as [ms'|e].
  - destruct Hr as (items' & -> & Hitems'). apply wp_alloc. intros l' Hl'.
    apply HQ. eauto 10.
  - subst r. by apply HQ.
Qed.

(** ** [filter_matches] *)

Lemma wp_phase (c : option (Match → Py.result bool)) σ0 σ l ms Q :
  σ0 ⊆ σ → σ0 !! l = None → read_list read_match σ l = Some ms →
  (∀ r σ',
     agrees read_match σ0 (match c with
                | Some cond => Stats.comprehension cond ms
                | None => Py.Ok ms
                end) r σ' → Q r σ') →
  wp (match c with
      | Some cond => Heap.comprehension cond l
      | None => mret l
      end) σ Q.
Proof.
  intros Hsub Hnew Hl HQ. destruct c as [cond|].
  - apply read_list_Some in Hl as (items & Hl & Hitems).
    apply (wp_comprehension _ _ _ _ _ _ Hl Hitems). intros r σ' Hr.
    apply HQ. destruct (Stats.comprehension cond ms) as [ms'|e].
    + destruct Hr as (l' & items' & -> & Hl' & -> & Hitems').
      assert (σ ⊆ <[l':=OList items']> σ) as Hsub' by by apply insert_subseteq.
      split; [by etrans|]. exists l'. split_and!; [done| |].
      * eapply lookup_weaken_None; done.
      * apply read_list_Some. exists items'. rewrite lookup_insert_eq.
        split; [done|]. eapply Forall2_impl; [exact Hitems'|].
        eauto using read_ref_mono.
    + by destruct Hr as [-> ->].
  - apply wp_ret, HQ. split; [done|]. by exists l.
Qed.

Section WithClock.
Context (timestamp_ms : datetime → Z).

Lemma period_filter_cond now ms period :
  Stats.period_filter timestamp_ms now ms period =
  match period_cond timestamp_ms now period with
  | Some cond => Stats.comprehension cond ms
  | None => Py.Ok ms
  end.
Proof.
  unfold Stats.period_filter, period_cond.
  repeat case_match; simplify_eq; try done;
    symmetry; by apply comprehension_Ok, Forall_true.
Qed.

Lemma heap_period_filter_cond now l period :
  Heap.period_filter timestamp_ms now l period =
  match period_cond timestamp_ms now period with
  | Some cond => Heap.comprehension cond l
  | None => mret l
  end.
Proof.
  unfold Heap.period_filter, period_cond.
  repeat case_match; simplify_eq; done.
Qed.

Lemma mode_filter_cond ms mode :
  Stats.mode_filter ms mode =
  match mode_cond mode with
  | Some cond => Stats.comprehension cond ms
  | None => Py.Ok ms
  end.
Proof.
  unfold Stats.mode_filter, mode_cond.
  repeat case_match; simplify_eq; done.
Qed.

Lemma heap_mode_filter_cond l mode :
  Heap.mode_filter l mode =
  match mode_cond mode with
  | Some cond => Heap.comprehension cond l
  | None => mret l
  end.
Proof.
  unfold Heap.mode_filter, mode_cond.
  repeat case_match; simplify_eq; done.
Qed.

Lemma wp_filter_matches now l ms period mode σ Q :
  read_list read_match σ l = Some ms →
  (∀ r σ',
     agrees read_match σ
       (Stats.filter_matches timestamp_ms now ms period mode) r σ' →
     Q r σ') →
  wp (Heap.filter_matches timestamp_ms now l period mode) σ Q.
Proof.
  intros Hl HQ. unfold Heap.filter_matches, Stats.filter_matches in *.
  pose proof Hl as (items & Hitems & Hms)%read_list_Some.
  apply wp_bind, (wp_load_list _ _ _ _ Hitems).
  apply wp_bind, wp_alloc. intros l1 Hl1.
  assert (σ ⊆ <[l1:=OList items]> σ) as Hsub by by apply insert_subseteq.
  apply wp_bind. rewrite heap_period_filter_cond.
  apply (wp_phase _ σ _ _ ms); [done..| |].
  { apply read_list_Some. exists items.
    rewrite lookup_insert_eq. split; [done|].
    eapply Forall2_impl; [exact Hms|]. eauto using read_ref_mono. }
  intros r σ1 [Hsub1 Hr]. rewrite period_filter_cond in HQ.
  destruct (match period_cond timestamp_ms now period with
            | Some cond => _ | None => _ end) as [ms1|e]; simpl in *.
  - destruct Hr as (l2 & -> & Hnew2 & Hl2).
    rewrite heap_mode_filter_cond. rewrite mode_filter_cond in HQ.
    by apply (wp_phase _ σ _ _ ms1).
  - subst r. apply HQ. by split.
Qed.
End WithClock.
(** ** [sorted] on a list of references *)

Lemma wp_sorted_reverse {A} (rd : store → val → option A) (key : A → Z)
    (load_key : val → M Z) items xs σ Q :
  (∀ v x Q', rd σ v = Some x → Q' (Py.Ok (key x)) σ → wp (load_key v) σ Q') →
  Forall2 (λ v x, rd σ v = Some x) items xs →
  (∀ items',
     Forall2 (λ v x, rd σ v = Some x) items' (Py.sorted Z.leb key true xs) →
     Q (Py.Ok items') σ) →
  wp (sorted_reverse load_key items) σ Q.
Proof.
  intros Hkey Hitems HQ. unfold sorted_reverse. apply wp_bind.
  assert (∀ Q',
    (∀ keyed, Forall2 (λ p x, rd σ p.1 = Some x ∧ p.2 = key x) keyed xs →
              Q' (Py.Ok keyed) σ) →
    wp (mapM (λ v, k ← load_key v; mret (v, k)) items) σ Q') as Hmap.
  { clear HQ Q. induction Hitems as [|v x items xs Hv _ IH]; intros Q' HQ'; simpl.
    { apply wp_ret, HQ'. constructor. }
    apply wp_bind, wp_bind, (Hkey _ _ _ Hv). apply wp_ret.
    apply wp_bind, IH. intros keyed Hkeyed. apply wp_ret, HQ'.
    by constructor. }
  apply Hmap. intros keyed Hkeyed. apply wp_ret, HQ.
  apply Forall2_fmap_l.
  eapply Forall2_impl.
  - apply (stable_sort_Forall2 (λ p x, rd σ p.1 = Some x ∧ p.2 = key x));
      [|exact Hkeyed].
    intros a b a' b' [_ ->] [_ ->]. done.
  - simpl. by intros p x [? _].
Qed.

(** ** [get_recent_matches] *)

Lemma wp_get_recent_matches l ms count σ Q :
  read_list read_match σ l = Some ms →
  (∀ r σ',
     agrees read_match σ (Py.Ok (Stats.get_recent_matches ms count)) r σ' →
     Q r σ') →
  wp (Heap.get_recent_matches l count) σ Q.
Proof.
  intros (items & Hl & Hitems)%read_list_Some HQ.
  unfold Heap.get_recent_matches.
  apply wp_bind, (wp_load_list _ _ _ _ Hl).
  apply wp_bind, (wp_sorted_reverse read_match gameCreation _ _ ms);
    [|done|].
  { intros v m Q' Hv HQ'. apply wp_bind, (wp_load_match _ _ _ _ Hv).
    by apply wp_ret. }
  intros items' Hitems'.
  apply wp_bind, wp_alloc. intros l1 Hl1.
  apply wp_bind, (wp_load_list _ items'); [by rewrite lookup_insert_eq|].
  apply wp_alloc. intros l2 Hl2. apply HQ.
  assert (σ ⊆ <[l1:=OList items']> σ) as Hsub1 by by apply insert_subseteq.
  assert (<[l1:=OList items']> σ
          ⊆ <[l2:=OList (Py.slice_to items' count)]> (<[l1:=OList items']> σ))
    as Hsub2 by by apply insert_subseteq.
  pose proof (transitivity Hsub1 Hsub2) as Hsub.
  split; [done|]. exists l2. split_and!; [done| |].
  - exact (lookup_weaken_None _ _ _ Hl2 Hsub1).
  - apply read_list_Some. eexists. rewrite lookup_insert_eq. split; [done|].
    revert Hsub. generalize (<[l2:=OList (Py.slice_to items' count)]>
                               (<[l1:=OList items']> σ)). intros σ2 Hsub.
    unfold Stats.get_recent_matches, Py.slice_to.
    rewrite (Forall2_length _ _ _ Hitems').
    eapply Forall2_impl.
    + destruct (count <? 0); apply Forall2_take, Hitems'.
    + simpl. intros v m Hv. exact (read_ref_mono _ _ _ _ _ Hsub Hv).
Qed.

(** ** [get_available_patches] *)

Lemma wp_load_str_set l s σ Q :
  σ !! l = Some (OStrSet s) → Q (Py.Ok s) σ → wp (load_str_set l) σ Q.
Proof.
  intros Hl HQ. apply wp_bind, (wp_load _ _ _ _ Hl). by apply wp_ret.
Qed.

Lemma wp_load_int_set l s σ Q :
  σ !! l = Some (OIntSet s) → Q (Py.Ok s) σ → wp (load_int_set l) σ Q.
Proof.
  intros Hl HQ. apply wp_bind, (wp_load _ _ _ _ Hl). by apply wp_ret.
Qed.

Lemma wp_add_patches items ms σ p s Q :
  Forall2 (λ v m, read_match σ v = Some m) items ms →
  σ !! p = Some (OStrSet s) →
  Q (Py.Ok ()) (<[p:=OStrSet (patches_of ms s)]> σ) →
  wp (for_each items (add_patch p)) σ Q.
Proof.
  revert ms σ s. induction items as [|v items IH];
    intros ms σ s Hitems Hp HQ; inv Hitems; simpl.
  { apply wp_ret. unfold patches_of in HQ. simpl in HQ.
    by rewrite insert_id in HQ. }
  match goal with H : read_match _ _ = Some ?m |- _ => rename H into Hv end.
  apply wp_bind. unfold add_patch. apply wp_bind, (wp_load_match _ _ _ _ Hv).
  unfold patches_of in HQ. simpl in HQ.
  destruct (patch_of y) as [patch|].
  - apply wp_bind, (wp_load_str_set _ _ _ _ Hp). apply wp_store_at.
    apply (IH l' _ (s ∪ {[patch]})).
    + eapply Forall2_impl; [eassumption|]. simpl. intros v' m' Hv'.
      apply read_ref_insert; [by rewrite Hp|done].
    + by rewrite lookup_insert_eq.
    + by rewrite insert_insert_eq.
  - apply wp_ret. by apply (IH l' _ s).
Qed.

Lemma slice_to_fmap {A B} (f : A → B) (l : list A) (n : Z) :
  Py.slice_to (f <$> l) n = f <$> Py.slice_to l n.
Proof.
  unfold Py.slice_to. rewrite length_fmap.
  destruct (n <? 0); by rewrite fmap_take.
Qed.

Lemma mapM_read_str σ (l : list string) : mapM (read_str σ) (Str <$> l) = Some l.
Proof. apply mapM_Some. apply Forall2_fmap_l. by apply Forall_Forall2_diag, Forall_true. Qed.

Lemma wp_get_available_patches l ms σ Q :
  read_list read_match σ l = Some ms →
  (∀ r σ',
     agrees read_str σ (Py.Ok (Stats.get_available_patches ms)) r σ' →
     Q r σ') →
  wp (Heap.get_available_patches l) σ Q.
Proof.
  intros (items & Hl & Hitems)%read_list_Some HQ.
  unfold Heap.get_available_patches.
  apply wp_bind, (wp_load_list _ _ _ _ Hl).
  destruct Hitems as [|v m items ms Hv Hitems].
  { apply wp_alloc. intros l1 Hl1. apply HQ.
    split; [by apply insert_subseteq|]. exists l1. split_and!; [done..|].
    unfold read_list. by rewrite lookup_insert_eq. }
  apply wp_bind, wp_alloc. intros p Hp.
  assert (σ ⊆ <[p:=OStrSet ∅]> σ) as Hsub0 by by apply insert_subseteq.
  apply wp_bind, (wp_add_patches _ (m :: ms) _ p ∅).
  { constructor; [by eapply read_ref_mono|].
    eapply Forall2_impl; [exact Hitems|]. eauto using read_ref_mono. }
  { by rewrite lookup_insert_eq. }
  rewrite insert_insert_eq.
  set (s := patches_of (m :: ms) ∅).
  assert (σ ⊆ <[p:=OStrSet s]> σ) as Hsub1 by by apply insert_subseteq.
  apply wp_bind, (wp_load_str_set _ s); [by rewrite lookup_insert_eq|].
  apply wp_bind, wp_alloc. intros l1 Hl1.
  set (sorted := Py.sorted String.leb (λ p0 : string, p0) true (elements s)).
  apply wp_bind, (wp_load_list _ (Str <$> sorted));
    [by rewrite lookup_insert_eq|].
  apply wp_alloc. intros l2 Hl2. apply HQ.
  assert (σ !! l1 = None) as Hl1' by exact (lookup_weaken_None _ _ _ Hl1 Hsub1).
  assert (σ !! l2 = None) as Hl2'.
  { apply (lookup_weaken_None _ _ _ Hl2). etrans; [exact Hsub1|].
    by apply insert_subseteq. }
  split.
  - etrans; [exact Hsub1|]. etrans; [|by apply insert_subseteq].
    by apply insert_subseteq.
  - exists l2. split_and!; [done..|].
    unfold read_list. rewrite lookup_insert_eq, slice_to_fmap.
    by rewrite mapM_read_str.
Qed.

(** ** [get_available_modes] *)

Lemma wp_add_queue_ids items ms σ p s Q :
  Forall2 (λ v m, read_match σ v = Some m) items ms →
  σ !! p = Some (OIntSet s) →
  Q (Py.Ok ()) (<[p:=OIntSet (queue_ids_of ms s)]> σ) →
  wp (for_each items (add_queue_id p)) σ Q.
Proof.
  revert ms σ s. induction items as [|v items IH];
    intros ms σ s Hitems Hp HQ; inv Hitems; simpl.
  { apply wp_ret. unfold queue_ids_of in HQ. simpl in HQ.
    by rewrite insert_id in HQ. }
  match goal with H : read_match _ _ = Some ?m |- _ => rename H into Hv end.
  apply wp_bind. unfold add_queue_id.
  apply wp_bind, (wp_load_match _ _ _ _ Hv).
  unfold queue_ids_of in HQ. simpl in HQ.
  destruct (queueId y) as [| |q].
  - apply wp_ret. by apply (IH l' _ s).
  - apply wp_ret. by apply (IH l' _ s).
  - apply wp_bind, (wp_load_int_set _ _ _ _ Hp). apply wp_store_at.
    apply (IH l' _ (s ∪ {[q]})).
    + eapply Forall2_impl; [eassumption|]. simpl. intros v' m' Hv'.
      apply read_ref_insert; [by rewrite Hp|done].
    + by rewrite lookup_insert_eq.
    + by rewrite insert_insert_eq.
Qed.

Lemma wp_append_modes ids σ0 σ lm acc accv Q :
  σ0 ⊆ σ → σ0 !! lm = None →
  σ !! lm = Some (OList acc) →
  Forall2 (λ v x, read_mode σ v = Some x) acc accv →
  (∀ σ' acc',
     Forall within_str_digits ids →
     σ0 ⊆ σ' → σ' !! lm = Some (OList acc') →
     Forall2 (λ v x, read_mode σ' v = Some x) acc' (accv ++ (mode_of <$> ids)) →
     Q (Py.Ok ()) σ') →
  (∀ σ', ¬ Forall within_str_digits ids → σ0 ⊆ σ' →
         Q (Py.Raise Py.ValueError) σ') →
  wp (for_each (Num <$> ids) (append_mode lm)) σ Q.
Proof.
  revert σ acc accv. induction ids as [|q ids IH];
    intros σ acc accv Hsub Hlm0 Hlm Hacc HQ HQraise; simpl.
  { apply wp_ret, (HQ _ acc); [constructor|done..|]. by rewrite app_nil_r. }
  apply wp_bind. destruct (within_str_digits_dec q) as [Hq|Hq].
  2:{ rewrite str_of_int_Raise by done. apply wp_bind, wp_lift.
      apply HQraise; [|done]. by intros [? _]%Forall_cons. }
  rewrite str_of_int_Ok, get_queue_name_Ok by done.
  apply wp_bind, wp_lift. apply wp_bind, wp_lift.
  apply wp_bind, wp_alloc. intros l Hl.
  assert (l ≠ lm) as Hne by (intros ->; congruence).
  apply wp_bind, (wp_load_list _ acc); [by rewrite lookup_insert_ne|].
  apply wp_store_at.
  set (σ1 := <[l:=OMode _]> σ).
  assert (σ ⊆ σ1) as Hsub1 by by apply insert_subseteq.
  apply (IH _ (acc ++ [Ref l]) (accv ++ [mode_of q])).
  - apply insert_subseteq_r; [done|]. by etrans.
  - done.
  - by rewrite lookup_insert_eq.
  - apply Forall2_app.
    + eapply Forall2_impl; [exact Hacc|]. simpl. intros v x Hv.
      apply read_ref_insert.
      * unfold σ1. rewrite lookup_insert_ne by done. by rewrite Hlm.
      * by eapply read_ref_mono.
    + constructor; [|constructor]. unfold read_ref.
      rewrite lookup_insert_ne by done. unfold σ1.
      by rewrite lookup_insert_eq.
  - intros σ' acc' Hids ? ? Hacc'. apply (HQ σ' acc'); [by constructor|done..|].
    by rewrite <- app_assoc in Hacc'.
  - intros σ' Hids ?. apply HQraise; [|done].
    intros [_ ?]%Forall_cons. by apply Hids.
Qed.

Lemma wp_get_available_modes l ms σ Q :
  read_list read_match σ l = Some ms →
  (∀ r σ',
     agrees read_mode σ (Stats.get_available_modes ms) r σ' →
     Q r σ') →
  wp (Heap.get_available_modes l) σ Q.
Proof.
  intros (items & Hl & Hitems)%read_list_Some HQ.
  unfold Heap.get_available_modes.
  apply wp_bind, (wp_load_list _ _ _ _ Hl).
  destruct Hitems as [|v m items ms Hv Hitems].
  { apply wp_alloc. intros l1 Hl1. apply HQ.
    split; [by apply insert_subseteq|]. exists l1. split_and!; [done..|].
    unfold read_list. by rewrite lookup_insert_eq. }
  apply wp_bind, wp_alloc. intros p Hp.
  assert (σ ⊆ <[p:=OIntSet ∅]> σ) as Hsub0 by by apply insert_subseteq.
  apply wp_bind, (wp_add_queue_ids _ (m :: ms) _ p ∅).
  { constructor; [by eapply read_ref_mono|].
    eapply Forall2_impl; [exact Hitems|]. eauto using read_ref_mono. }
  { by rewrite lookup_insert_eq. }
  rewrite insert_insert_eq.
  set (s := queue_ids_of (m :: ms) ∅).
  assert (σ ⊆ <[p:=OIntSet s]> σ) as Hsub1 by by apply insert_subseteq.
  apply wp_bind, (wp_load_int_set _ s); [by rewrite lookup_insert_eq|].
  apply wp_bind, wp_alloc. intros l1 Hl1.
  set (sorted := Py.sorted Z.leb (λ q : Z, q) false (elements s)).
  assert (Stats.get_available_modes (m :: ms) = mapM Stats.make_mode sorted)
    as Hmodes by done.
  destruct (mapM_make_mode sorted) as [Hok Hraise].
  apply wp_bind, wp_alloc. intros lm Hlm.
  assert (lm ≠ l1) as Hne.
  { intros ->. by rewrite lookup_insert_eq in Hlm. }
  apply wp_bind, (wp_load_list _ (Num <$> sorted)).
  { rewrite lookup_insert_ne by done. by rewrite lookup_insert_eq. }
  assert (σ ⊆ <[lm:=OList []]> (<[l1:=OList (Num <$> sorted)]>
                                  (<[p:=OIntSet s]> σ))) as Hsub.
  { etrans; [exact Hsub1|]. etrans; [|by apply insert_subseteq].
    by apply insert_subseteq. }
  assert (σ !! lm = None) as Hlm'.
  { apply (lookup_weaken_None _ _ _ Hlm). etrans; [exact Hsub1|].
    by apply insert_subseteq. }
  apply wp_bind, (wp_append_modes sorted σ _ lm [] []);
    [done|done|by rewrite lookup_insert_eq|constructor|..].
  - intros σ' acc' Hids Hsub' Hacc' Hacc. apply wp_ret, HQ.
    rewrite Hmodes, Hok by done.
    split; [done|]. exists lm. split_and!; [done..|].
    apply read_list_Some. exists acc'. split; [done|]. exact Hacc.
  - intros σ' Hids Hsub'. apply HQ. rewrite Hmodes, Hraise by done.
    by split.
Qed.
Lemma wp_load_aggregates l d σ Q :
  σ !! l = Some (OAggregates d) → Q (Py.Ok d) σ → wp (load_aggregates l) σ Q.
Proof.
  intros Hl HQ. apply wp_bind, (wp_load _ _ _ _ Hl). by apply wp_ret.
Qed.

Lemma wp_load_aggregate l agg σ Q :
  σ !! l = Some (OAggregate agg) → Q (Py.Ok agg) σ →
  wp (load_aggregate l) σ Q.
Proof.
  intros Hl HQ. apply wp_bind, (wp_load _ _ _ _ Hl). by apply wp_ret.
Qed.

Section WithClock.
Context (timestamp_ms : datetime → Z).

Lemma wp_accumulate σ0 σ la dl d v m Q :
  σ0 ⊆ σ → σ0 !! la = None →
  σ !! la = Some (OAggregates dl) → aggregates_at σ0 σ dl d →
  read_match σ v = Some m →
  (∀ σ' dl',
     σ0 ⊆ σ' → σ' !! la = Some (OAggregates dl') →
     aggregates_at σ0 σ' dl' (Stats.accumulate d m) →
     (∀ v' m', read_match σ v' = Some m' → read_match σ' v' = Some m') →
     Q (Py.Ok ()) σ') →
  wp (Heap.accumulate la v) σ Q.
Proof.
  intros Hsub Hla0 Hla [Hrel Hnd] Hv HQ. unfold Heap.accumulate.
  apply wp_bind, (wp_load_match _ _ _ _ Hv).
  apply wp_bind, (wp_load_aggregates _ _ _ _ Hla).
  rewrite accumulate_eq in HQ. fold (champion m).
  pose proof (dict_related_get _ _ _ (champion m) Hrel) as Hget.
  destruct (dict_get dl (champion m)) as [a|] eqn:Hdl,
           (dict_get d (champion m)) as [agg|] eqn:Hd; try done.
  - (* the champion has a dict *)
    destruct Hget as [[Ha Ha0] Hin].
    apply wp_bind, wp_ret.
    apply wp_bind, (wp_load_aggregates _ _ _ _ Hla). rewrite Hdl.
    apply wp_bind, (wp_load_aggregate _ _ _ _ Ha). apply wp_store_at.
    assert (a ≠ la) as Hne by (intros ->; congruence).
    apply (HQ _ dl).
    + by apply insert_subseteq_r.
    + by rewrite lookup_insert_ne.
    + split; [|done].
      apply (dict_related_set _ _ _ _ _ _ _ Hrel Hnd Hdl).
      * by rewrite lookup_insert_eq.
      * intros l0 a0 [? ?] ?. by rewrite lookup_insert_ne.
    + intros v' m' Hv'. apply read_ref_insert; [by rewrite Ha|done].
  - (* a new champion *)
    clear Hget. apply wp_bind, wp_bind, wp_alloc. intros a Ha.
    assert (a ≠ la) as Hne by (intros ->; congruence).
    assert (σ0 !! a = None) as Ha0 by exact (lookup_weaken_None _ _ _ Ha Hsub).
    apply wp_store_at. rewrite (dict_set_new _ _ _ Hdl).
    apply wp_bind, (wp_load_aggregates _ (dl ++ [(champion m, a)]));
      [by rewrite lookup_insert_eq|].
    rewrite (dict_get_app_new _ _ _ Hdl).
    apply wp_bind, (wp_load_aggregate _ (new_aggregate (champion m))).
    { rewrite lookup_insert_ne by done. by rewrite lookup_insert_eq. }
    apply wp_store_at.
    set (σ3 := <[a:=_]> (<[la:=_]> (<[a:=_]> σ))).
    assert (∀ l0 o, σ !! l0 = Some o → l0 ≠ la → σ3 !! l0 = Some o) as Hold.
    { intros l0 o Hl0 Hne0. assert (l0 ≠ a) by (intros ->; congruence).
      unfold σ3. by rewrite !lookup_insert_ne. }
    apply (HQ _ (dl ++ [(champion m, a)])).
    + unfold σ3. repeat apply insert_subseteq_r; done.
    + unfold σ3. rewrite lookup_insert_ne by done.
      by rewrite lookup_insert_eq.
    + split.
      * apply Forall2_app.
        -- apply (dict_related_impl _
             (λ l agg, σ3 !! l = Some (OAggregate agg) ∧ σ0 !! l = None)
             _ _ Hrel).
           intros l0 a0 _ [Hl0 ?]. split; [|done]. apply Hold; [done|].
           intros ->. congruence.
        -- constructor; [|constructor]. simpl. unfold σ3.
           by rewrite lookup_insert_eq.
      * rewrite fmap_app. simpl. apply NoDup_app. split_and!; [done| |].
        -- intros l0 Hl0 ->%list_elem_of_singleton.
           apply list_elem_of_fmap in Hl0 as ([k l0] & -> & Hl0).
           apply list_elem_of_lookup in Hl0 as [i Hi].
           destruct (Forall2_lookup_l _ _ _ _ _ Hrel Hi)
             as ([k' a'] & _ & _ & [Hl0 _]). simpl in *. congruence.
        -- apply NoDup_singleton.
    + intros v' m' Hv'. unfold read_ref in *.
      destruct v' as [l0| |]; [|done..].
      destruct (σ !! l0) as [o|] eqn:Hl0; [|done].
      rewrite (Hold l0 o); [done..|]. intros ->. rewrite Hla in Hl0.
      by simplify_eq.
Qed.

Lemma wp_accumulate_all items ms σ0 σ la dl d Q :
  σ0 ⊆ σ → σ0 !! la = None →
  σ !! la = Some (OAggregates dl) → aggregates_at σ0 σ dl d →
  Forall2 (λ v m, read_match σ v = Some m) items ms →
  (∀ σ' dl',
     σ0 ⊆ σ' → σ' !! la = Some (OAggregates dl') →
     aggregates_at σ0 σ' dl' (foldl Stats.accumulate d ms) →
     Q (Py.Ok ()) σ') →
  wp (for_each items (Heap.accumulate la)) σ Q.
Proof.
  revert ms σ dl d. induction items as [|v items IH];
    intros ms σ dl d Hsub Hla0 Hla Hagg Hitems HQ;
    destruct ms as [|m ms]; try (by inv Hitems); simpl.
  { apply wp_ret. by apply (HQ _ dl). }
  apply Forall2_cons in Hitems as [Hv Hitems].
  apply wp_bind, (wp_accumulate σ0 _ _ dl d _ m); [done..|].
  intros σ' dl' Hsub' Hla' Hagg' Hread.
  apply (IH ms _ dl' (Stats.accumulate d m)); [done..| |done].
  eapply Forall2_impl; [exact Hitems|]. auto.
Qed.

Lemma wp_append_stats dl d σ0 σ ls acc accv Q :
  σ0 ⊆ σ → σ0 !! ls = None →
  σ !! ls = Some (OList acc) →
  Forall2 (λ v s, read_stats σ v = Some s) acc accv →
  dict_related (λ l agg, σ !! l = Some (OAggregate agg)) dl d →
  (∀ r σ',
     σ0 ⊆ σ' →
     match mapM champion_stat d with
     | Py.Ok stats =>
         r = Py.Ok () ∧
         ∃ acc', σ' !! ls = Some (OList acc') ∧
                 Forall2 (λ v s, read_stats σ' v = Some s) acc'
                   (accv ++ stats)
     | Py.Raise e => r = Py.Raise e
     end → Q r σ') →
  wp (for_each dl (append_stat ls)) σ Q.
Proof.
  intros Hsub Hls0 Hls Hacc Hrel. revert d σ acc accv Q Hsub Hls Hacc Hrel.
  induction dl as [|[k l] dl IH]; intros d σ acc accv Q Hsub Hls Hacc Hrel HQ;
    destruct d as [|[k' agg] d]; try (by inv Hrel); cbn [for_each].
  { apply wp_ret, HQ; [done|]. simpl. split; [done|]. exists acc.
    by rewrite app_nil_r. }
  apply Forall2_cons in Hrel as [[Hk Hl] Hrel]. simpl in Hk, Hl. subst k'.
  apply wp_bind. unfold append_stat at 1. cbn [fst snd].
  apply wp_bind, (wp_load_aggregate _ _ _ _ Hl).
  apply wp_bind, wp_lift.
  cbn [mapM] in HQ. unfold mbind at 1, Py.result_bind at 1 in HQ.
  destruct (champion_stat (k, agg)) as [s|e]; [|by apply HQ].
  apply wp_bind, wp_alloc. intros ln Hln.
  assert (ln ≠ ls) as Hne by (intros ->; congruence).
  apply wp_bind, (wp_load_list _ acc); [by rewrite lookup_insert_ne|].
  apply wp_store_at.
  set (σ1 := <[ln:=OStats s]> σ).
  assert (σ ⊆ σ1) as Hsub1 by by apply insert_subseteq.
  apply (IH d _ (acc ++ [Ref ln]) (accv ++ [s])).
  - apply insert_subseteq_r; [done|]. by etrans.
  - by rewrite lookup_insert_eq.
  - apply Forall2_app.
    + eapply Forall2_impl; [exact Hacc|]. simpl. intros v x Hv.
      apply read_ref_insert.
      * unfold σ1. rewrite lookup_insert_ne by done. by rewrite Hls.
      * by eapply read_ref_mono.
    + constructor; [|constructor]. unfold read_ref.
      rewrite lookup_insert_ne by done. unfold σ1.
      by rewrite lookup_insert_eq.
  - apply (dict_related_impl
             (λ l agg, σ !! l = Some (OAggregate agg)) _ _ _ Hrel). simpl.
    intros l0 a0 _ Hl0.
    assert (l0 ≠ ls) by (intros ->; congruence).
    assert (l0 ≠ ln) by (intros ->; congruence).
    unfold σ1. by rewrite !lookup_insert_ne.
  - intros r σ' Hsub' Hr. apply HQ; [done|].
    unfold mbind at 1, Py.result_bind at 1.
    destruct (mapM champion_stat d) as [stats|e]; [|done].
    destruct Hr as (-> & acc' & Hacc' & Hstats). split; [done|].
    exists acc'. split; [done|]. by rewrite <- app_assoc in Hstats.
Qed.

Lemma wp_calculate_champion_stats now l ms period mode σ Q :
  read_list read_match σ l = Some ms →
  (∀ r σ',
     agrees read_stats σ
       (Stats.calculate_champion_stats timestamp_ms now ms period mode)
       r σ' → Q r σ') →
  wp (Heap.calculate_champion_stats timestamp_ms now l period mode) σ Q.
Proof.
  intros Hl HQ.
  unfold Heap.calculate_champion_stats,
    Stats.calculate_champion_stats in *.
  apply wp_bind, (wp_filter_matches _ _ _ ms); [done|].
  intros r σ1 [Hsub1 Hr].
  destruct (Stats.filter_matches _ _ _ _ _) as [filtered|e];
    simpl in *; [|subst r; apply HQ; by split].
  destruct Hr as (lf & -> & Hlf0 & (items & Hlf & Hitems)%read_list_Some).
  apply wp_bind, (wp_load_list _ _ _ _ Hlf).
  destruct Hitems as [|v m items filtered Hv Hitems].
  { apply wp_alloc. intros l1 Hl1. apply HQ.
    split; [etrans; [exact Hsub1|by apply insert_subseteq]|].
    exists l1. split_and!; [done| |].
    - exact (lookup_weaken_None _ _ _ Hl1 Hsub1).
    - unfold read_list. by rewrite lookup_insert_eq. }
  set (ms1 := m :: filtered) in *.
  assert (Forall2 (λ v m, read_match σ1 v = Some m) (v :: items) ms1)
    as Hitems1 by by constructor.
  clearbody ms1. clear Hv Hitems.
  apply wp_bind, wp_alloc. intros la Hla.
  assert (σ !! la = None) as Hla0
    by exact (lookup_weaken_None _ _ _ Hla Hsub1).
  apply wp_bind,
    (wp_accumulate_all _ ms1 σ _ la [] []);
    [by apply insert_subseteq_r|done|by rewrite lookup_insert_eq
    |split; [constructor|constructor]| |].
  { eapply Forall2_impl; [exact Hitems1|]. simpl. intros v' m' Hv'.
    eapply read_ref_mono; [|exact Hv']. by apply insert_subseteq. }
  intros σ2 dl Hsub2 Hla2 [Hagg Hnd].
  apply wp_bind, wp_alloc. intros ls Hls.
  assert (σ !! ls = None) as Hls0
    by exact (lookup_weaken_None _ _ _ Hls Hsub2).
  assert (ls ≠ la) as Hne by (intros ->; congruence).
  apply wp_bind, (wp_load_aggregates _ dl); [by rewrite lookup_insert_ne|].
  apply wp_bind,
    (wp_append_stats dl (foldl Stats.accumulate [] ms1) σ _ ls [] []);
    [by apply insert_subseteq_r|done|by rewrite lookup_insert_eq
    |constructor| |].
  { apply (dict_related_impl
             (λ l agg, σ2 !! l = Some (OAggregate agg) ∧ σ !! l = None)
             _ _ _ Hagg). simpl.
    intros l0 a0 _ [Hl0 _]. rewrite lookup_insert_ne; [done|].
    intros ->. congruence. }
  intros r σ3 Hsub3 Hr.
  unfold mbind at 1, Py.result_bind at 1 in HQ.
  destruct (mapM champion_stat _) as [stats|e];
    [|subst r; apply HQ; by split].
  destruct Hr as (-> & acc & Hacc & Hstats). simpl in Hstats.
  apply wp_bind, (wp_load_list _ _ _ _ Hacc).
  apply wp_bind, (wp_sorted_reverse read_stats games _ _ stats); [|done|].
  { intros v' s' Q' Hv' HQ'. apply wp_bind, (wp_load_stats _ _ _ _ Hv').
    by apply wp_ret. }
  intros items' Hitems'.
  apply wp_bind, wp_store_at, wp_ret, HQ.
  split; [by apply insert_subseteq_r|].
  exists ls. split_and!; [done..|].
  apply read_list_Some. exists items'. rewrite lookup_insert_eq.
  split; [done|]. eapply Forall2_impl; [exact Hitems'|]. simpl.
  intros v' s' Hv'. apply read_ref_insert; [by rewrite Hacc|done].
Qed.
End WithClock.

Lemma agrees_outcome {A} (rd : store → val → option A) σ expected
    (out : Py.result loc * store) :
  agrees rd σ expected out.1 out.2 → outcome rd out = Some expected.
Proof.
  intros [_ H]. unfold outcome. destruct expected as [xs|e].
  - destruct H as (l & -> & _ & ->). done.
  - by rewrite H.
Qed.

Lemma agrees_input_kept {A} (rd : store → val → option A) σ expected
    matches ms (out : Py.result loc * store) :
  read_list read_match σ matches = Some ms →
  agrees rd σ expected out.1 out.2 → input_kept σ matches ms out.
Proof.
  intros Hms [Hsub H]. split_and!; [done|by eapply read_list_mono|].
  intros l Hl. destruct expected as [xs|e].
  - destruct H as (l' & Hl' & ? & _). congruence.
  - congruence.
Qed.


(** ** The programs and the functions on values agree *)

Section Agreement.
Context (timestamp_ms : datetime → Z).
Context (σ : store) (matches : loc) (ms : list Match).
Context (Hms : read_list read_match σ matches = Some ms).

Lemma filter_matches_agrees now period mode :
  let out := Heap.filter_matches timestamp_ms now matches period mode σ in
  agrees read_match σ (Stats.filter_matches timestamp_ms now ms period mode)
    out.1 out.2.
Proof.
  intros out.
  by refine (wp_filter_matches _ _ _ ms _ _ _ (agrees read_match σ _) Hms _).
Qed.

Lemma calculate_champion_stats_agrees now period mode :
  let out :=
    Heap.calculate_champion_stats timestamp_ms now matches period mode σ in
  agrees read_stats σ
    (Stats.calculate_champion_stats timestamp_ms now ms period mode)
    out.1 out.2.
Proof.
  intros out.
  by refine (wp_calculate_champion_stats _ _ _ ms _ _ _
              (agrees read_stats σ _) Hms _).
Qed.

Lemma get_recent_matches_agrees count :
  let out := Heap.get_recent_matches matches count σ in
  agrees read_match σ (Py.Ok (Stats.get_recent_matches ms count)) out.1 out.2.
Proof.
  intros out.
  by refine (wp_get_recent_matches _ ms _ _
              (agrees read_match σ (Py.Ok (Stats.get_recent_matches ms count)))
              Hms _).
Qed.

Lemma get_available_patches_agrees :
  let out := Heap.get_available_patches matches σ in
  agrees read_str σ (Py.Ok (Stats.get_available_patches ms)) out.1 out.2.
Proof.
  intros out.
  by refine (wp_get_available_patches _ ms _
              (agrees read_str σ (Py.Ok (Stats.get_available_patches ms)))
              Hms _).
Qed.

Lemma get_available_modes_agrees :
  let out := Heap.get_available_modes matches σ in
  agrees read_mode σ (Stats.get_available_modes ms) out.1 out.2.
Proof.
  intros out.
  by refine (wp_get_available_modes _ ms _
              (agrees read_mode σ (Stats.get_available_modes ms))
              Hms _).
Qed.
End Agreement.

End HeapFacts.

(** * Determinism and the clock *)

Section Determinism.
Context (timestamp_ms : datetime → Z).

Lemma period_filter_clock_free timestamp_ms' now1 now2 ms period :
  clock_period period = false →
  period_filter timestamp_ms now1 ms period
  = period_filter timestamp_ms' now2 ms period.
Proof.
  unfold clock_period.
  intros (((H1 & H2)%orb_false_iff & H3)%orb_false_iff & H4)%orb_false_iff.
  unfold period_filter. by rewrite H1, H2, H3, H4.
Qed.

Lemma period_filter_same_week now1 now2 ms period :
  period = "this_week" ∨ period = "last_week" →
  ordinal now1 - weekday now1 = ordinal now2 - weekday now2 →
  period_filter timestamp_ms now1 ms period
  = period_filter timestamp_ms now2 ms period.
Proof.
  intros Hp Hw.
  assert (at_midnight (minus_days now1 (weekday now1))
          = at_midnight (minus_days now2 (weekday now2))) as Hm.
  { unfold at_midnight, minus_days. simpl. by rewrite Hw. }
  unfold period_filter. destruct Hp as [-> | ->]; cbn; by rewrite Hm.
Qed.

(** C9, as amended. Two calls of [calculate_champion_stats] on the same
    matches, period and mode return the same when the period is not relative
    to the clock (whatever the clocks and the time zones of the two calls),
    and when the period is ["this_week"] or ["last_week"] and the two calls
    read the clock in the same week. On a store, a call returns what the
    function on values returns for the matches of the list and the clock that
    the call reads, and leaves the list as it was: a second call reads the
    same matches. *)
Theorem aggregate_deterministic :
  (∀ timestamp_ms' now1 now2 ms period mode,
     clock_period period = false →
     calculate_champion_stats timestamp_ms now1 ms period mode
     = calculate_champion_stats timestamp_ms' now2 ms period mode) ∧
  (∀ now1 now2 ms period mode,
     period = "this_week" ∨ period = "last_week" →
     ordinal now1 - weekday now1 = ordinal now2 - weekday now2 →
     calculate_champion_stats timestamp_ms now1 ms period mode
     = calculate_champion_stats timestamp_ms now2 ms period mode) ∧
  (∀ now1 now2 σ matches ms period mode,
     Heap.read_list Heap.read_match σ matches = Some ms →
     let first :=
       Heap.calculate_champion_stats timestamp_ms now1 matches period mode σ in
     let second :=
       Heap.calculate_champion_stats timestamp_ms now2 matches period mode
         first.2 in
     Heap.outcome Heap.read_stats first
     = Some (calculate_champion_stats timestamp_ms now1 ms period mode) ∧
     Heap.read_list Heap.read_match first.2 matches = Some ms ∧
     Heap.outcome Heap.read_stats second
     = Some (calculate_champion_stats timestamp_ms now2 ms period mode)).
Proof.
  split_and!.
  - intros timestamp_ms' now1 now2 ms period mode Hp.
    unfold calculate_champion_stats, filter_matches.
    by rewrite (period_filter_clock_free timestamp_ms' now1 now2).
  - intros now1 now2 ms period mode Hp Hw.
    unfold calculate_champion_stats, filter_matches.
    by rewrite (period_filter_same_week now1 now2).
  - intros now1 now2 σ matches ms period mode Hms first second.
    pose proof (HeapFacts.calculate_champion_stats_agrees timestamp_ms
                  σ matches ms Hms now1 period mode) as H1.
    fold first in H1.
    assert (Heap.read_list Heap.read_match first.2 matches = Some ms) as Hms1.
    { destruct H1 as [Hsub _]. by eapply HeapFacts.read_list_mono. }
    pose proof (HeapFacts.calculate_champion_stats_agrees timestamp_ms
                  first.2 matches ms Hms1 now2 period mode) as H2.
    fold second in H2.
    split_and!; [|done|]; by eapply HeapFacts.agrees_outcome.
Qed.
End Determinism.

(** C6, as stated, fails: [filter_matches] raises [KeyError] on a match
    without the key [queueId] when the mode is a number. *)
Lemma filter_raises_without_queueId :
  filter_matches utc_timestamp_ms wednesday
    [sample_match 1793145600000 "14.3.456.789" Absent ahri_win] "all" "420"
  = Py.Raise (Py.KeyError "queueId").
Proof. reflexivity. Qed.

(** C9, as stated, fails: with the period ["last_7_days"], a match that is
    seven days old at the first call is counted, and at a call one day later
    it is not. *)
Lemma aggregate_depends_on_clock :
  calculate_champion_stats utc_timestamp_ms wednesday
    [week_old_match ahri_win] "last_7_days" "all"
  ≠ calculate_champion_stats utc_timestamp_ms thursday
      [week_old_match ahri_win] "last_7_days" "all".
Proof. by vm_compute. Qed.

(** * No operation updates its input *)

(** C10. In a store where [matches] is a list of matches, each of the five
    operations leaves every object of the store as it was, the list and the
    matches among them, and the list that it returns is a new object. *)
Theorem input_not_mutated (timestamp_ms : datetime → Z) (now : datetime)
    (σ : Heap.store) (matches : Heap.loc) (ms : list Match)
    (period mode : string) (count : Z) :
  Heap.read_list Heap.read_match σ matches = Some ms →
  Heap.input_kept σ matches ms
    (Heap.filter_matches timestamp_ms now matches period mode σ) ∧
  Heap.input_kept σ matches ms
    (Heap.calculate_champion_stats timestamp_ms now matches period mode σ) ∧
  Heap.input_kept σ matches ms (Heap.get_recent_matches matches count σ) ∧
  Heap.input_kept σ matches ms (Heap.get_available_patches matches σ) ∧
  Heap.input_kept σ matches ms (Heap.get_available_modes matches σ).
Proof.
  intros Hms. split_and!; eapply HeapFacts.agrees_input_kept; try exact Hms.
  - by apply HeapFacts.filter_matches_agrees.
  - by apply HeapFacts.calculate_champion_stats_agrees.
  - by apply HeapFacts.get_recent_matches_agrees.
  - by apply HeapFacts.get_available_patches_agrees.
  - by apply HeapFacts.get_available_modes_agrees.
Qed.

(** * The theorems at the sample data *)

Lemma aggregate_invariants_witness :
  filter_matches utc_timestamp_ms wednesday sample_matches "all" "all"
  = Py.Ok sample_matches ∧
  calculate_champion_stats utc_timestamp_ms wednesday sample_matches
    "all" "all" = Py.Ok sample_stats ∧
  (∃ out, calculate_champion_stats utc_timestamp_ms wednesday sample_matches
            "all" "all" = Py.Ok out) ∧
  (length sample_stats
   ≤ size (list_to_set (champion <$> sample_matches) : gset string))%nat ∧
  sum_Z (games <$> sample_stats) = Z.of_nat (length sample_matches) ∧
  Forall (λ s, losses s + wins s = games s ∧
               (0 <= Py.num_value (winRate s) <= 100)%Q) sample_stats.
Proof.
  assert (filter_matches utc_timestamp_ms wednesday sample_matches "all" "all"
          = Py.Ok sample_matches) as Hf by reflexivity.
  assert (calculate_champion_stats utc_timestamp_ms wednesday sample_matches
            "all" "all" = Py.Ok sample_stats) as Hc by reflexivity.
  assert (Forall nonneg_stats sample_matches) as Hnonneg.
  { repeat (apply Forall_cons_2; [unfold nonneg_stats; simpl; lia|]).
    apply Forall_nil_2. }
  assert (stats_total sample_matches < 2 ^ 1023) as Htotal by reflexivity.
  destruct (aggregate_invariants utc_timestamp_ms wednesday sample_matches
              "all" "all" sample_matches Hf) as (_ & Hreturns & Hinv).
  split; [exact Hf|]. split; [exact Hc|].
  split; [exact (Hreturns Hnonneg Htotal)|].
  exact (Hinv sample_stats Hc).
Defined.

Lemma aggregate_order_witness :
  filter_matches utc_timestamp_ms wednesday tie_matches "all" "all"
  = Py.Ok tie_matches ∧
  calculate_champion_stats utc_timestamp_ms wednesday tie_matches
    "all" "all" = Py.Ok tie_stats ∧
  (∃ out, calculate_champion_stats utc_timestamp_ms wednesday tie_matches
            "all" "all" = Py.Ok out) ∧
  StronglySorted (λ a b, games b ≤ games a) tie_stats ∧
  ∀ i j s1 s2,
    tie_stats !! i = Some s1 → tie_stats !! j = Some s2 → (i < j)%nat →
    games s1 = games s2 →
    ∃ p q,
      first_index (stat_championName s1) tie_matches = Some p ∧
      first_index (stat_championName s2) tie_matches = Some q ∧
      (p < q)%nat.
Proof.
  assert (filter_matches utc_timestamp_ms wednesday tie_matches "all" "all"
          = Py.Ok tie_matches) as Hf by reflexivity.
  assert (calculate_champion_stats utc_timestamp_ms wednesday tie_matches
            "all" "all" = Py.Ok tie_stats) as Hc by reflexivity.
  assert (Forall nonneg_stats tie_matches) as Hnonneg.
  { repeat (apply Forall_cons_2; [unfold nonneg_stats; simpl; lia|]).
    apply Forall_nil_2. }
  assert (stats_total tie_matches < 2 ^ 1023) as Htotal by reflexivity.
  destruct (aggregate_order utc_timestamp_ms wednesday tie_matches
              "all" "all" tie_matches Hf) as (Hreturns & Horder).
  split; [exact Hf|]. split; [exact Hc|].
  split; [exact (Hreturns Hnonneg Htotal)|].
  exact (Horder tie_stats Hc).
Defined.

Lemma recent_matches_witness :
  0 ≤ 1 ∧
  Z.of_nat (length (get_recent_matches sample_matches 1))
  = 1 `min` Z.of_nat (length sample_matches).
Proof.
  assert (0 ≤ 1) as H by lia. split; [exact H|].
  exact (proj1 (recent_matches sample_matches 1 H)).
Defined.

Lemma filter_by_patch_witness :
  patch_number "14.3" = true ∧
  Forall (λ m, is_Some (gameVersion m)) sample_matches ∧
  filter_matches utc_timestamp_ms wednesday sample_matches
    ("patch_" +:+ "14.3") "all"
  = Py.Ok (List.filter (version_startswith "14.3") sample_matches).
Proof.
  assert (patch_number "14.3" = true) as Hv by reflexivity.
  assert (Forall (λ m, is_Some (gameVersion m)) sample_matches) as Hms.
  { repeat constructor; by eexists. }
  split; [exact Hv|]. split; [exact Hms|].
  exact (proj1 (filter_by_patch utc_timestamp_ms wednesday)
           sample_matches "14.3" Hv Hms).
Defined.

Lemma filter_permissive_witness :
  Py.int "abc" = None ∧ known_period "yesterday" = false ∧
  Forall has_keys sample_matches ∧
  filter_matches utc_timestamp_ms wednesday sample_matches "yesterday" "abc"
  = Py.Ok sample_matches ∧
  ∃ filtered,
    filter_matches utc_timestamp_ms wednesday sample_matches "last_week" "420"
    = Py.Ok filtered.
Proof.
  assert (Py.int "abc" = None) as Hint by reflexivity.
  assert (known_period "yesterday" = false) as Hk by reflexivity.
  assert (Forall has_keys sample_matches) as Hms.
  { repeat (apply Forall_cons; split; [split; [by eexists|done]|]).
    constructor. }
  split; [exact Hint|]. split; [exact Hk|]. split; [exact Hms|]. split.
  - exact (proj1 (proj2 (proj2 (filter_permissive utc_timestamp_ms wednesday
                                  sample_matches "yesterday" "abc")))
             Hint Hk).
  - exact (proj1 (proj2 (proj2 (proj2 (filter_permissive utc_timestamp_ms
                                         wednesday sample_matches
                                         "last_week" "420"))))
             Hms).
Defined.

Lemma available_patches_witness :
  (length (get_available_patches sample_matches) ≤ 5)%nat ∧
  get_available_patches [] = [].
Proof.
  split.
  - exact (proj1 (available_patches sample_matches)).
  - exact (proj1 (proj2 (proj2 (proj2 (proj2 (available_patches [])))))
             eq_refl).
Defined.

Lemma available_modes_witness :
  get_available_modes sample_matches = Py.Ok [mode_of 420] ∧
  ∃ ids,
    StronglySorted Z.lt ids ∧
    (∀ q, q ∈ ids ↔ ∃ m, m ∈ sample_matches ∧ queueId m = Value q) ∧
    (Forall within_str_digits ids →
     get_available_modes sample_matches = Py.Ok (mode_of <$> ids)) ∧
    (¬ Forall within_str_digits ids →
     get_available_modes sample_matches = Py.Raise Py.ValueError).
Proof.
  split; [by vm_compute|].
  exact (proj1 (available_modes sample_matches)).
Defined.

Lemma aggregate_deterministic_witness :
  clock_period "patch_14.3" = false ∧
  calculate_champion_stats utc_timestamp_ms wednesday sample_matches
    "patch_14.3" "all"
  = calculate_champion_stats (λ _, 0) thursday sample_matches
      "patch_14.3" "all" ∧
  ordinal wednesday - weekday wednesday = ordinal thursday - weekday thursday ∧
  calculate_champion_stats utc_timestamp_ms wednesday sample_matches
    "this_week" "all"
  = calculate_champion_stats utc_timestamp_ms thursday sample_matches
      "this_week" "all" ∧
  Heap.read_list Heap.read_match sample_store 3%positive
  = Some sample_matches ∧
  Heap.outcome Heap.read_stats
    (Heap.calculate_champion_stats utc_timestamp_ms wednesday 3%positive
       "all" "all" sample_store)
  = Some (calculate_champion_stats utc_timestamp_ms wednesday sample_matches
            "all" "all").
Proof.
  assert (clock_period "patch_14.3" = false) as Hp by reflexivity.
  assert (ordinal wednesday - weekday wednesday
          = ordinal thursday - weekday thursday) as Hw by reflexivity.
  assert (Heap.read_list Heap.read_match sample_store 3%positive
          = Some sample_matches) as Hms by reflexivity.
  split; [exact Hp|]. split.
  { exact (proj1 (aggregate_deterministic utc_timestamp_ms) (λ _, 0)
             wednesday thursday sample_matches "patch_14.3" "all" Hp). }
  split; [exact Hw|]. split.
  { exact (proj1 (proj2 (aggregate_deterministic utc_timestamp_ms))
             wednesday thursday sample_matches "this_week" "all"
             (or_introl eq_refl) Hw). }
  split; [exact Hms|].
  exact (proj1 (proj2 (proj2 (aggregate_deterministic utc_timestamp_ms))
                  wednesday wednesday sample_store 3%positive sample_matches
                  "all" "all" Hms)).
Defined.

Lemma input_not_mutated_witness :
  Heap.read_list Heap.read_match sample_store 3%positive
  = Some sample_matches ∧
  Heap.input_kept sample_store 3%positive sample_matches
    (Heap.filter_matches utc_timestamp_ms wednesday 3%positive
       "patch_14.3" "420" sample_store) ∧
  Heap.input_kept sample_store 3%positive sample_matches
    (Heap.calculate_champion_stats utc_timestamp_ms wednesday 3%positive
       "patch_14.3" "420" sample_store) ∧
  Heap.input_kept sample_store 3%positive sample_matches
    (Heap.get_recent_matches 3%positive 20 sample_store) ∧
  Heap.input_kept sample_store 3%positive sample_matches
    (Heap.get_available_patches 3%positive sample_store) ∧
  Heap.input_kept sample_store 3%positive sample_matches
    (Heap.get_available_modes 3%positive sample_store).
Proof.
  assert (Heap.read_list Heap.read_match sample_store 3%positive
          = Some sample_matches) as Hms by reflexivity.
  split; [exact Hms|].
  exact (input_not_mutated utc_timestamp_ms wednesday sample_store 3%positive
           sample_matches "patch_14.3" "420" 20 Hms).
Defined.

(** * More on the run time: [int(str(n))] *)

Lemma int_digits_string_of_uint (d : Decimal.uint) (acc : Z) :
  Py.int_digits acc false (NilEmpty.string_of_uint d)
  = Some (uint_value acc d).
Proof.
  revert acc. induction d; intros acc; simpl; try done; apply IHd.
Qed.

Lemma of_uint_acc_value (d : Decimal.uint) (acc : positive) :
  Z.pos (Pos.of_uint_acc d acc) = uint_value (Z.pos acc) d.
Proof.
  revert acc. induction d; intros acc; simpl; try done;
    rewrite IHd; f_equal; lia.
Qed.

Lemma of_uint_value (d : Decimal.uint) : Z.of_uint d = uint_value 0 d.
Proof.
  unfold Z.of_uint.
  induction d; simpl; try done; by rewrite of_uint_acc_value.
Qed.

Lemma to_uint_value (p : positive) : uint_value 0 (Pos.to_uint p) = Z.pos p.
Proof.
  rewrite <- of_uint_value.
  exact (DecimalZ.of_to (Z.pos p)).
Qed.

Lemma count_digits_string_of_uint (d : Decimal.uint) :
  Py.count_digits (NilEmpty.string_of_uint d) = Decimal.nb_digits d.
Proof. induction d; simpl; by try rewrite IHd. Qed.

(** [str(n)] is ASCII, and [int] reads it as it is. *)
Lemma is_ascii_string_of_uint (d : Decimal.uint) :
  Py.is_ascii (NilEmpty.string_of_uint d) = true.
Proof. induction d; done. Qed.

Lemma int_ascii (s : string) :
  Py.is_ascii s = true → Py.int s = Py.long_from_string s.
Proof. intros Hs. unfold Py.int, Py.to_ascii. by rewrite Hs. Qed.

(** [int] reads a string of digits that does not start with a sign or a
    space. *)
Lemma unsigned_int_string_of_uint (d : Decimal.uint) :
  d ≠ Decimal.Nil →
  (Py.count_digits (NilEmpty.string_of_uint d) ≤ Py.max_str_digits)%nat →
  Py.long_from_string (NilEmpty.string_of_uint d) = Some (uint_value 0 d) ∧
  Py.unsigned_int (NilEmpty.string_of_uint d) = Some (uint_value 0 d).
Proof.
  intros Hd Hn.
  assert (Py.unsigned_int (NilEmpty.string_of_uint d)
          = Some (uint_value 0 d)) as Hu.
  { unfold Py.unsigned_int.
    apply Nat.leb_le in Hn.
    destruct d; try done; cbn [NilEmpty.string_of_uint] in *;
      match goal with
      | |- context [Py.digit_value ?c] =>
          let v := eval vm_compute in (Py.digit_value c) in
          change (Py.digit_value c) with v
      end; cbv iota beta; rewrite Hn;
      match goal with
      | |- _ = Some (uint_value 0 ?x) =>
          exact (int_digits_string_of_uint x 0)
      end. }
  split; [|done]. rewrite <- Hu.
  destruct d; done.
Qed.

Lemma to_uint_not_Nil (p : positive) : Pos.to_uint p ≠ Decimal.Nil.
Proof.
  intros Hp. pose proof (to_uint_value p) as Hv. by rewrite Hp in Hv.
Qed.

Lemma str_pos (p : positive) :
  Py.str (Z.pos p) = NilEmpty.string_of_uint (Pos.to_uint p).
Proof.
  unfold Py.str. simpl. pose proof (to_uint_not_Nil p).
  by destruct (Pos.to_uint p).
Qed.

Lemma str_neg (p : positive) :
  Py.str (Z.neg p) = String "-" (NilEmpty.string_of_uint (Pos.to_uint p)).
Proof.
  unfold Py.str. simpl. pose proof (to_uint_not_Nil p).
  by destruct (Pos.to_uint p).
Qed.

Lemma is_ascii_str (n : Z) : Py.is_ascii (Py.str n) = true.
Proof.
  destruct n as [|p|p]; [done|..].
  - rewrite str_pos. apply is_ascii_string_of_uint.
  - rewrite str_neg. exact (is_ascii_string_of_uint (Pos.to_uint p)).
Qed.

(** [int(str(n)) == n] for an [n] within the limit on the digits of a
    [str] that [int] reads. *)
Lemma int_str (n : Z) :
  (Py.count_digits (Py.str n) ≤ Py.max_str_digits)%nat →
  Py.int (Py.str n) = Some n.
Proof.
  rewrite int_ascii by apply is_ascii_str.
  destruct n as [|p|p]; [done|..].
  - rewrite str_pos. intros Hn.
    destruct (unsigned_int_string_of_uint _ (to_uint_not_Nil p) Hn) as [-> _].
    by rewrite to_uint_value.
  - rewrite str_neg. intros Hn.
    destruct (unsigned_int_string_of_uint _ (to_uint_not_Nil p) Hn)
      as [_ Hu].
    unfold Py.long_from_string. cbn [Py.lstrip].
    change (Py.is_space "-") with false.
    cbv iota beta. rewrite Hu. simpl. by rewrite to_uint_value.
Qed.

Lemma str_decode_str (n : Z) : str_decode (Py.str n) = Some n.
Proof.
  destruct n as [|p|p]; [done|..].
  - rewrite str_pos. pose proof (to_uint_not_Nil p) as Hp.
    transitivity (Py.int_digits 0 false
                    (NilEmpty.string_of_uint (Pos.to_uint p))).
    { by destruct (Pos.to_uint p). }
    by rewrite int_digits_string_of_uint, to_uint_value.
  - rewrite str_neg. cbn.
    by rewrite int_digits_string_of_uint, to_uint_value.
Qed.

Lemma str_inj (a b : Z) : Py.str a = Py.str b → a = b.
Proof.
  intros Hab. apply (f_equal str_decode) in Hab.
  rewrite !str_decode_str in Hab. by simplify_eq.
Qed.

(** * More on [filter_matches] *)

(** The matches that a list comprehension keeps pass its test. *)
Lemma comprehension_kept {A} (cond : A → Py.result bool) (l r : list A) :
  comprehension cond l = Py.Ok r → Forall (λ m, cond m = Py.Ok true) r.
Proof.
  revert r. induction l as [|m l IH]; intros r; simpl.
  { intros [= <-]. constructor. }
  destruct (cond m) as [b|] eqn:Hm; [|done]. simpl.
  destruct (comprehension cond l) as [r'|]; [|done]. simpl.
  intros [= <-]. destruct b; [constructor|]; auto.
Qed.

Lemma comprehension_all {A} (cond : A → Py.result bool) (l : list A) :
  Forall (λ m, cond m = Py.Ok true) l → comprehension cond l = Py.Ok l.
Proof.
  induction 1 as [|m l Hm _ IH]; [done|]. simpl. by rewrite Hm, IH.
Qed.

Lemma Forall_sublist {A} (P : A → Prop) (l k : list A) :
  k `sublist_of` l → Forall P l → Forall P k.
Proof.
  intros Hsub Hl. rewrite Forall_forall in *.
  intros x Hx. apply Hl. by eapply sublist_subseteq.
Qed.

Lemma comprehension_again {A} (cond : A → Py.result bool) (l r r' : list A) :
  comprehension cond l = Py.Ok r → r' `sublist_of` r →
  comprehension cond r' = Py.Ok r'.
Proof.
  intros Hr Hsub. apply comprehension_all.
  eapply Forall_sublist; [exact Hsub|]. by eapply comprehension_kept.
Qed.

Section MoreFilter.
Context (timestamp_ms : datetime → Z).

Lemma period_filter_again now ms period l l' :
  period_filter timestamp_ms now ms period = Py.Ok l → l' `sublist_of` l →
  period_filter timestamp_ms now l' period = Py.Ok l'.
Proof.
  rewrite !HeapFacts.period_filter_cond.
  destruct (period_cond timestamp_ms now period) as [cond|]; [|done].
  apply comprehension_again.
Qed.

Lemma mode_filter_again ms mode l l' :
  mode_filter ms mode = Py.Ok l → l' `sublist_of` l →
  mode_filter l' mode = Py.Ok l'.
Proof.
  rewrite !HeapFacts.mode_filter_cond.
  destruct (mode_cond mode) as [cond|]; [|done].
  apply comprehension_again.
Qed.

Lemma mode_filter_sublist ms mode l :
  mode_filter ms mode = Py.Ok l → l `sublist_of` ms.
Proof.
  rewrite HeapFacts.mode_filter_cond.
  destruct (mode_cond mode) as [cond|]; [|by intros [= <-]].
  apply comprehension_sublist.
Qed.

(** X1. The list that [filter_matches] returns is a sublist of its input:
    matches of the input, in their order. Filtering it once more, with the
    same period and mode at the same time, returns it as it is. *)
Theorem filter_matches_idempotent now ms period mode filtered :
  filter_matches timestamp_ms now ms period mode = Py.Ok filtered →
  filtered `sublist_of` ms ∧
  filter_matches timestamp_ms now filtered period mode = Py.Ok filtered.
Proof.
  intros Hf. split; [by eapply filter_matches_sublist|].
  unfold filter_matches in *.
  destruct (period_filter timestamp_ms now ms period) as [l|] eqn:Hp; [|done].
  simpl in Hf.
  rewrite (period_filter_again now ms period l filtered Hp
             (mode_filter_sublist _ _ _ Hf)).
  simpl. by eapply mode_filter_again.
Qed.
End MoreFilter.

Lemma cond_test_Ok (cond : Match → Py.result bool) (m : Match) :
  (∃ b, cond m = Py.Ok b) → cond m = Py.Ok (cond_test cond m).
Proof. intros [b Hb]. unfold cond_test. by rewrite Hb. Qed.

Lemma List_filter_has_keys (p : Match → bool) (l : list Match) :
  Forall has_keys l → Forall has_keys (List.filter p l).
Proof. apply Forall_sublist, List_filter_sublist. Qed.

Lemma List_filter_comm {A} (p q : A → bool) (l : list A) :
  List.filter p (List.filter q l) = List.filter q (List.filter p l).
Proof.
  induction l as [|x l IH]; [done|]. simpl.
  destruct (p x) eqn:Hp, (q x) eqn:Hq; simpl; rewrite ?Hp, ?Hq, ?IH; done.
Qed.

Lemma int_all : Py.int "all" = None.
Proof. reflexivity. Qed.

Lemma mode_not_all (mode : string) (q : Z) :
  Py.int mode = Some q → String.eqb mode "all" = false.
Proof.
  intros Hq. destruct (String.eqb_spec mode "all") as [->|]; [|done].
  by rewrite int_all in Hq.
Qed.

Section FilterAsFilter.
Context (timestamp_ms : datetime → Z).

(** On matches that have their keys, the two filters are filters by a
    test. *)
Lemma period_filter_as_filter now period :
  ∃ p, ∀ l, Forall has_keys l →
    period_filter timestamp_ms now l period = Py.Ok (List.filter p l).
Proof.
  destruct (period_cond timestamp_ms now period) as [cond|] eqn:Hc.
  - exists (cond_test cond). intros l Hl.
    rewrite HeapFacts.period_filter_cond, Hc.
    apply comprehension_Ok. eapply Forall_impl; [exact Hl|].
    intros m [[g Hg] _]. apply cond_test_Ok.
    unfold period_cond in Hc. repeat case_match; simplify_eq; eauto.
    unfold subscript_gameVersion. rewrite Hg. by eexists.
  - exists (λ _, true). intros l _.
    rewrite HeapFacts.period_filter_cond, Hc. f_equal.
    induction l as [|m l IH]; [done|]. simpl. by rewrite <- IH.
Qed.

Lemma mode_filter_as_filter mode :
  ∃ q, ∀ l, Forall has_keys l →
    mode_filter l mode = Py.Ok (List.filter q l).
Proof.
  destruct (mode_cond mode) as [cond|] eqn:Hc.
  - exists (cond_test cond). intros l Hl.
    rewrite HeapFacts.mode_filter_cond, Hc.
    apply comprehension_Ok. eapply Forall_impl; [exact Hl|].
    intros m [_ Hq]. apply cond_test_Ok.
    unfold mode_cond in Hc. repeat case_match; simplify_eq.
    unfold subscript_queueId. destruct (queueId m); [done|by eexists..].
  - exists (λ _, true). intros l _.
    rewrite HeapFacts.mode_filter_cond, Hc. f_equal.
    induction l as [|m l IH]; [done|]. simpl. by rewrite <- IH.
Qed.

(** X2. On matches that have their keys, the period and the mode are two
    filters that can be applied one after the other, in either order:
    filtering by the period and then by the mode, or by the mode and then by
    the period, gives what [filter_matches] gives with both. *)
Theorem filter_matches_commute now ms period mode :
  Forall has_keys ms →
  ∃ by_period by_mode,
    filter_matches timestamp_ms now ms period "all" = Py.Ok by_period ∧
    filter_matches timestamp_ms now ms "all" mode = Py.Ok by_mode ∧
    filter_matches timestamp_ms now by_period "all" mode
    = filter_matches timestamp_ms now ms period mode ∧
    filter_matches timestamp_ms now by_mode period "all"
    = filter_matches timestamp_ms now ms period mode.
Proof.
  intros Hms.
  destruct (period_filter_as_filter now period) as [p Hp].
  destruct (mode_filter_as_filter mode) as [q Hq].
  exists (List.filter p ms), (List.filter q ms).
  assert (∀ l, period_filter timestamp_ms now l "all" = Py.Ok l) as Hall
    by done.
  assert (∀ l, mode_filter l "all" = Py.Ok l) as Hall' by done.
  pose proof (List_filter_has_keys p ms Hms) as Hpk.
  pose proof (List_filter_has_keys q ms Hms) as Hqk.
  unfold filter_matches. split_and!.
  - rewrite Hp by done. simpl. apply Hall'.
  - rewrite Hall. simpl. by apply Hq.
  - rewrite Hall, Hp by done. done.
  - rewrite !Hp by done. simpl. rewrite Hall', Hq by done.
    by rewrite List_filter_comm.
Qed.

Lemma filter_matches_queue now ms mode q :
  Py.int mode = Some q →
  Forall (λ m, queueId m ≠ Absent) ms →
  filter_matches timestamp_ms now ms "all" mode
  = Py.Ok (List.filter (has_queue q) ms).
Proof.
  intros Hq Hms. unfold filter_matches.
  change (period_filter timestamp_ms now ms "all") with (Py.Ok ms).
  simpl. unfold mode_filter. rewrite (mode_not_all _ _ Hq), Hq. simpl.
  apply comprehension_Ok. eapply Forall_impl; [exact Hms|].
  intros m Hm. simpl in Hm. unfold subscript_queueId, has_queue.
  destruct (queueId m) as [| |x]; [congruence|..]; simpl; f_equal;
    try done.
  apply bool_decide_ext. split; congruence.
Qed.

(** X3. With a mode that [int] reads as the number [q], [filter_matches]
    keeps the matches whose [queueId] is [q], and only them, when every
    match has the key. A mode that [int] reads as the same number, such as
    [" 420 "], ["+420"], ["4_2_0"] or the digits of another script for
    ["420"], gives the same on every list. *)
Theorem filter_by_queue now ms mode q :
  Py.int mode = Some q →
  (Forall (λ m, queueId m ≠ Absent) ms →
   filter_matches timestamp_ms now ms "all" mode
   = Py.Ok (List.filter (has_queue q) ms)) ∧
  (∀ period mode',
     Py.int mode' = Some q →
     filter_matches timestamp_ms now ms period mode'
     = filter_matches timestamp_ms now ms period mode) ∧
  Py.int " 420 " = Py.int "420" ∧ Py.int "+420" = Py.int "420" ∧
  Py.int "4_2_0" = Py.int "420" ∧ Py.int "４２０" = Py.int "420".
Proof.
  intros Hq. pose proof (mode_not_all _ _ Hq) as Hall. split_and!; try done.
  - by apply filter_matches_queue.
  - intros period mode' Hq'. pose proof (mode_not_all _ _ Hq') as Hall'.
    unfold filter_matches, mode_filter. by rewrite Hall, Hall', Hq, Hq'.
Qed.
End FilterAsFilter.

Lemma List_filter_weaken {A} (p q : A → bool) (l : list A) :
  (∀ x, p x = true → q x = true) →
  List.filter p l `sublist_of` List.filter q l.
Proof.
  intros Hpq. induction l as [|x l IH]; [done|]. simpl.
  destruct (p x) eqn:Hp.
  - rewrite (Hpq x Hp). by apply sublist_skip.
  - destruct (q x); [by apply sublist_cons|done].
Qed.

Lemma elem_of_List_filter {A} (p : A → bool) (l : list A) (x : A) :
  x ∈ List.filter p l ↔ x ∈ l ∧ p x = true.
Proof. by rewrite !list_elem_of_In, filter_In. Qed.

Section Windows.
Context (timestamp_ms : datetime → Z).

(** X4. The four periods that are relative to the clock never raise. At one
    reading of the clock, no match is of this week and of last week. The
    matches of this week are among those of the last 7 days when the host
    gives the start of the week a timestamp that is not before that of
    [now - 7 days], and the matches of the last 7 days are among those of
    the last 30 days when [now - 30 days] does not come after
    [now - 7 days]. *)
Theorem period_windows now ms :
  ∃ this_week last_week last_7_days last_30_days,
    filter_matches timestamp_ms now ms "this_week" "all" = Py.Ok this_week ∧
    filter_matches timestamp_ms now ms "last_week" "all" = Py.Ok last_week ∧
    filter_matches timestamp_ms now ms "last_7_days" "all"
    = Py.Ok last_7_days ∧
    filter_matches timestamp_ms now ms "last_30_days" "all"
    = Py.Ok last_30_days ∧
    (∀ m, m ∈ this_week → m ∉ last_week) ∧
    (timestamp_ms (minus_days now 7)
     ≤ timestamp_ms (at_midnight (minus_days now (weekday now))) →
     this_week `sublist_of` last_7_days) ∧
    (timestamp_ms (minus_days now 30) ≤ timestamp_ms (minus_days now 7) →
     last_7_days `sublist_of` last_30_days).
Proof.
  do 4 eexists. split_and!; try reflexivity.
  - intros m [_ H1]%elem_of_List_filter [_ H2]%elem_of_List_filter. lia.
  - intros Hle. apply List_filter_weaken. intros m. lia.
  - intros Hle. apply List_filter_weaken. intros m. lia.
Qed.
End Windows.

(** * More on [get_recent_matches] *)

Section SortedAgain.
Context {A : Type} (key : A → Z).

(** The sort leaves a list that is sorted as it is. *)
Lemma sorted_reverse_sorted_id (l : list A) :
  StronglySorted (λ a b, key b ≤ key a) l → Py.sorted Z.leb key true l = l.
Proof.
  unfold Py.sorted. induction 1 as [|x l _ IH Hx]; [done|].
  simpl. rewrite IH. destruct l as [|y l]; [done|]. simpl.
  apply Forall_inv in Hx. by destruct (Z.leb_spec (key y) (key x)); [|lia].
Qed.

Lemma StronglySorted_take (R : A → A → Prop) (n : nat) (l : list A) :
  StronglySorted R l → StronglySorted R (take n l).
Proof.
  intros Hl. rewrite <- (take_drop n l) in Hl.
  by apply StronglySorted_app in Hl as (_ & ? & _).
Qed.
End SortedAgain.

(** X5. With a negative [count], [get_recent_matches] does not raise, and
    it does not return the empty list either: it returns the sorted matches
    without the last [- count] of them, the oldest ones, which are
    [max(0, len(matches) + count)] matches. With a [count] that is not less
    than the number of matches it returns all of them, sorted. *)
Theorem recent_matches_other_counts (matches : list Match) (count : Z) :
  let sorted_matches := get_recent_matches matches (Z.of_nat (length matches)) in
  sorted_matches ≡ₚ matches ∧
  (count < 0 →
   get_recent_matches matches count
   = take (length matches - Z.to_nat (- count)) sorted_matches ∧
   Z.of_nat (length (get_recent_matches matches count))
   = Z.max 0 (Z.of_nat (length matches) + count)) ∧
  (Z.of_nat (length matches) ≤ count →
   get_recent_matches matches count = sorted_matches).
Proof.
  unfold get_recent_matches, Py.slice_to.
  pose proof (sorted_reverse_perm gameCreation matches) as Hperm.
  pose proof (Permutation_length Hperm) as Hlen.
  set (l := Py.sorted Z.leb gameCreation true matches) in *.
  destruct (Z.ltb_spec (Z.of_nat (length matches)) 0); [lia|].
  rewrite Nat2Z.id, <- Hlen, firstn_all. split_and!; [done|..].
  - intros Hc. destruct (Z.ltb_spec count 0); [|lia]. split.
    + f_equal. lia.
    + rewrite length_take. lia.
  - intros Hc. destruct (Z.ltb_spec count 0); [lia|].
    apply take_ge. lia.
Qed.

(** X6. Taking the [n] most recent of the [k] most recent matches is taking
    the [n] most recent matches, for [0 <= n <= k]: what
    [get_recent_matches] returns is sorted, and sorting it again changes
    nothing. *)
Theorem recent_matches_again (matches : list Match) (n k : Z) :
  0 ≤ n ≤ k →
  get_recent_matches (get_recent_matches matches k) n
  = get_recent_matches matches n.
Proof.
  intros Hnk. unfold get_recent_matches, Py.slice_to.
  destruct (Z.ltb_spec n 0); [lia|]. destruct (Z.ltb_spec k 0); [lia|].
  rewrite sorted_reverse_sorted_id.
  - rewrite take_take. f_equal. lia.
  - apply StronglySorted_take, sorted_reverse_sorted.
Qed.

(** * More on [get_available_patches] and [get_available_modes] *)

(** X7. The patches and the modes depend on the matches that the list holds
    only: their order and how often a match occurs do not matter. *)
Theorem available_lists_extensional (matches1 matches2 : list Match) :
  (∀ m, m ∈ matches1 ↔ m ∈ matches2) →
  get_available_patches matches1 = get_available_patches matches2 ∧
  get_available_modes matches1 = get_available_modes matches2.
Proof.
  intros Hms.
  assert (patches_of matches1 ∅ = patches_of matches2 ∅) as Hp.
  { apply set_eq. intros p. rewrite !elem_of_patches_of.
    split; (intros [?|(m & Hm & ?)]; [by left|right]; exists m;
            split; [by apply Hms|done]). }
  assert (queue_ids_of matches1 ∅ = queue_ids_of matches2 ∅) as Hq.
  { apply set_eq. intros q. rewrite !elem_of_queue_ids_of.
    split; (intros [?|(m & Hm & ?)]; [by left|right]; exists m;
            split; [by apply Hms|done]). }
  unfold get_available_patches, get_available_modes.
  fold (patches_of matches1 ∅) (patches_of matches2 ∅).
  fold (queue_ids_of matches1 ∅) (queue_ids_of matches2 ∅).
  rewrite Hp, Hq.
  destruct matches1 as [|m1 l1], matches2 as [|m2 l2]; try done.
  all: exfalso; first [pose proof (Hms m1)|pose proof (Hms m2)]; set_solver.
Qed.

Lemma elem_of_get_available_patches (matches : list Match) (p : string) :
  p ∈ get_available_patches matches →
  ∃ m, m ∈ matches ∧ patch_of m = Some p.
Proof.
  destruct matches as [|m0 ms]; [by intros ?%elem_of_nil|].
  set (matches := m0 :: ms).
  change (get_available_patches matches) with
    (Py.slice_to (Py.sorted String.leb (λ p : string, p) true
                    (elements (patches_of matches ∅))) 5).
  unfold Py.slice_to. change (5 <? 0) with false. cbv iota. intros Hp.
  set (l := Py.sorted _ _ _ _) in Hp.
  assert (p ∈ l) as Hp'
    by (eapply elem_of_sublist; [exact Hp|apply sublist_take]).
  clear Hp. revert Hp'. unfold l, Py.sorted.
  rewrite (stable_sort_perm _ (elements (patches_of matches ∅))).
  rewrite elem_of_elements, elem_of_patches_of. set_solver.
Qed.

Lemma elem_of_get_available_modes (matches : list Match)
    (modes : list Mode) (e : Mode) :
  get_available_modes matches = Py.Ok modes →
  e ∈ modes ↔
  ∃ q m, e = mode_of q ∧ within_str_digits q ∧ m ∈ matches ∧
         queueId m = Value q.
Proof.
  destruct (sorted_queue_ids matches) as (ids & _ & Hids & ->).
  intros [Hall ->]%mapM_make_mode_Ok. rewrite list_elem_of_fmap.
  rewrite Forall_forall in Hall. split.
  - intros (q & -> & Hq). destruct (proj1 (Hids q) Hq) as (m & ? & ?).
    exists q, m. auto.
  - intros (q & m & -> & _ & ? & ?). exists q. split; [done|].
    apply Hids. eauto.
Qed.

(** The first segment of a [str] is a prefix of it, and so are the first
    two with the separator between them. *)
Lemma split_head_prefix (sep : ascii) (s p : string) (rest : list string) :
  Py.split sep s = p :: rest → String.prefix p s = true.
Proof.
  revert p rest. induction s as [|c s IH]; intros p rest; simpl.
  { by intros [= <- <-]. }
  destruct (Ascii.eqb c sep); [by intros [= <- <-]|].
  destruct (Py.split sep s) as [|p' ps] eqn:Hs.
  - intros [= <- <-]. simpl. destruct (ascii_dec c c); [|done].
    by destruct s.
  - intros [= <- <-]. simpl. destruct (ascii_dec c c); [|done]. by eapply IH.
Qed.

Lemma split_startswith (sep : ascii) (s p0 p1 : string) (rest : list string) :
  Py.split sep s = p0 :: p1 :: rest →
  Py.startswith s (p0 +:+ String sep p1) = true.
Proof.
  unfold Py.startswith.
  revert p0. induction s as [|c s IH]; intros p0; simpl; [done|].
  destruct (Ascii.eqb_spec c sep) as [->|Hc].
  - intros [= <- Hs]. simpl. destruct (ascii_dec sep sep); [|done].
    by eapply split_head_prefix.
  - destruct (Py.split sep s) as [|p' ps] eqn:Hs; [done|].
    intros [= <- ->]. simpl. destruct (ascii_dec c c); [|done]. by apply IH.
Qed.

Section Selects.
Context (timestamp_ms : datetime → Z).

(** X8. A patch [p] that [get_available_patches] returns can be given back
    as the period ["patch_" + p]: [filter_matches] then keeps a match of
    that patch at least, when [p] does not hold ["patch_"] itself and every
    match has a version. A version such as ["patch_1.2.3"] shows that the
    first condition is needed: its patch is ["patch_1.2"], and the period
    ["patch_patch_1.2"] keeps nothing. *)
Theorem available_patch_selects now ms p :
  (p ∈ get_available_patches ms →
   Py.contains "patch_" p = false →
   Forall (λ m, is_Some (gameVersion m)) ms →
   ∃ filtered m,
     filter_matches timestamp_ms now ms ("patch_" +:+ p) "all"
     = Py.Ok filtered ∧
     m ∈ filtered ∧ patch_of m = Some p) ∧
  (∀ m, gameVersion m = Some "patch_1.2.3" →
        get_available_patches [m] = ["patch_1.2"] ∧
        filter_matches timestamp_ms now [m] "patch_patch_1.2" "all"
        = Py.Ok []).
Proof.
  split.
  - intros (m & Hm & Hpm)%elem_of_get_available_patches Hp Hms.
    exists (List.filter (version_startswith p) ms), m.
    split; [by apply filter_patch_prefix|]. split; [|done].
    apply elem_of_List_filter. split; [done|].
    apply patch_of_Some in Hpm as (p0 & p1 & rest & Hsplit & ->).
    rewrite Forall_forall in Hms. destruct (Hms m Hm) as [g Hg].
    unfold version_startswith. rewrite Hg in *. simpl in Hsplit.
    by eapply split_startswith.
  - intros m Hm. split.
    + unfold get_available_patches, patch_of. simpl. rewrite Hm.
      by vm_compute.
    + unfold filter_matches. cbn. unfold subscript_gameVersion.
      by rewrite Hm.
Qed.

(** X9. The [id] of a mode that [get_available_modes] returns can be given
    back as the mode of [filter_matches]: it is [str(q)] for a queue [q],
    [int] reads it as [q] (it has no more digits than [int] accepts, since
    [str] has returned it), and the filter then keeps the matches of the
    queue [q], of which there is one at least. *)
Theorem available_mode_selects now ms modes e :
  get_available_modes ms = Py.Ok modes →
  e ∈ modes →
  Forall (λ m, queueId m ≠ Absent) ms →
  ∃ q,
    mode_id e = Py.str q ∧ Py.int (mode_id e) = Some q ∧
    filter_matches timestamp_ms now ms "all" (mode_id e)
    = Py.Ok (List.filter (has_queue q) ms) ∧
    List.filter (has_queue q) ms ≠ [].
Proof.
  intros Hmodes He Hms.
  apply (elem_of_get_available_modes _ _ _ Hmodes) in He
    as (q & m & -> & Hn & Hm & Hq).
  simpl in *. exists q. pose proof (int_str q Hn) as Hint.
  split_and!; [done|done|..].
  - by apply filter_matches_queue.
  - intros Hnil.
    assert (m ∈ List.filter (has_queue q) ms) as Hin.
    { apply elem_of_List_filter. split; [done|]. unfold has_queue.
      rewrite Hq. by apply bool_decide_eq_true. }
    rewrite Hnil in Hin. by apply elem_of_nil in Hin.
Qed.
End Selects.

(** * More on [calculate_champion_stats] *)

(** What the second loop computes from the dict of a champion. *)
Lemma champion_stat_inv (n : string) (a : Aggregate) (s : ChampionStats) :
  champion_stat (n, a) = Py.Ok s →
  totalKills s = agg_totalKills a ∧ totalDeaths s = agg_totalDeaths a ∧
  totalAssists s = agg_totalAssists a ∧
  (∃ kda,
     Py.truediv (agg_totalKills a + agg_totalAssists a)
       (if agg_totalDeaths a =? 0 then 1 else agg_totalDeaths a)
     = Py.Ok kda ∧
     avgKDA s = Py.round_ndigits kda 2) ∧
  (0 < agg_games a →
   ∃ r dealt taken,
     Py.truediv (agg_wins a) (agg_games a) = Py.Ok r ∧
     winRate s = Py.Float (Py.round_ndigits (Py.fmul r 100) 1) ∧
     Py.truediv (agg_totalDamageDealt a) (agg_games a) = Py.Ok dealt ∧
     avgDamageDealt s = Py.round dealt ∧
     Py.truediv (agg_totalDamageTaken a) (agg_games a) = Py.Ok taken ∧
     avgDamageTaken s = Py.round taken).
Proof.
  unfold champion_stat. intros Hs.
  destruct (Py.truediv (agg_totalKills a + agg_totalAssists a) _)
    as [kda|] eqn:Hkda.
  2: { destruct (0 <? agg_games a); [|done].
       by destruct (Py.truediv (agg_wins a) (agg_games a)). }
  destruct (Z.ltb_spec 0 (agg_games a)) as [Hg|Hg].
  - destruct (Py.truediv (agg_wins a) (agg_games a)) as [r|]; [|done].
    destruct (Py.truediv (agg_totalDamageDealt a) (agg_games a))
      as [dealt|]; [|done].
    destruct (Py.truediv (agg_totalDamageTaken a) (agg_games a))
      as [taken|]; [|done].
    simpl in Hs. injection Hs as <-. simpl. split_and!; eauto 10.
  - simpl in Hs. injection Hs as <-. simpl. split_and!; eauto. lia.
Qed.

Lemma group_of_app (n : string) (l1 l2 : list Match) :
  group_of n (l1 ++ l2) = group_of n l1 ++ group_of n l2.
Proof. apply List.filter_app. Qed.

Lemma group_of_other (n : string) (m : Match) :
  champion m ≠ n → group_of n [m] = [].
Proof.
  intros Hn. unfold group_of. simpl.
  by destruct (String.eqb_spec (champion m) n).
Qed.

Lemma group_of_same (m : Match) : group_of (champion m) [m] = [m].
Proof. unfold group_of. simpl. by rewrite String.eqb_refl. Qed.

Lemma group_of_absent (n : string) (l : list Match) :
  n ∉ champion <$> l → group_of n l = [].
Proof.
  intros Hn. induction l as [|m l IH]; [done|].
  change (m :: l) with ([m] ++ l). rewrite group_of_app.
  rewrite group_of_other by set_solver. apply IH. set_solver.
Qed.

(** The dict of a champion holds the sums over the matches of the
    champion, in their order. *)
Lemma accumulate_group (l : list Match) (n : string) (a : Aggregate) :
  (n, a) ∈ foldl accumulate [] l →
  a = foldl add_match (new_aggregate n) (myData <$> group_of n l).
Proof.
  revert n a. induction l as [|m l IH] using rev_ind; intros n a.
  { by intros ?%elem_of_nil. }
  rewrite foldl_app. simpl. rewrite accumulate_eq.
  destruct (aggregates_of_foldl l) as [Hnd Hkeys _ _ _].
  rewrite group_of_app, fmap_app, foldl_app.
  destruct (dict_get (foldl accumulate [] l) (champion m)) as [agg|] eqn:Hget.
  - apply dict_get_Some in Hget as (d1 & d2 & Hd & Hk).
    rewrite Hd in *. rewrite dict_set_old by done.
    rewrite fmap_app, fmap_cons in Hnd. simpl in Hnd.
    apply NoDup_app in Hnd as (_ & Hd1 & Hnd2).
    apply NoDup_cons in Hnd2 as [Hd2 _].
    intros [Hin|[Hin|Hin]%elem_of_cons]%elem_of_app.
    + assert (champion m ≠ n) as Hn.
      { intros <-. apply Hk. apply list_elem_of_fmap. by exists (champion m, a). }
      rewrite group_of_other by done. simpl. apply IH. set_solver.
    + injection Hin as -> ->. rewrite group_of_same. simpl. f_equal.
      apply IH. set_solver.
    + assert (champion m ≠ n) as Hn.
      { intros <-. apply Hd2. apply list_elem_of_fmap. by exists (champion m, a). }
      rewrite group_of_other by done. simpl. apply IH. set_solver.
  - apply dict_get_None in Hget.
    intros [Hin|Hin%list_elem_of_singleton]%elem_of_app.
    + assert (champion m ≠ n) as Hn.
      { intros <-. apply Hget. apply list_elem_of_fmap. by exists (champion m, a). }
      rewrite group_of_other by done. simpl. by apply IH.
    + injection Hin as -> ->. rewrite group_of_same. simpl.
      rewrite group_of_absent; [done|]. by rewrite <- Hkeys.
Qed.

Lemma foldl_add_match (a : Aggregate) (ds : list MyData) :
  let b := foldl add_match a ds in
  agg_games b = agg_games a + Z.of_nat (length ds) ∧
  agg_wins b = agg_wins a + Z.of_nat (length (List.filter win ds)) ∧
  agg_totalKills b = agg_totalKills a + sum_Z (kills <$> ds) ∧
  agg_totalDeaths b = agg_totalDeaths a + sum_Z (deaths <$> ds) ∧
  agg_totalAssists b = agg_totalAssists a + sum_Z (assists <$> ds).
Proof.
  revert a. induction ds as [|d ds IH]; intros a; simpl.
  { unfold sum_Z. simpl. lia. }
  destruct (IH (add_match a d)) as (-> & -> & -> & -> & ->).
  unfold sum_Z, fmap. simpl. destruct (win d); simpl; lia.
Qed.

Section Groups.
Context (timestamp_ms : datetime → Z).

(** X10. [calculate_champion_stats] groups by champion: the list it returns
    has one element for each champion of the filtered matches, and no two
    for one champion; the element of a champion counts the filtered matches
    of the champion in [games] and those won in [wins], and its
    [totalKills], [totalDeaths] and [totalAssists] are the sums over these
    matches. *)
Theorem aggregate_groups now ms period mode filtered out :
  filter_matches timestamp_ms now ms period mode = Py.Ok filtered →
  calculate_champion_stats timestamp_ms now ms period mode = Py.Ok out →
  NoDup (stat_championName <$> out) ∧
  (∀ n, n ∈ stat_championName <$> out ↔ n ∈ champion <$> filtered) ∧
  Forall (λ s,
    let group := myData <$> group_of (stat_championName s) filtered in
    games s = Z.of_nat (length group) ∧
    wins s = Z.of_nat (length (List.filter win group)) ∧
    totalKills s = sum_Z (kills <$> group) ∧
    totalDeaths s = sum_Z (deaths <$> group) ∧
    totalAssists s = sum_Z (assists <$> group)) out.
Proof.
  intros Hf Hout.
  destruct (calculate_champion_stats_Ok timestamp_ms now ms period mode
              filtered out Hf Hout) as (stats & Hstats & ->).
  destruct (aggregates_of_foldl filtered) as [Hnd Hkeys _ _ _].
  pose proof (accumulate_group filtered) as Hgroup.
  revert Hstats Hnd Hkeys Hgroup. generalize (foldl accumulate [] filtered).
  intros d Hstats Hnd Hkeys Hgroup.
  pose proof (sorted_reverse_perm games stats) as Hperm.
  assert (stat_championName <$> stats = d.*1) as Hnames.
  { clear -Hstats. induction Hstats as [|[n a] s d stats Hs _ IH]; [done|].
    simpl. f_equal; [|done]. by apply champion_stat_Ok in Hs as (-> & _). }
  split_and!.
  - by rewrite Hperm, Hnames.
  - intros n. by rewrite Hperm, Hnames.
  - rewrite Hperm. clear -Hstats Hgroup.
    induction Hstats as [|[n a] s d stats Hs _ IH]; constructor.
    + pose proof (champion_stat_Ok _ _ _ Hs) as (Hn & Hg & Hw & _).
      pose proof (champion_stat_inv _ _ _ Hs) as (Hk & Hd & Ha & _).
      rewrite Hn, Hg, Hw, Hk, Hd, Ha.
      rewrite (Hgroup n a) by left.
      destruct (foldl_add_match (new_aggregate n)
                  (myData <$> group_of n filtered))
        as (-> & -> & -> & -> & ->).
      simpl. split_and!; lia.
    + apply IH. intros n' a' Hin. apply Hgroup. by right.
Qed.
End Groups.

(** ** Floats that are exact *)

Section ExactFloats.
Import Py.
Local Open Scope Q_scope.

Lemma round_half_even_Z (x : Q) (n : Z) :
  x == inject_Z n → round_half_even x = n.
Proof.
  intros Hx. apply Z.le_antisymm.
  - apply round_half_even_le. rewrite Hx. apply Qle_refl.
  - apply round_half_even_ge. rewrite Hx. apply Qle_refl.
Qed.

(** An [int] below [2 ** 52] is a float, and rounding leaves it as it
    is. *)
Lemma rnd64_Z (x : Q) (n : Z) :
  x == inject_Z n → (0 ≤ n < 2 ^ 52)%Z → rnd64 x = inject_Z n.
Proof.
  intros Hx Hn. unfold rnd64. destruct (Qeq_bool x 0) eqn:Hz.
  { apply Qeq_bool_eq in Hz. rewrite Hx in Hz.
    apply (inject_Z_injective n 0%Z) in Hz. by subst. }
  apply Qeq_bool_neq in Hz.
  assert (0 < n)%Z as Hpos.
  { destruct (Z.eq_dec n 0%Z) as [->|]; [|lia]. by destruct Hz. }
  assert (0 < x) as HxQ by (rewrite Hx, <- (Zlt_Qlt 0); done).
  assert (x <= inject_Z n) as Hle by (rewrite Hx; apply Qle_refl).
  pose proof (ilog2_le x n HxQ Hle) as Hl.
  assert (Z.log2 n < 52)%Z as Hlog by (apply Z.log2_lt_pow2; lia).
  set (e := Z.max (ilog2 (Qabs x) - 52) (-1074)) in *.
  assert (e ≤ 0)%Z as He by lia.
  assert (0 < 2 ^ (- e))%Z as Hd by (apply Z.pow_pos_nonneg; lia).
  assert (0 < inject_Z (2 ^ (- e))) as HdQ by (rewrite <- (Zlt_Qlt 0); done).
  assert (¬ inject_Z (2 ^ (- e)) == 0) as Hd0.
  { intros H0. rewrite H0 in HdQ. done. }
  rewrite <- (inject_Z_Qred n). apply Qred_complete.
  rewrite (round_half_even_Z _ (n * 2 ^ (- e))%Z).
  - rewrite (pow2_nonpos e He), inject_Z_mult. by field.
  - rewrite Hx, (pow2_nonpos e He), inject_Z_mult. by field.
Qed.

Lemma truediv_exact (n : Z) :
  (0 ≤ n < 2 ^ 52)%Z → truediv n 1%Z = Ok (inject_Z n).
Proof.
  intros Hn. unfold truediv. change (1 =? 0)%Z with false. cbv iota.
  rewrite (rnd64_Z _ n); [|field|done].
  destruct (Qle_bool (pow2 1024) (Qabs (inject_Z n))) eqn:Hover; [|done].
  apply Qle_bool_iff in Hover. rewrite Qabs_pos in Hover
    by (rewrite <- (Zle_Qle 0); lia).
  change (pow2 1024) with (inject_Z (2 ^ 1024)) in Hover.
  rewrite <- Zle_Qle in Hover. assert (2 ^ 52 < 2 ^ 1024)%Z by done. lia.
Qed.

Lemma truediv_same (n : Z) : (0 < n)%Z → truediv n n = Ok 1.
Proof.
  intros Hn. unfold truediv. destruct (Z.eqb_spec n 0%Z); [lia|].
  rewrite (rnd64_Z _ 1%Z); [done| |done].
  field. intros H0. apply (inject_Z_injective n 0%Z) in H0. lia.
Qed.

Lemma truediv_zero (n : Z) : (0 < n)%Z → truediv 0%Z n = Ok 0.
Proof.
  intros Hn. unfold truediv. destruct (Z.eqb_spec n 0%Z); [lia|].
  rewrite (rnd64_Z _ 0%Z); [done| |done].
  field. intros H0. apply (inject_Z_injective n 0%Z) in H0. lia.
Qed.

Lemma round_ndigits_Z (n ndigits : Z) :
  (0 ≤ ndigits)%Z → (0 ≤ n < 2 ^ 52)%Z →
  round_ndigits (inject_Z n) ndigits = inject_Z n.
Proof.
  intros Hd Hn. unfold round_ndigits.
  assert (0 < 10 ^ ndigits)%Z as Hp by (apply Z.pow_pos_nonneg; lia).
  assert (¬ inject_Z (10 ^ ndigits) == 0) as Hp0.
  { intros H0. unfold Qeq in H0. simpl in H0. lia. }
  rewrite (round_half_even_Z _ (n * 10 ^ ndigits)%Z)
    by (by rewrite inject_Z_mult).
  apply rnd64_Z; [|done]. rewrite inject_Z_mult. by field.
Qed.
End ExactFloats.

Section Edges.
Context (timestamp_ms : datetime → Z).

(** X11. The floats of an element of the list are exact at the edges. A
    champion without deaths has the sum of kills and assists as [avgKDA]
    (the divisor is 1), when the sum is below [2 ** 52]; the [winRate] is
    100.0 when every game is won, and 0.0 when none is. *)
Theorem aggregate_exact_edges now ms period mode out :
  calculate_champion_stats timestamp_ms now ms period mode = Py.Ok out →
  Forall (λ s,
    (totalDeaths s = 0 → 0 ≤ totalKills s + totalAssists s < 2 ^ 52 →
     avgKDA s = inject_Z (totalKills s + totalAssists s)) ∧
    (wins s = games s → winRate s = Py.Float 100%Q) ∧
    (wins s = 0 → winRate s = Py.Float 0%Q)) out.
Proof.
  intros Hout.
  destruct (filter_matches timestamp_ms now ms period mode)
    as [filtered|] eqn:Hf;
    [|by unfold calculate_champion_stats in Hout; rewrite Hf in Hout].
  destruct (calculate_champion_stats_Ok timestamp_ms now ms period mode
              filtered out Hf Hout) as (stats & Hstats & ->).
  destruct (aggregates_of_foldl filtered) as [_ _ _ Hcnt _].
  clear Hf Hout. revert Hstats Hcnt.
  generalize (foldl accumulate [] filtered). intros d Hstats Hcnt.
  rewrite (sorted_reverse_perm games stats).
  induction Hstats as [|[n a] s d stats Hs _ IH]; constructor.
  - destruct (Hcnt n a) as [Hg Hw]; [left|].
    pose proof (champion_stat_Ok _ _ _ Hs) as (_ & Hgames & Hwins & _).
    pose proof (champion_stat_inv _ _ _ Hs)
      as (Hk & Hd & Ha & (kda & Hkda & ->) & Hrate).
    destruct Hrate as (r & _ & _ & Hr & -> & _); [lia|].
    rewrite Hk, Hd, Ha, Hgames, Hwins. split_and!.
    + intros H0 Hsum. rewrite H0 in Hkda. simpl in Hkda.
      rewrite truediv_exact in Hkda by done. injection Hkda as <-.
      by apply round_ndigits_Z.
    + intros Heq. rewrite Heq, truediv_same in Hr by lia.
      injection Hr as <-. by vm_compute.
    + intros Heq. rewrite Heq, truediv_zero in Hr by lia.
      injection Hr as <-. by vm_compute.
  - apply IH. intros n' a' Hin. apply (Hcnt n'). by right.
Qed.
End Edges.

(** * More on [get_queue_name] *)

Lemma string_length_app (s t : string) :
  String.length (s +:+ t) = (String.length s + String.length t)%nat.
Proof. induction s as [|c s IH]; simpl; [done|]. by rewrite IH. Qed.

Lemma string_app_inv_tail (s1 s2 t : string) :
  s1 +:+ t = s2 +:+ t → s1 = s2.
Proof.
  revert s2. induction s1 as [|c s1 IH]; intros [|c' s2]; simpl; intros H.
  - done.
  - apply (f_equal String.length) in H.
    rewrite !string_length_app in H. simpl in H. lia.
  - apply (f_equal String.length) in H.
    rewrite !string_length_app in H. simpl in H. lia.
  - injection H as -> H. f_equal. by apply IH.
Qed.

(** The name of a queue is in the table, or it is the fallback. *)
Lemma queue_name_cases (q : Z) :
  q ∈ [420; 440; 400; 430; 450; 1700; 1900] ∧
    queue_name q
    ∈ [ "ランクソロ/デュオ"; "ランクフレックス"; "ノーマル（ドラフト）";
        "ノーマル（ブラインド）"; "ARAM"; "Arena"; "URF" ]
  ∨ queue_name q = "その他 (" +:+ Py.str q +:+ ")".
Proof.
  destruct (decide (q ∈ [420; 440; 400; 430; 450; 1700; 1900])) as [Hq|Hq].
  - left. split; [done|].
    repeat (apply elem_of_cons in Hq as [->|Hq]; [vm_compute; set_solver|]).
    by apply elem_of_nil in Hq.
  - right. unfold queue_name, QUEUE_NAMES. simpl.
    rewrite !lookup_insert_ne, lookup_empty by set_solver. done.
Qed.

Lemma queue_name_inj (q1 q2 : Z) : queue_name q1 = queue_name q2 → q1 = q2.
Proof.
  destruct (queue_name_cases q1) as [[H1 Hn1]|H1],
           (queue_name_cases q2) as [[H2 Hn2]|H2].
  - intros Heq.
    repeat (apply elem_of_cons in H1 as [->|H1]);
      try (by apply elem_of_nil in H1);
      repeat (apply elem_of_cons in H2 as [->|H2]);
      try (by apply elem_of_nil in H2); try done;
      by vm_compute in Heq.
  - rewrite H2. intros Heq. rewrite Heq in Hn1. exfalso.
    repeat (apply elem_of_cons in Hn1 as [Hn1|Hn1]; [by simplify_eq/=|]).
    by apply elem_of_nil in Hn1.
  - rewrite H1. intros Heq. rewrite <- Heq in Hn2. exfalso.
    repeat (apply elem_of_cons in Hn2 as [Hn2|Hn2]; [by simplify_eq/=|]).
    by apply elem_of_nil in Hn2.
  - rewrite H1, H2. intros Heq%String.app_inj%string_app_inv_tail.
    by apply str_inj.
Qed.

Lemma size_queue_ids_of (matches : list Match) (acc : gset Z) :
  (size (queue_ids_of matches acc) ≤ size acc + length matches)%nat.
Proof.
  revert acc. induction matches as [|m ms IH]; intros acc; simpl; [lia|].
  etrans; [apply IH|]. destruct (queueId m); try lia.
  pose proof (size_union_alt acc {[a]}) as Hu.
  assert (size ({[a]} ∖ acc : gset Z) ≤ 1)%nat.
  { etrans; [apply subseteq_size, (subseteq_difference_l _ _ _ (reflexivity _))|].
    by rewrite size_singleton. }
  lia.
Qed.

(** The name that [get_queue_name] returns is [queue_name]. *)
Lemma get_queue_name_Ok_inv (q : Z) (name : string) :
  get_queue_name q = Py.Ok name → name = queue_name q.
Proof.
  destruct (within_str_digits_dec q) as [Hq|Hq].
  - rewrite get_queue_name_Ok by done. congruence.
  - by rewrite get_queue_name_Raise.
Qed.

(** X12. Two queues have two names, in the table and outside it: a name
    that [get_queue_name] returns for two ids makes them one id. The modes
    that [get_available_modes] returns have distinct [id] and distinct
    [name], and there are no more of them than matches. *)
Theorem modes_distinct (matches : list Match) :
  (∀ q1 q2 name,
     get_queue_name q1 = Py.Ok name → get_queue_name q2 = Py.Ok name →
     q1 = q2) ∧
  (∀ modes,
     get_available_modes matches = Py.Ok modes →
     NoDup (mode_id <$> modes) ∧
     NoDup (mode_name <$> modes) ∧
     (length modes ≤ length matches)%nat).
Proof.
  split.
  { intros q1 q2 name H1%get_queue_name_Ok_inv H2%get_queue_name_Ok_inv.
    apply queue_name_inj. congruence. }
  intros modes.
  destruct matches as [|m0 ms].
  { intros [= <-]. by split_and!; try constructor. }
  set (matches := m0 :: ms).
  change (get_available_modes matches) with
    (mapM make_mode (Py.sorted Z.leb (λ q : Z, q) false
                       (elements (queue_ids_of matches ∅)))).
  set (l := Py.sorted _ _ _ _).
  intros [_ ->]%mapM_make_mode_Ok.
  assert (l ≡ₚ elements (queue_ids_of matches ∅)) as Hperm
    by apply stable_sort_perm.
  assert (NoDup l) as Hnd by (rewrite Hperm; apply NoDup_elements).
  rewrite <- !list_fmap_compose. split_and!.
  - apply NoDup_fmap_2; [|done]. intros q1 q2. apply str_inj.
  - apply NoDup_fmap_2; [|done]. intros q1 q2. apply queue_name_inj.
  - rewrite length_fmap, Hperm.
    pose proof (size_queue_ids_of matches ∅) as Hs.
    rewrite size_empty in Hs. by unfold size, set_size in Hs.
Qed.

(** * [format_duration] *)

Example format_duration_examples :
  Utils.format_duration 1830 = Some "30分30秒" ∧
  Utils.format_duration 0 = Some "0分00秒" ∧
  Utils.format_duration 59 = Some "0分59秒" ∧
  Utils.format_duration 3661 = Some "61分01秒" ∧
  Utils.format_duration (-1) = Some "-1分59秒" ∧
  Utils.format_02d (-5) = Some "-5" ∧ Utils.format_02d 123 = Some "123".
Proof. by vm_compute. Qed.

Lemma str_int_Some (n : Z) (s : string) :
  Utils.str_int n = Some s ↔
  (Py.count_digits (Py.str n) ≤ Py.max_str_digits)%nat ∧ s = Py.str n.
Proof.
  unfold Utils.str_int.
  destruct (Nat.leb_spec (Py.count_digits (Py.str n)) Py.max_str_digits);
    split; [intros [= <-]; done|intros [_ ->]; done|done|lia].
Qed.

Lemma string_of_uint_chars (d : Decimal.uint) :
  string_forallb is_int_char (NilEmpty.string_of_uint d) = true.
Proof. induction d; simpl; by try rewrite IHd. Qed.

Lemma str_chars (n : Z) : string_forallb is_int_char (Py.str n) = true.
Proof.
  destruct n as [|p|p]; [done|..].
  - rewrite str_pos. apply string_of_uint_chars.
  - rewrite str_neg. simpl. apply string_of_uint_chars.
Qed.

(** Two strings of characters that pass a test, each followed by a
    character that does not. *)
Lemma string_app_marker (P : ascii → bool) (c : ascii) (s1 s2 t1 t2 : string) :
  string_forallb P s1 = true → string_forallb P s2 = true → P c = false →
  s1 +:+ String c t1 = s2 +:+ String c t2 → s1 = s2 ∧ t1 = t2.
Proof.
  intros H1 H2 Hc. revert s2 H1 H2.
  induction s1 as [|a s1 IH]; intros [|b s2]; simpl.
  - by intros _ _ [= ->].
  - intros _ [Hb _]%andb_prop [= <- _]. congruence.
  - intros [Ha _]%andb_prop _ [= -> _]. congruence.
  - intros [_ H1]%andb_prop [_ H2]%andb_prop [= -> Heq].
    destruct (IH s2 H1 H2 Heq) as [-> ->]. done.
Qed.

Lemma int_digits_str (n : Z) :
  0 ≤ n → Py.int_digits 0 false (Py.str n) = Some n.
Proof.
  destruct n as [|p|p]; [done| |lia]. intros _.
  by rewrite str_pos, int_digits_string_of_uint, to_uint_value.
Qed.

Lemma str_not_empty (n : Z) : Py.str n ≠ "".
Proof.
  destruct n as [|p|p]; [done| |by rewrite str_neg].
  rewrite str_pos. pose proof (to_uint_not_Nil p).
  by destruct (Pos.to_uint p).
Qed.

(** The digits of [format(n, "02d")] are those of [n]. *)
Lemma int_digits_format_02d (n : Z) (s : string) :
  0 ≤ n → Utils.format_02d n = Some s →
  Py.int_digits 0 false s = Some n.
Proof.
  intros Hn. unfold Utils.format_02d.
  destruct (Z.ltb_spec n 0); [lia|]. rewrite Z.abs_eq by done.
  destruct (Utils.str_int n) as [digits|] eqn:Hstr; [|done].
  apply str_int_Some in Hstr as [_ ->]. simpl. intros [= <-].
  pose proof (int_digits_str n Hn) as Hd. pose proof (str_not_empty n).
  destruct (Py.str n) as [|c [|c' t]] eqn:Hs; [done|..]; simpl; exact Hd.
Qed.

(** X13. [format_duration] tells two numbers of seconds apart: two
    durations that are printed alike are the same. *)
Theorem format_duration_inj (a b : Z) (s : string) :
  Utils.format_duration a = Some s → Utils.format_duration b = Some s →
  a = b.
Proof.
  unfold Utils.format_duration. intros Ha Hb.
  destruct (Utils.str_int (a `div` 60)) as [ma|] eqn:Hma; [|done].
  destruct (Utils.format_02d (a `mod` 60)) as [ra|] eqn:Hra; [|done].
  destruct (Utils.str_int (b `div` 60)) as [mb|] eqn:Hmb; [|done].
  destruct (Utils.format_02d (b `mod` 60)) as [rb|] eqn:Hrb; [|done].
  simpl in Ha, Hb. injection Ha as <-. injection Hb as Heq.
  apply str_int_Some in Hma as [_ ->]. apply str_int_Some in Hmb as [_ ->].
  change ("分" +:+ ?t) with (String "229" (String "136" (String "134" t)))
    in Heq.
  apply (string_app_marker is_int_char) in Heq as [Hm Hr];
    [|apply str_chars..|done].
  apply str_inj in Hm. injection Hr as Hr.
  apply string_app_inv_tail in Hr. subst rb.
  pose proof (Z.mod_pos_bound a 60 ltac:(done)).
  pose proof (Z.mod_pos_bound b 60 ltac:(done)).
  apply int_digits_format_02d in Hra; [|lia].
  apply int_digits_format_02d in Hrb; [|lia].
  rewrite (Z.div_mod a 60), (Z.div_mod b 60) by done. congruence.
Qed.

Lemma digit_value_ascii (j : nat) :
  (j < 10)%nat → Py.digit_value (ascii_of_nat (48 + j)) = Some (Z.of_nat j).
Proof. intros Hj. do 10 (destruct j as [|j]; [done|]). lia. Qed.

Lemma format_02d_two_digits (r : Z) :
  0 ≤ r < 60 →
  ∃ d1 d2,
    Utils.format_02d r = Some (String d1 (String d2 "")) ∧
    Py.digit_value d1 = Some (r `div` 10) ∧
    Py.digit_value d2 = Some (r `mod` 10).
Proof.
  intros Hr.
  assert (forallb (λ k : nat,
            match Utils.format_02d (Z.of_nat k) with
            | Some t =>
                String.eqb t
                  (String (ascii_of_nat (48 + k / 10))
                     (String (ascii_of_nat (48 + k mod 10)) ""))
            | None => false
            end)
            (seq 0 60) = true) as Hall by (by vm_compute).
  rewrite forallb_forall in Hall.
  specialize (Hall (Z.to_nat r)). rewrite Z2Nat.id in Hall by lia.
  destruct (Utils.format_02d r) as [t|];
    [|by specialize (Hall ltac:(apply in_seq; lia))].
  apply String.eqb_eq in Hall; [|apply in_seq; lia].
  eexists _, _. split; [by rewrite Hall|].
  assert (Z.to_nat r / 10 < 10)%nat by (apply Nat.Div0.div_lt_upper_bound; lia).
  assert (Z.to_nat r mod 10 < 10)%nat by (apply Nat.mod_upper_bound; lia).
  rewrite !digit_value_ascii by done.
  rewrite Nat2Z.inj_div, Nat2Z.inj_mod, Z2Nat.id by lia. done.
Qed.

(** X14. Whatever the number of seconds, negative ones too,
    [format_duration] prints the minutes, rounded down, and then the
    seconds that are left on two digits, from 00 to 59: hours are not
    split off, and [-1] is printed as [-1] minute and 59 seconds. The one
    failure is the [ValueError] of CPython for minutes of more than 4300
    digits. *)
Theorem format_duration_shape (seconds : Z) :
  let minutes := seconds `div` 60 in
  ((Py.count_digits (Py.str minutes) ≤ Py.max_str_digits)%nat →
   ∃ d1 d2 s1 s2,
     Utils.format_duration seconds
     = Some (Py.str minutes +:+ "分" +:+ String d1 (String d2 "秒")) ∧
     Py.digit_value d1 = Some s1 ∧ Py.digit_value d2 = Some s2 ∧
     0 ≤ 10 * s1 + s2 < 60 ∧
     seconds = 60 * minutes + (10 * s1 + s2)) ∧
  ((Py.max_str_digits < Py.count_digits (Py.str minutes))%nat →
   Utils.format_duration seconds = None).
Proof.
  intros minutes. unfold Utils.format_duration. fold minutes. split.
  - intros Hlimit.
    pose proof (Z.mod_pos_bound seconds 60 ltac:(done)) as Hr.
    destruct (format_02d_two_digits _ Hr) as (d1 & d2 & Hf & H1 & H2).
    exists d1, d2, ((seconds `mod` 60) `div` 10),
      ((seconds `mod` 60) `mod` 10).
    rewrite (proj2 (str_int_Some minutes _) (conj Hlimit eq_refl)), Hf.
    split_and!; try done.
    + pose proof (Z.div_mod (seconds `mod` 60) 10 ltac:(done)). lia.
    + pose proof (Z.div_mod (seconds `mod` 60) 10 ltac:(done)). lia.
    + pose proof (Z.div_mod (seconds `mod` 60) 10 ltac:(done)).
      pose proof (Z.div_mod seconds 60 ltac:(done)). subst minutes. lia.
  - intros Hlimit. unfold Utils.str_int.
    destruct (Nat.leb_spec (Py.count_digits (Py.str minutes))
                Py.max_str_digits); [lia|done].
Qed.

(** * The merge of [fetch_matches.main] *)

Lemma last_of_snoc (l : list Match) (x m : Match) :
  last_of (l ++ [x]) m ↔ m = x ∨ (last_of l m ∧ matchId m ≠ matchId x).
Proof.
  split.
  - intros (l1 & l2 & Hl & Hid).
    destruct l2 as [|y l2 _] using rev_ind.
    + left. apply (f_equal last) in Hl. rewrite !last_snoc in Hl.
      by simplify_eq.
    + right. rewrite app_comm_cons, app_assoc in Hl.
      apply app_inj_tail in Hl as [-> ->].
      rewrite fmap_app in Hid. split; [|set_solver].
      exists l1, l2. split; [done|]. set_solver.
  - intros [->|[(l1 & l2 & -> & Hid) Hx]].
    + exists l, []. split; [done|]. set_solver.
    + exists l1, (l2 ++ [x]). split; [by rewrite <- app_assoc|].
      rewrite fmap_app. set_solver.
Qed.

Lemma last_of_elem (l : list Match) (m : Match) : last_of l m → m ∈ l.
Proof. intros (l1 & l2 & -> & _). set_solver. Qed.

Lemma last_of_exists (l : list Match) (id : string) :
  id ∈ matchId <$> l → ∃ m, matchId m = id ∧ last_of l m.
Proof.
  induction l as [|x l IH] using rev_ind; [by intros ?%elem_of_nil|].
  rewrite fmap_app. intros Hid.
  destruct (decide (matchId x = id)) as [<-|Hx].
  - exists x. split; [done|]. apply last_of_snoc. by left.
  - destruct IH as (m & <- & Hm); [set_solver|].
    exists m. split; [done|]. apply last_of_snoc. right. done.
Qed.

(** The dict of the merge after the matches [l]: one entry per [matchId],
    with the last match of the id. *)
Lemma unique_matches_last (l : list Match) :
  let d := foldl (λ d m, dict_set d (matchId m) m) [] l in
  NoDup d.*1 ∧ ∀ k m, (k, m) ∈ d ↔ k = matchId m ∧ last_of l m.
Proof.
  induction l as [|x l [Hnd IH]] using rev_ind.
  { simpl. split; [constructor|]. intros k m. split.
    - by intros ?%elem_of_nil.
    - by intros [_ ?%last_of_elem%elem_of_nil]. }
  rewrite foldl_app. simpl.
  set (d := foldl (λ d m, dict_set d (matchId m) m) [] l) in *.
  destruct (dict_get d (matchId x)) as [v|] eqn:Hget.
  - apply dict_get_Some in Hget as (d1 & d2 & Hd & Hk).
    rewrite Hd in *. rewrite dict_set_old by done.
    assert (((d1 ++ (matchId x, x) :: d2).*1) = (d1 ++ (matchId x, v) :: d2).*1)
      as Hkeys by (by rewrite !fmap_app, !fmap_cons).
    split; [by rewrite Hkeys|].
    rewrite fmap_app, fmap_cons in Hnd. simpl in Hnd.
    apply NoDup_app in Hnd as (_ & Hd1 & [Hd2 _]%NoDup_cons).
    intros k m. rewrite last_of_snoc. split.
    + intros [Hin|[[= -> ->]|Hin]%elem_of_cons]%elem_of_app.
      * destruct (proj1 (IH k m)) as [-> Hlast]; [set_solver|].
        split; [done|]. right. split; [done|]. intros Heq.
        apply Hk. rewrite <- Heq. apply list_elem_of_fmap.
        by exists (matchId m, m).
      * auto.
      * destruct (proj1 (IH k m)) as [-> Hlast]; [set_solver|].
        split; [done|]. right. split; [done|]. intros Heq.
        apply Hd2. rewrite <- Heq. apply list_elem_of_fmap.
        by exists (matchId m, m).
    + intros [-> [->|[Hlast Hne]]]; [set_solver|].
      assert ((matchId m, m) ∈ d1 ++ (matchId x, v) :: d2) as Hin
        by (by apply IH).
      apply elem_of_app in Hin as [?|[?|?]%elem_of_cons];
        [set_solver|congruence|set_solver].
  - rewrite dict_set_new by done. apply dict_get_None in Hget.
    split.
    { rewrite fmap_app. apply NoDup_app. split_and!; [done| |].
      - intros k Hk [= ->]%list_elem_of_singleton. done.
      - apply NoDup_singleton. }
    intros k m. rewrite last_of_snoc, elem_of_app, list_elem_of_singleton.
    split.
    + intros [Hin|[= -> ->]]; [|auto].
      destruct (proj1 (IH k m) Hin) as [-> Hlast].
      split; [done|]. right. split; [done|]. intros Heq.
      apply Hget. rewrite <- Heq. apply list_elem_of_fmap.
      by exists (matchId m, m).
    + intros [-> [->|[Hlast Hne]]]; [by right|]. left. by apply IH.
Qed.

Lemma unique_matches_keys (d : dict Match) :
  (∀ k m, (k, m) ∈ d → k = matchId m) → matchId <$> d.*2 = d.*1.
Proof.
  induction d as [|[k m] d IH]; [done|]. intros Hd. simpl. f_equal.
  - symmetry. apply Hd. left.
  - apply IH. intros k' m' Hin. apply Hd. by right.
Qed.

(** X15. The merge of [main] keeps one match per [matchId]: the ids of the
    list it saves are distinct, they are the ids of the stored and of the
    new matches, and the match it keeps for an id is the last one of that id
    in the stored matches followed by the new ones, so that a new match
    replaces a stored one. The list is sorted by [gameCreation], latest
    first. *)
Theorem merge_keeps_last (existing_matches new_matches : list Match) :
  let all_matches := existing_matches ++ new_matches in
  let saved := Fetch.sorted_matches existing_matches new_matches in
  NoDup (matchId <$> saved) ∧
  (∀ id, id ∈ matchId <$> saved ↔ id ∈ matchId <$> all_matches) ∧
  (∀ m, m ∈ saved ↔ last_of all_matches m) ∧
  StronglySorted (λ a b, gameCreation b ≤ gameCreation a) saved ∧
  length saved = size (list_to_set (matchId <$> all_matches) : gset string).
Proof.
  intros all_matches saved. unfold saved, Fetch.sorted_matches.
  fold all_matches.
  destruct (unique_matches_last all_matches) as [Hnd Hd].
  set (d := foldl _ _ _) in *.
  pose proof (sorted_reverse_perm gameCreation d.*2) as Hperm.
  assert (matchId <$> d.*2 = d.*1) as Hkeys.
  { apply unique_matches_keys. intros k m Hin. by apply Hd. }
  assert (∀ m, m ∈ d.*2 ↔ last_of all_matches m) as Hlast.
  { intros m. rewrite list_elem_of_fmap. split.
    - intros ([k m'] & -> & Hin). by apply Hd in Hin as [_ ?].
    - intros Hm. exists (matchId m, m). split; [done|]. by apply Hd. }
  assert (∀ id, id ∈ d.*1 ↔ id ∈ matchId <$> all_matches) as Hids.
  { intros id. rewrite <- Hkeys, !list_elem_of_fmap. split.
    - intros (m & -> & Hm%Hlast%last_of_elem). eauto.
    - intros (m & -> & Hm).
      destruct (last_of_exists all_matches (matchId m)) as (m' & Heq & Hm').
      { apply list_elem_of_fmap. eauto. }
      exists m'. split; [done|]. by apply Hlast. }
  split_and!.
  - by rewrite Hperm, Hkeys.
  - intros id. by rewrite Hperm, Hkeys.
  - intros m. by rewrite Hperm.
  - apply sorted_reverse_sorted.
  - rewrite Hperm. rewrite <- (length_fmap matchId), Hkeys.
    rewrite <- (size_list_to_set (C := gset string)) by done.
    f_equal. apply set_eq. intros id. by rewrite !elem_of_list_to_set.
Qed.

Lemma unique_matches_NoDup (l : list Match) :
  NoDup (matchId <$> l) →
  foldl (λ d m, dict_set d (matchId m) m) [] l = (λ m, (matchId m, m)) <$> l.
Proof.
  induction l as [|x l IH] using rev_ind; [done|].
  rewrite fmap_app. intros [Hl [Hx _]]%NoDup_app.
  rewrite foldl_app, fmap_app. simpl. rewrite IH by done.
  apply dict_set_new. apply dict_get_None.
  rewrite <- list_fmap_compose. intros Hin. apply (Hx _ Hin). set_solver.
Qed.

(** X16. The list that [main] saves is a fixed point: merging it with no
    new match gives it back, and [get_recent_matches] returns its first
    [count] matches, so that the 20 recent matches of the dashboard are the
    first 20 of the file. When the ids of the stored and the new matches
    are all distinct, no match is dropped. *)
Theorem merge_saved_again (existing_matches new_matches : list Match) :
  let all_matches := existing_matches ++ new_matches in
  let saved := Fetch.sorted_matches existing_matches new_matches in
  Fetch.sorted_matches saved [] = saved ∧
  (∀ count, 0 ≤ count →
     get_recent_matches saved count = take (Z.to_nat count) saved) ∧
  (NoDup (matchId <$> all_matches) → saved ≡ₚ all_matches).
Proof.
  intros all_matches saved.
  assert (StronglySorted (λ a b, gameCreation b ≤ gameCreation a) saved)
    as Hsorted by apply sorted_reverse_sorted.
  destruct (unique_matches_last all_matches) as [Hnd Hd].
  assert (NoDup (matchId <$> saved)) as Hids.
  { unfold saved, Fetch.sorted_matches. fold all_matches.
    rewrite (sorted_reverse_perm gameCreation).
    rewrite unique_matches_keys; [done|]. intros k m Hin. by apply Hd. }
  split_and!.
  - unfold Fetch.sorted_matches at 1. rewrite app_nil_r.
    rewrite unique_matches_NoDup by done.
    rewrite <- list_fmap_compose, list_fmap_id.
    by apply sorted_reverse_sorted_id.
  - intros count Hc. unfold get_recent_matches, Py.slice_to.
    destruct (Z.ltb_spec count 0); [lia|].
    by rewrite sorted_reverse_sorted_id.
  - intros Hall. unfold saved, Fetch.sorted_matches. fold all_matches.
    rewrite (sorted_reverse_perm gameCreation).
    by rewrite unique_matches_NoDup, <- list_fmap_compose, list_fmap_id.
Qed.

(** * [process_match_data] *)

(** A step of a program that returns: the first call returns too. *)
Ltac bind_Ok H :=
  repeat match type of H with
  | mbind _ ?e = Fetch.Ok _ =>
      let E := fresh "E" in
      destruct e eqn:E; [|discriminate H];
      cbn [mbind Fetch.result_bind] in H
  end.

Lemma subscript_Ok {A} (key : string) (value : option A) (a : A) :
  Fetch.subscript key value = Fetch.Ok a ↔ value = Some a.
Proof. destruct value; simpl; split; congruence. Qed.

Lemma fetch_mapM_Ok {A B} (f : A → Fetch.result B) (l : list A) (k : list B) :
  mapM f l = Fetch.Ok k ↔ Forall2 (λ x y, f x = Fetch.Ok y) l k.
Proof.
  split.
  - revert k. induction l as [|x l IH]; intros k; simpl.
    { intros [= <-]. constructor. }
    intros H. bind_Ok H. injection H as <-. constructor; auto.
  - induction 1 as [|x y l k Hxy _ IH]; [done|]. simpl. by rewrite Hxy, IH.
Qed.

(** The participant that the first loop finds is the first one with the
    [puuid]. *)
Lemma find_participant_Some (ps : list Riot.Participant) (puuid : string)
    (p : Riot.Participant) :
  Fetch.find_participant ps puuid = Fetch.Ok (Some p) →
  ∃ i, ps !! i = Some p ∧ Riot.puuid p = Some puuid ∧
       ∀ j q, (j < i)%nat → ps !! j = Some q →
              ∃ id, Riot.puuid q = Some id ∧ id ≠ puuid.
Proof.
  induction ps as [|q ps IH]; [done|]. simpl. intros H. bind_Ok H.
  apply subscript_Ok in E.
  destruct (String.eqb_spec a puuid) as [->|Hne].
  - injection H as <-. exists 0%nat. split_and!; [done|done|]. lia.
  - destruct (IH H) as (i & Hi & Hp & Hbefore). exists (S i).
    split_and!; [done|done|]. intros [|j] q' Hj; simpl.
    + intros [= <-]. eauto.
    + apply Hbefore. lia.
Qed.

Lemma find_participant_None (ps : list Riot.Participant) (puuid : string) :
  Fetch.find_participant ps puuid = Fetch.Ok None ↔
  Forall (λ q, ∃ id, Riot.puuid q = Some id ∧ id ≠ puuid) ps.
Proof.
  induction ps as [|q ps IH]; simpl.
  { split; [constructor|done]. }
  rewrite Forall_cons, <- IH. destruct (Riot.puuid q) as [id|]; simpl.
  - destruct (String.eqb_spec id puuid) as [->|Hne].
    + split; [done|]. by intros [(? & [= <-] & ?) _].
    + split; [eauto|]. by intros [_ ?].
  - split; [done|]. by intros [(? & ? & _) _].
Qed.

Lemma style_runes_length (style : option Riot.Style) (n : nat) (r : list Z) :
  Fetch.style_runes style n = Fetch.Ok r →
  match style with
  | Some _ => length r = n
  | None => r = []
  end.
Proof.
  destruct style as [style|]; simpl; [|congruence].
  intros H. bind_Ok H. injection H as <-.
  apply fetch_mapM_Ok, Forall2_length in E.
  rewrite length_take in E. rewrite length_app, length_replicate. lia.
Qed.

Lemma get_runes_shape (p : Riot.Participant) (r : Fetch.Runes) :
  Fetch.get_runes p = Fetch.Ok r → runes_shape r.
Proof.
  unfold Fetch.get_runes. intros H. bind_Ok H. injection H as <-.
  apply style_runes_length in E, E0. unfold runes_shape. simpl.
  assert (length (Fetch.stat_runes p) = 3%nat) as Hstats.
  { unfold Fetch.stat_runes. by repeat case_match. }
  destruct (Fetch.get_styles p) as [|s0 [|s1 styles]]; simpl in *;
    subst; split_and!; auto.
  intros Hnil. by rewrite Hnil in E.
Qed.

Lemma final_items_shape (p : Riot.Participant) :
  (length (Fetch.final_items p) ≤ 7)%nat ∧
  Forall (λ item_id, 0 < item_id) (Fetch.final_items p).
Proof.
  unfold Fetch.final_items. split.
  - etrans; [apply sublist_length, List_filter_sublist|done].
  - apply Forall_forall. intros x [_ Hx]%elem_of_List_filter. lia.
Qed.

Lemma player_data_Ok (p : Riot.Participant) (player : Fetch.Player) :
  Fetch.player_data p = Fetch.Ok player →
  stored_as p player ∧ Fetch.get_runes p = Fetch.Ok (Fetch.runes player).
Proof.
  unfold Fetch.player_data. intros H. bind_Ok H. injection H as <-.
  repeat match goal with
         | H : Fetch.subscript _ _ = Fetch.Ok _ |- _ =>
             apply subscript_Ok in H
         end.
  unfold stored_as. simpl. split_and!; done.
Qed.

Lemma get_my_data_Ok (p : Riot.Participant) (my_data : Fetch.StoredMyData) :
  Fetch.get_my_data p = Fetch.Ok my_data →
  stored_as_mine p my_data ∧
  Fetch.get_runes p = Fetch.Ok (Fetch.my_runes my_data) ∧
  Forall (λ i, Fetch.timestamp i = 0) (Fetch.my_items my_data).
Proof.
  unfold Fetch.get_my_data. intros H. bind_Ok H. injection H as <-.
  repeat match goal with
         | H : Fetch.subscript _ _ = Fetch.Ok _ |- _ =>
             apply subscript_Ok in H
         end.
  unfold stored_as_mine. simpl. split_and!; try done.
  - by rewrite <- list_fmap_compose, list_fmap_id.
  - apply Forall_fmap, Forall_true. done.
Qed.

(** What [process_match_data] returns, step by step. *)
Lemma process_match_data_Ok raw_match puuid match_data :
  Fetch.process_match_data raw_match puuid = Fetch.Ok match_data →
  ∃ info metadata participants my_participant,
    Riot.info raw_match = Some info ∧
    Riot.metadata raw_match = Some metadata ∧
    Riot.participants info = Some participants ∧
    Fetch.find_participant participants puuid
    = Fetch.Ok (Some my_participant) ∧
    Fetch.get_my_data my_participant
    = Fetch.Ok (Fetch.myData match_data) ∧
    Forall2 (λ p player, Fetch.player_data p = Fetch.Ok player)
      participants (Fetch.allPlayers match_data) ∧
    Riot.matchId metadata = Some (Fetch.matchId match_data) ∧
    Riot.gameCreation info = Some (Fetch.gameCreation match_data) ∧
    Riot.queueId info = Some (Fetch.queueId match_data) ∧
    Riot.gameDuration info = Some (Fetch.gameDuration match_data) ∧
    Riot.gameVersion info = Some (Fetch.gameVersion match_data).
Proof.
  unfold Fetch.process_match_data. intros H. bind_Ok H.
  destruct a1 as [my_participant|]; [|done]. bind_Ok H.
  injection H as <-.
  repeat match goal with
         | H : Fetch.subscript _ _ = Fetch.Ok _ |- _ =>
             apply subscript_Ok in H
         end.
  apply fetch_mapM_Ok in E3. simpl. eauto 20.
Qed.

(** X17. The match that [process_match_data] returns has runes and items of
    a fixed shape, for the player and for every participant: 4 runes of the
    main path and 2 of the second one (filled up with 0) or none of a path
    that the API left out, 3 stat runes, and at most 7 items, the ids above
    0; the items of the player have the timestamp 0. *)
Theorem process_match_data_shape raw_match puuid match_data :
  Fetch.process_match_data raw_match puuid = Fetch.Ok match_data →
  let my_data := Fetch.myData match_data in
  runes_shape (Fetch.my_runes my_data) ∧
  (length (Fetch.my_items my_data) ≤ 7)%nat ∧
  Forall (λ i, 0 < Fetch.itemId i ∧ Fetch.timestamp i = 0)
    (Fetch.my_items my_data) ∧
  Forall (λ player,
            runes_shape (Fetch.runes player) ∧
            (length (Fetch.items player) ≤ 7)%nat ∧
            Forall (λ item_id, 0 < item_id) (Fetch.items player))
    (Fetch.allPlayers match_data).
Proof.
  intros (info & metadata & participants & my_participant & _ & _ & _ & _
          & Hmine & Hall & _)%process_match_data_Ok.
  apply get_my_data_Ok in Hmine
    as ((_ & _ & _ & _ & _ & _ & _ & Hitems) & Hrunes & Htime).
  destruct (final_items_shape my_participant) as [Hlen Hpos].
  rewrite <- Hitems in Hlen, Hpos. rewrite length_fmap in Hlen.
  rewrite Forall_fmap in Hpos. simpl. split_and!.
  - by eapply get_runes_shape.
  - done.
  - apply Forall_and. split; [exact Hpos|exact Htime].
  - clear -Hall. induction Hall as [|p player ps players Hp _ IH];
      constructor; [|done].
    apply player_data_Ok in Hp
      as ((_ & _ & _ & _ & _ & _ & _ & _ & _ & _ & ->) & Hrunes).
    destruct (final_items_shape p). split_and!; [|done..].
    by eapply get_runes_shape.
Qed.

(** X18. [all_players] holds the participants of the match, one for one and
    in their order, with the keys of each as the API gave them. [my_data]
    holds the data of the first participant with the [puuid], and the entry
    of [all_players] at the place of that participant has the same
    champion, kills, deaths, assists and damage. *)
Theorem process_match_data_players raw_match puuid match_data :
  Fetch.process_match_data raw_match puuid = Fetch.Ok match_data →
  ∃ info participants i my_participant player,
    Riot.info raw_match = Some info ∧
    Riot.participants info = Some participants ∧
    Forall2 stored_as participants (Fetch.allPlayers match_data) ∧
    participants !! i = Some my_participant ∧
    Riot.puuid my_participant = Some puuid ∧
    (∀ j q, (j < i)%nat → participants !! j = Some q →
            Riot.puuid q ≠ Some puuid) ∧
    stored_as_mine my_participant (Fetch.myData match_data) ∧
    Fetch.allPlayers match_data !! i = Some player ∧
    Fetch.championName player
    = Fetch.my_championName (Fetch.myData match_data) ∧
    Fetch.kills player = Fetch.my_kills (Fetch.myData match_data) ∧
    Fetch.deaths player = Fetch.my_deaths (Fetch.myData match_data) ∧
    Fetch.assists player = Fetch.my_assists (Fetch.myData match_data) ∧
    Fetch.totalDamageDealtToChampions player
    = Fetch.my_totalDamageDealtToChampions (Fetch.myData match_data) ∧
    Fetch.totalDamageTaken player
    = Fetch.my_totalDamageTaken (Fetch.myData match_data).
Proof.
  intros (info & metadata & participants & my_participant & Hinfo & _ & Hps
          & Hfind & Hmine & Hall & _)%process_match_data_Ok.
  apply find_participant_Some in Hfind as (i & Hi & Hpuuid & Hbefore).
  apply get_my_data_Ok in Hmine as [Hmine _].
  assert (Forall2 stored_as participants (Fetch.allPlayers match_data))
    as Hstored.
  { eapply Forall2_impl; [exact Hall|]. intros p player Hp.
    by apply player_data_Ok in Hp as [? _]. }
  destruct (Forall2_lookup_l _ _ _ _ _ Hstored Hi) as (player & Hplayer & Hs).
  exists info, participants, i, my_participant, player.
  split_and!; try done.
  - intros j q Hj Hq Heq.
    destruct (Hbefore j q Hj Hq) as (id & Hid & Hne). congruence.
  - destruct Hs as (_ & _ & Hc & _), Hmine as (Hc' & _). congruence.
  - destruct Hs as (_ & _ & _ & Hk & _), Hmine as (_ & Hk' & _). congruence.
  - destruct Hs as (_ & _ & _ & _ & Hd & _), Hmine as (_ & _ & Hd' & _).
    congruence.
  - destruct Hs as (_ & _ & _ & _ & _ & Ha & _),
      Hmine as (_ & _ & _ & Ha' & _). congruence.
  - destruct Hs as (_ & _ & _ & _ & _ & _ & Ht & _),
      Hmine as (_ & _ & _ & _ & Ht' & _). congruence.
  - destruct Hs as (_ & _ & _ & _ & _ & _ & _ & Ht & _),
      Hmine as (_ & _ & _ & _ & _ & Ht' & _). congruence.
Qed.

Lemma subscript_is_Some {A} (key : string) (value : option A) :
  is_Some value → ∃ a, Fetch.subscript key value = Fetch.Ok a.
Proof. intros [a ->]. by exists a. Qed.

Lemma style_runes_complete (style : option Riot.Style) (n : nat) :
  (∃ r, Fetch.style_runes style n = Fetch.Ok r) ↔
  complete_selections n style.
Proof.
  destruct style as [style|]; simpl; [|by split; eauto].
  set (l := take n (default [] (Riot.selections style))). split.
  - intros [r H]. bind_Ok H. apply fetch_mapM_Ok in E. clear H.
    induction E as [|s y l' k Hs _ IH]; constructor; [|done].
    apply subscript_Ok in Hs. by rewrite Hs.
  - intros Hl.
    assert (∃ k, mapM (λ s, Fetch.subscript "perk" (Riot.perk s)) l
                 = Fetch.Ok k) as [k ->]; [|by eexists].
    induction Hl as [|s l' [a Hs] _ [k IH]]; [by eexists|].
    simpl. rewrite Hs, IH. by eexists.
Qed.

Lemma get_runes_complete (p : Riot.Participant) :
  (∃ r, Fetch.get_runes p = Fetch.Ok r) ↔
  complete_selections 4 (Fetch.get_styles p !! 0%nat) ∧
  complete_selections 2 (Fetch.get_styles p !! 1%nat).
Proof.
  rewrite <- !style_runes_complete. unfold Fetch.get_runes. split.
  - intros [r H]. bind_Ok H. eauto.
  - intros [[r1 ->] [r2 ->]]. by eexists.
Qed.

Lemma player_data_complete (p : Riot.Participant) :
  (∃ player, Fetch.player_data p = Fetch.Ok player) ↔
  complete_participant p.
Proof.
  unfold complete_participant, Fetch.player_data. split.
  - intros [player H]. bind_Ok H.
    destruct (proj1 (get_runes_complete p)) as [? ?]; [by eexists|].
    repeat match goal with
           | H : Fetch.subscript _ _ = Fetch.Ok _ |- _ =>
               apply subscript_Ok in H; rewrite H
           end.
    split_and!; eauto.
  - intros (H4 & H2 & [? ->] & [? ->] & [? ->] & [? ->] & [? ->] & [? ->]
            & [? ->] & [? ->]).
    destruct (proj2 (get_runes_complete p) (conj H4 H2)) as [r ->].
    by eexists.
Qed.

Lemma get_my_data_complete (p : Riot.Participant) :
  (∃ my_data, Fetch.get_my_data p = Fetch.Ok my_data) ↔
  (∃ r, Fetch.get_runes p = Fetch.Ok r) ∧
  is_Some (Riot.championName p) ∧ is_Some (Riot.kills p) ∧
  is_Some (Riot.deaths p) ∧ is_Some (Riot.assists p) ∧
  is_Some (Riot.totalDamageDealtToChampions p) ∧
  is_Some (Riot.totalDamageTaken p) ∧ is_Some (Riot.win p).
Proof.
  unfold Fetch.get_my_data. split.
  - intros [my_data H]. bind_Ok H.
    repeat match goal with
           | H : Fetch.subscript _ _ = Fetch.Ok _ |- _ =>
               apply subscript_Ok in H; rewrite H
           end.
    split_and!; eauto.
  - intros ([r ->] & [? ->] & [? ->] & [? ->] & [? ->] & [? ->] & [? ->]
            & [? ->]).
    by eexists.
Qed.

Lemma find_participant_first (ps : list Riot.Participant) (puuid : string)
    (i : nat) (p : Riot.Participant) :
  ps !! i = Some p → Riot.puuid p = Some puuid →
  (∀ j q, (j < i)%nat → ps !! j = Some q →
          ∃ id, Riot.puuid q = Some id ∧ id ≠ puuid) →
  Fetch.find_participant ps puuid = Fetch.Ok (Some p).
Proof.
  revert i. induction ps as [|q ps IH]; intros [|i]; simpl; try done.
  - intros [= ->] Hp _. rewrite Hp. simpl. by rewrite String.eqb_refl.
  - intros Hi Hp Hbefore.
    destruct (Hbefore 0%nat q) as (id & -> & Hne); [lia|done|]. simpl.
    destruct (String.eqb_spec id puuid); [done|].
    apply (IH i); [done..|]. intros j q' Hj Hq'. apply (Hbefore (S j)); [lia|done].
Qed.

Lemma fetch_mapM_total {A B} (f : A → Fetch.result B) (l : list A) :
  (∃ k, mapM f l = Fetch.Ok k) ↔ Forall (λ x, ∃ y, f x = Fetch.Ok y) l.
Proof.
  split.
  - intros [k Hk%fetch_mapM_Ok].
    induction Hk; constructor; eauto.
  - induction 1 as [|x l [y Hy] _ [k IH]]; [by eexists|].
    simpl. rewrite Hy, IH. by eexists.
Qed.

Lemma process_match_data_complete raw_match puuid match_data :
  Fetch.process_match_data raw_match puuid = Fetch.Ok match_data →
  complete_match raw_match puuid.
Proof.
  intros H.
  pose proof (process_match_data_Ok _ _ _ H)
    as (info & metadata & participants & my_participant & Hinfo & Hmeta
        & Hps & Hfind & Hmine & Hall & Hid & Hgc & Hq & Hgd & Hgv).
  apply find_participant_Some in Hfind as (i & Hi & Hpuuid & Hbefore).
  exists info, metadata, participants, i, my_participant.
  split_and!; try done; try (by eexists).
  - apply (proj1 (get_my_data_complete my_participant)). by eexists.
  - apply Forall_forall. intros p Hp.
    apply player_data_complete.
    apply list_elem_of_lookup in Hp as [j Hj].
    destruct (Forall2_lookup_l _ _ _ _ _ Hall Hj) as (player & _ & Hpl).
    by eexists.
Qed.

Lemma complete_match_processed raw_match puuid :
  complete_match raw_match puuid →
  ∃ match_data,
    Fetch.process_match_data raw_match puuid = Fetch.Ok match_data.
Proof.
  intros (info & metadata & participants & i & my_participant & Hinfo
          & Hmeta & Hps & Hi & Hpuuid & Hbefore & Hwin & Hall & [? Hid]
          & [? Hgc] & [? Hq] & [? Hgd] & [? Hgv]).
  unfold Fetch.process_match_data. rewrite Hinfo. simpl. rewrite Hps.
  simpl. rewrite (find_participant_first _ _ _ _ Hi Hpuuid Hbefore).
  simpl.
  assert (complete_participant my_participant) as Hmine.
  { rewrite Forall_forall in Hall. apply Hall.
    by eapply list_elem_of_lookup_2. }
  destruct (proj2 (get_my_data_complete my_participant)) as [my_data ->].
  { destruct Hmine as (H4 & H2 & _ & _ & ? & ? & ? & ? & ? & ?).
    split_and!; try done. by apply get_runes_complete. }
  simpl.
  destruct (proj2 (fetch_mapM_total Fetch.player_data participants))
    as [players ->].
  { eapply Forall_impl; [exact Hall|]. intros p.
    apply player_data_complete. }
  simpl. rewrite Hmeta. simpl. rewrite Hid, Hgc, Hq, Hgd, Hgv. simpl.
  by eexists.
Qed.

(** X19. [process_match_data] returns a match exactly on the answers of the
    API that are complete: the keys of the match are there, a participant
    has the [puuid] and the key [win], the participants in front of it have
    the key [puuid], and every one of the participants has the keys that
    [all_players] takes. A key that one participant lacks, whoever it is,
    makes the call raise. *)
Theorem process_match_data_returns raw_match puuid :
  (∃ match_data,
     Fetch.process_match_data raw_match puuid = Fetch.Ok match_data) ↔
  complete_match raw_match puuid.
Proof.
  split.
  - intros [match_data H]. by eapply process_match_data_complete.
  - apply complete_match_processed.
Qed.

(** X20. When no participant has the [puuid] (and each has the key),
    [process_match_data] raises [ValueError]: also on a match without
    participants. Without the key [info] it raises [KeyError], and so it
    does when the first participant has no [puuid]. *)
Theorem process_match_data_not_found raw_match puuid :
  (∀ info participants,
     Riot.info raw_match = Some info →
     Riot.participants info = Some participants →
     Forall (λ q, ∃ id, Riot.puuid q = Some id ∧ id ≠ puuid) participants →
     Fetch.process_match_data raw_match puuid
     = Fetch.Raise
         (Fetch.ValueError
            ("PUUID " +:+ puuid +:+ " not found in match participants"))) ∧
  (Riot.info raw_match = None →
   Fetch.process_match_data raw_match puuid
   = Fetch.Raise (Fetch.KeyError "info")) ∧
  (∀ info q participants,
     Riot.info raw_match = Some info →
     Riot.participants info = Some (q :: participants) →
     Riot.puuid q = None →
     Fetch.process_match_data raw_match puuid
     = Fetch.Raise (Fetch.KeyError "puuid")).
Proof.
  unfold Fetch.process_match_data. split_and!.
  - intros info participants -> Hps Hnone. simpl. rewrite Hps. simpl.
    apply find_participant_None in Hnone. by rewrite Hnone.
  - by intros ->.
  - intros info q participants -> Hps Hq. simpl. rewrite Hps. simpl.
    by rewrite Hq.
Qed.

(** * [RiotAPIClient._request] *)

Section Request.
Context {J : Type}.
Implicit Types (script : list (Fetch.Attempt (J := J))) (run : Fetch.Run (J := J)).

Lemma request_loop_bounded url script retry_count :
  0 ≤ retry_count ≤ 3 →
  let run := Fetch.request_loop url script retry_count in
  (Z.of_nat (Fetch.requests run)
   ≤ 3 - retry_count + Z.of_nat (rate_limits script)) ∧
  (3 - retry_count + Z.of_nat (rate_limits script)
   ≤ Z.of_nat (length script) →
   is_Some (Fetch.outcome run)).
Proof.
  unfold rate_limits.
  revert retry_count. induction script as [|attempt script IH];
    intros retry_count Hrc; simpl; unfold Fetch.max_retries;
    (destruct (Z.ltb_spec retry_count 3) as [Hlt|Hge]; simpl;
     [|split; [lia|by eexists]]).
  { split; lia. }
  destruct attempt as [response monotonic|e]; simpl.
  2: { destruct (Z.ltb_spec (retry_count + 1) 3); simpl;
         [|split; [lia|by eexists]].
       destruct (IH (retry_count + 1) ltac:(lia)) as [H1 H2].
       split; [lia|]. intros Hlen. apply H2. lia. }
  destruct (Z.eqb_spec (Fetch.status_code response) 429) as [H429|H429];
    simpl.
  { destruct (IH retry_count Hrc) as [H1 H2].
    destruct (match Fetch.retry_after response with
              | Some header => Py.int header
              | None => Some 120
              end) as [s|]; simpl; [|split; [lia|by eexists]].
    unfold Fetch.sleep_int.
    destruct (s <? 0); simpl; [split; [lia|by eexists]|].
    destruct (9223372036 <? s); simpl; [split; [lia|by eexists]|].
    destruct (9223372036854775808 <=? monotonic + s * 1000000000); simpl;
      [split; [lia|by eexists]|].
    split; [lia|]. intros Hlen. apply H2. lia. }
  destruct (Fetch.status_code response =? 404); simpl;
    [split; [lia|by eexists]|].
  destruct ((500 <=? Fetch.status_code response)
            && (Fetch.status_code response <? 600)); simpl.
  { destruct (Z.ltb_spec (retry_count + 1) 3); simpl;
      [|split; [lia|by eexists]].
    destruct (IH (retry_count + 1) ltac:(lia)) as [H1 H2].
    split; [lia|]. intros Hlen. apply H2. lia. }
  destruct ((400 <=? Fetch.status_code response)
            && (Fetch.status_code response <? 500)); simpl;
    [split; [lia|by eexists]|].
  destruct (Fetch.json response) as [e|value]; simpl;
    [|split; [lia|by eexists]].
  destruct (Z.ltb_spec (retry_count + 1) 3); simpl;
    [|split; [lia|by eexists]].
  destruct (IH (retry_count + 1) ltac:(lia)) as [H1 H2].
  split; [lia|]. intros Hlen. apply H2. lia.
Qed.

(** X21. [_request] gives up after 3 failures: apart from the responses
    with the status 429, which it waits for and does not count, it calls
    [requests.get] 3 times at most, and it has ended (with a result or an
    exception) on every script that is longer than its 429 responses by 3
    answers at least. *)
Theorem request_gives_up url script :
  let run := Fetch._request url script in
  (Fetch.requests run ≤ 3 + rate_limits script)%nat ∧
  ((3 + rate_limits script ≤ length script)%nat →
   is_Some (Fetch.outcome run)).
Proof.
  destruct (request_loop_bounded url script 0 ltac:(lia)) as [H1 H2].
  unfold Fetch._request. simpl. split; [lia|]. intros Hlen. apply H2. lia.
Qed.




Lemma request_loop_rate_limited url n header t seconds script retry_count :
  retry_after_seconds header = Some seconds →
  0 ≤ seconds ≤ 9223372036 → t + seconds * 10 ^ 9 < 2 ^ 63 →
  retry_count < 3 →
  let run :=
    Fetch.request_loop url (replicate n (rate_limited header t) ++ script)
      retry_count in
  let after := Fetch.request_loop url script retry_count in
  Fetch.outcome run = Fetch.outcome after ∧
  Fetch.sleeps run = replicate n (inject_Z seconds) ++ Fetch.sleeps after ∧
  Fetch.requests run = (n + Fetch.requests after)%nat.
Proof.
  change (2 ^ 63) with 9223372036854775808.
  change (10 ^ 9) with 1000000000.
  intros Hheader Hs Hsum Hrc.
  induction n as [|n (IH1 & IH2 & IH3)]; [done|].
  cbn [replicate app Fetch.request_loop]. unfold Fetch.max_retries.
  destruct (Z.ltb_spec retry_count 3); [|lia].
  cbn [rate_limited Fetch.status_code Fetch.retry_after].
  change (429 =? 429) with true. cbv iota.
  unfold retry_after_seconds in Hheader. rewrite Hheader.
  unfold Fetch.sleep_int.
  destruct (Z.ltb_spec seconds 0); [lia|].
  destruct (Z.ltb_spec 9223372036 seconds); [lia|].
  destruct (Z.leb_spec 9223372036854775808 (t + seconds * 1000000000));
    [lia|].
  simpl. by rewrite IH1, IH2, IH3.
Qed.

(** X23. Responses with the status 429 are waited for and do not use up
    the retries: [n] of them in front of a script add [n] calls and [n]
    waits of the seconds of their [Retry-After] header (120 without the
    header) to the run on the script, whatever [n] is, so that the loop is
    still running when the server has answered 429 only. This is so for
    seconds that do not take the monotonic clock of the host to [2 ** 63]
    nanoseconds: [time.sleep] raises [OSError] for those that do, and the
    call ends with it at the first response. A header that [int] does not
    read, such as a date, ends the call with [ValueError] at the first
    response. *)
Theorem request_rate_limited url n header t seconds script :
  (retry_after_seconds header = Some seconds →
   0 ≤ seconds ≤ 9223372036 → t + seconds * 10 ^ 9 < 2 ^ 63 →
   let run :=
     Fetch._request url (replicate n (rate_limited header t) ++ script) in
   let after := Fetch._request url script in
   Fetch.outcome run = Fetch.outcome after ∧
   Fetch.sleeps run = replicate n (inject_Z seconds) ++ Fetch.sleeps after ∧
   Fetch.requests run = (n + Fetch.requests after)%nat ∧
   (script = [] → Fetch.outcome run = None)) ∧
  (retry_after_seconds header = Some seconds →
   0 ≤ seconds ≤ 9223372036 → 2 ^ 63 ≤ t + seconds * 10 ^ 9 →
   Fetch._request url (rate_limited header t :: script)
   = {| Fetch.outcome := Some (Fetch.Raise Fetch.BuiltinOSError);
        Fetch.sleeps := []; Fetch.requests := 1 |}) ∧
  (∀ h, Py.int h = None →
     Fetch._request url (rate_limited (Some h) t :: script)
     = {| Fetch.outcome := Some (Fetch.Raise Fetch.BuiltinValueError);
          Fetch.sleeps := []; Fetch.requests := 1 |}) ∧
  Py.int "Wed, 21 Oct 2015 07:28:00 GMT" = None.
Proof.
  split_and!;
    [| |by intros h Hh; unfold Fetch._request; simpl; rewrite Hh|done].
  - intros Hheader Hs Hsum.
    destruct (request_loop_rate_limited url n header t seconds script 0
                Hheader Hs Hsum ltac:(lia)) as (H1 & H2 & H3).
    unfold Fetch._request. simpl. split_and!; try done.
    intros ->. by rewrite H1.
  - change (2 ^ 63) with 9223372036854775808.
    change (10 ^ 9) with 1000000000. intros Hheader Hs Hsum.
    unfold Fetch._request. cbn [Fetch.request_loop]. unfold Fetch.max_retries.
    change (0 <? 3) with true.
    cbn [rate_limited Fetch.status_code Fetch.retry_after].
    change (429 =? 429) with true. cbv iota.
    unfold retry_after_seconds in Hheader. rewrite Hheader.
    unfold Fetch.sleep_int.
    destruct (Z.ltb_spec seconds 0); [lia|].
    destruct (Z.ltb_spec 9223372036 seconds); [lia|].
    destruct (Z.leb_spec 9223372036854775808 (t + seconds * 1000000000));
      [done|lia].
Qed.

End Request.

(** * [RiotAPIClient.get_all_match_ids] *)

Section Pages.
Context (get_match_ids : string → Z → Z → Fetch.result (list string)).

Lemma get_all_match_ids_from_serves puuid ids fuel (k : nat) :
  serves get_match_ids puuid ids →
  (100 * k ≤ length ids)%nat →
  Fetch.get_all_match_ids_from get_match_ids fuel puuid
    (take (100 * k) ids) (Z.of_nat (100 * k))
  = if decide ((length ids - 100 * k) / 100 < fuel)%nat
    then Some (Fetch.Ok ids) else None.
Proof.
  intros Hserves. revert k. induction fuel as [|fuel IH]; intros k Hk.
  { by destruct (decide _); [lia|]. }
  cbn [Fetch.get_all_match_ids_from].
  rewrite Hserves by lia. rewrite Nat2Z.id.
  change (Z.to_nat 100) with 100%nat.
  set (batch := take 100 (drop (100 * k) ids)).
  assert (length batch = 100 `min` (length ids - 100 * k))%nat as Hlen.
  { unfold batch. by rewrite length_take, length_drop. }
  assert (take (100 * k) ids ++ batch = take (100 * S k) ids) as Happ.
  { unfold batch. replace (100 * S k)%nat with (100 * k + 100)%nat by lia.
    by rewrite take_take_drop. }
  destruct batch as [|id batch'] eqn:Hbatch.
  { cbn [length] in Hlen.
    assert (length ids = 100 * k)%nat as Heq by lia.
    rewrite <- Heq, firstn_all.
    destruct (decide _) as [|Hn]; [done|]. destruct Hn.
    rewrite Heq, Nat.sub_diag. simpl. lia. }
  rewrite <- Hbatch in *. clear Hbatch. rewrite Happ.
  destruct (Z.ltb_spec (Z.of_nat (length batch)) 100) as [Hshort|Hfull].
  - assert (length ids - 100 * k < 100)%nat as Hlt by lia.
    rewrite take_ge by lia.
    destruct (decide _) as [|Hn]; [done|]. destruct Hn.
    rewrite Nat.div_small by done. lia.
  - assert (100 ≤ length ids - 100 * k)%nat as Hge by lia.
    replace (Z.of_nat (100 * k) + 100) with (Z.of_nat (100 * S k)) by lia.
    rewrite (IH (S k)) by lia.
    replace (length ids - 100 * k)%nat
      with (length ids - 100 * S k + 1 * 100)%nat by lia.
    rewrite Nat.div_add by done.
    destruct (decide _), (decide _); try done; lia.
Qed.

(** X24. On an API that answers with the pages of the list of ids it has,
    [get_all_match_ids] returns the whole list after [len(ids) // 100 + 1]
    requests, and not before: a list whose length is a multiple of 100
    takes one more request, which is answered with the empty page. On an
    API that answers every request with a full page the loop does not
    end. *)
Theorem get_all_match_ids_complete puuid ids fuel :
  (serves get_match_ids puuid ids →
   Fetch.get_all_match_ids get_match_ids fuel puuid
   = if decide (length ids / 100 < fuel)%nat
     then Some (Fetch.Ok ids) else None) ∧
  ((∀ start, ∃ batch,
      get_match_ids puuid start 100 = Fetch.Ok batch ∧
      length batch = 100%nat) →
   Fetch.get_all_match_ids get_match_ids fuel puuid = None).
Proof.
  split.
  - intros Hserves.
    pose proof (get_all_match_ids_from_serves puuid ids fuel 0 Hserves
                  ltac:(lia)) as H.
    rewrite Nat.mul_0_r, Nat.sub_0_r in H. exact H.
  - intros Hfull. unfold Fetch.get_all_match_ids.
    generalize (@nil string). generalize 0.
    induction fuel as [|fuel IH]; intros start all_ids; [done|].
    cbn [Fetch.get_all_match_ids_from].
    destruct (Hfull start) as (batch & -> & Hlen).
    destruct batch as [|id batch]; [done|].
    destruct (Z.ltb_spec (Z.of_nat (length (id :: batch))) 100); [lia|].
    apply IH.
Qed.
End Pages.

(** * [RiotAPIClient]: the URLs *)

Example str_format_examples :
  Fetch.str_format "/lol/match/v5/matches/{matchId}" [("matchId", "JP1_{x}")]
  = Fetch.Ok "/lol/match/v5/matches/JP1_{x}" ∧
  Fetch.str_format "a{{b}}c{n}" [("n", "v")] = Fetch.Ok "a{b}cv" ∧
  Fetch.str_format "{x}{y}" [("y", "1")] = Fetch.Raise (Fetch.KeyError "x") ∧
  Fetch.str_format "a}b" []
  = Fetch.Raise (Fetch.ValueError "Single '}' encountered in format string") ∧
  Fetch.str_format "a{b" []
  = Fetch.Raise (Fetch.ValueError "expected '}' before end of string") ∧
  Fetch.str_format "{x}}}" [("x", "1")] = Fetch.Ok "1}".
Proof. by vm_compute. Qed.

Lemma string_app_nil_r (s : string) : s +:+ "" = s.
Proof.
  induction s as [|c s IH]; [done|].
  change (String c (s +:+ "") = String c s). by rewrite IH.
Qed.

Lemma string_app_assoc (s t u : string) : (s +:+ t) +:+ u = s +:+ t +:+ u.
Proof.
  induction s as [|c s IH]; [done|].
  change (String c ((s +:+ t) +:+ u) = String c (s +:+ t +:+ u)).
  by rewrite IH.
Qed.

Lemma string_prefix_app (s t : string) : String.prefix s (s +:+ t) = true.
Proof.
  induction s as [|c s IH]; simpl; [by destruct t|].
  by destruct (ascii_dec c c).
Qed.

(** The three URLs, for base URLs that are there. *)
Lemma match_detail_url_Some self base match_id :
  Fetch.regional_base_url self = Some base →
  Fetch.match_detail_url self match_id
  = Fetch.Ok (base +:+ "/lol/match/v5/matches/" +:+ match_id).
Proof.
  intros Hbase. unfold Fetch.match_detail_url. cbn. rewrite Hbase. simpl.
  by rewrite string_app_nil_r.
Qed.

Lemma match_ids_url_Some self base puuid :
  Fetch.regional_base_url self = Some base →
  Fetch.match_ids_url self puuid
  = Fetch.Ok (base +:+ "/lol/match/v5/matches/by-puuid/" +:+ puuid
              +:+ "/ids").
Proof.
  intros Hbase. unfold Fetch.match_ids_url. cbn. by rewrite Hbase.
Qed.

Lemma summoner_url_Some self base summoner_name :
  Fetch.platform_base_url self = Some base →
  Fetch.summoner_url self summoner_name
  = Fetch.Ok (base +:+ "/lol/summoner/v4/summoners/by-name/"
              +:+ summoner_name).
Proof.
  intros Hbase. unfold Fetch.summoner_url. cbn. rewrite Hbase. simpl.
  by rewrite string_app_nil_r.
Qed.

Lemma regional_endpoint_cases (region : string) :
  default "asia" (dict_get Fetch.regional_mapping region)
  ∈ ["asia"; "americas"; "europe"; "sea"].
Proof.
  unfold Fetch.regional_mapping. cbn [dict_get].
  repeat match goal with
         | |- context [String.eqb ?a region] =>
             destruct (String.eqb a region);
             [cbn [default from_option id];
              repeat (apply elem_of_cons; first [by left|right])|]
         end.
  by left.
Qed.

(** X25. Whatever the region, a client has a URL for the matches: that of
    one of the four routing regions, and that of [asia] for a region that
    [BASE_URLS] does not have. For such a region the client has no URL for
    the platform and [get_summoner] fails with [TypeError] when it builds
    its URL. The URLs of the matches are the base, the path and the
    [puuid] or the id of the match as they are, with nothing escaped. *)
Theorem client_urls (api_key region : string) :
  let self := Fetch.new_client api_key region in
  (∃ base,
     Fetch.regional_base_url self = Some base ∧
     base ∈ [ "https://asia.api.riotgames.com";
              "https://americas.api.riotgames.com";
              "https://europe.api.riotgames.com";
              "https://sea.api.riotgames.com" ] ∧
     (∀ match_id,
        Fetch.match_detail_url self match_id
        = Fetch.Ok (base +:+ "/lol/match/v5/matches/" +:+ match_id)) ∧
     (∀ puuid,
        Fetch.match_ids_url self puuid
        = Fetch.Ok (base +:+ "/lol/match/v5/matches/by-puuid/" +:+ puuid
                    +:+ "/ids"))) ∧
  (Fetch.platform_base_url self = None ↔ region ∉ Utils.BASE_URLS.*1) ∧
  (region ∉ Utils.BASE_URLS.*1 →
   Fetch.regional_base_url self = Some "https://asia.api.riotgames.com" ∧
   ∀ summoner_name,
     Fetch.summoner_url self summoner_name = Fetch.Raise Fetch.TypeError).
Proof.
  intros self.
  assert (∃ base,
    Fetch.regional_base_url self = Some base ∧
    base ∈ [ "https://asia.api.riotgames.com";
             "https://americas.api.riotgames.com";
             "https://europe.api.riotgames.com";
             "https://sea.api.riotgames.com" ]) as (base & Hbase & Hin).
  { unfold self, Fetch.new_client. cbn [Fetch.regional_base_url].
    pose proof (regional_endpoint_cases region) as Hr.
    repeat (apply elem_of_cons in Hr as [->|Hr];
            [eexists; split;
             [reflexivity
             |repeat (apply elem_of_cons; first [by left|right])]|]).
    by apply elem_of_nil in Hr. }
  split_and!.
  - exists base. split_and!; [done|done|..].
    + intros match_id. by apply match_detail_url_Some.
    + intros puuid. by apply match_ids_url_Some.
  - apply dict_get_None.
  - intros Hregion.
    assert (dict_get Fetch.regional_mapping region = None) as Hmap.
    { apply dict_get_None. intros Hin'. apply Hregion.
      revert Hin'. unfold Fetch.regional_mapping, Utils.BASE_URLS. simpl.
      set_solver. }
    split.
    + unfold self, Fetch.new_client. cbn [Fetch.regional_base_url].
      by rewrite Hmap.
    + intros summoner_name.
      assert (Fetch.platform_base_url self = None) as Hp
        by (by apply dict_get_None in Hregion).
      unfold Fetch.summoner_url. by rewrite Hp.
Qed.

(** * [fetch_new_matches] *)

Lemma get_all_match_ids_from_ext
    (f g : string → Z → Z → Fetch.result (list string)) fuel puuid all_ids
    start :
  (∀ start count, f puuid start count = g puuid start count) →
  Fetch.get_all_match_ids_from f fuel puuid all_ids start
  = Fetch.get_all_match_ids_from g fuel puuid all_ids start.
Proof.
  intros Hfg. revert all_ids start.
  induction fuel as [|fuel IH]; intros all_ids start; [done|].
  cbn [Fetch.get_all_match_ids_from]. rewrite Hfg.
  destruct (g puuid start 100) as [[|id batch]|]; try done.
  destruct (_ <? _); [done|]. apply IH.
Qed.

Section OnlyAsia.
Context (request_ids request_ids' : string → Z → Z → Fetch.result (list string)).
Context (request_match request_match' : string → Fetch.result Riot.RawMatch).
Context (timestamp_of : string → Fetch.result Z).
Context (api_key : string).
Hypothesis same_ids : ∀ url start count,
  Py.startswith url asia_url = true →
  request_ids url start count = request_ids' url start count.
Hypothesis same_match : ∀ url,
  Py.startswith url asia_url = true → request_match url = request_match' url.

Let client := Fetch.new_client api_key "jp1".

Lemma get_match_ids_same puuid start count :
  Fetch.get_match_ids request_ids client puuid start count
  = Fetch.get_match_ids request_ids' client puuid start count.
Proof.
  unfold Fetch.get_match_ids.
  rewrite (match_ids_url_Some client asia_url) by done. simpl.
  apply same_ids. apply string_prefix_app.
Qed.

Lemma get_match_detail_same match_id :
  Fetch.get_match_detail request_match client match_id
  = Fetch.get_match_detail request_match' client match_id.
Proof.
  unfold Fetch.get_match_detail.
  rewrite (match_detail_url_Some client asia_url) by done. simpl.
  apply same_match. apply string_prefix_app.
Qed.

Lemma detail_gameCreation_same match_id :
  Fetch.detail_gameCreation request_match client match_id
  = Fetch.detail_gameCreation request_match' client match_id.
Proof.
  unfold Fetch.detail_gameCreation. by rewrite get_match_detail_same.
Qed.

Lemma newer_ids_same ts batch :
  Fetch.newer_ids request_match client ts batch
  = Fetch.newer_ids request_match' client ts batch.
Proof.
  induction batch as [|id batch IH]; [done|]. simpl.
  by rewrite detail_gameCreation_same, IH.
Qed.

Lemma ids_since_same fuel puuid ts match_ids start :
  Fetch.ids_since request_ids request_match fuel client puuid ts match_ids
    start
  = Fetch.ids_since request_ids' request_match' fuel client puuid ts
      match_ids start.
Proof.
  revert match_ids start. induction fuel as [|fuel IH];
    intros match_ids start; [done|].
  cbn [Fetch.ids_since]. rewrite get_match_ids_same.
  destruct (Fetch.get_match_ids request_ids' client puuid start 100)
    as [[|id batch]|]; try done.
  rewrite detail_gameCreation_same, newer_ids_same.
  destruct (Fetch.detail_gameCreation request_match' client id); [|done].
  destruct (_ <? ts); [done|]. destruct (_ <? 100); [done|]. apply IH.
Qed.

Lemma fetch_details_same puuid match_ids :
  Fetch.fetch_details request_match client puuid match_ids
  = Fetch.fetch_details request_match' client puuid match_ids.
Proof.
  unfold Fetch.fetch_details. apply list_omap_ext.
  apply Forall2_same_length_lookup. split; [done|].
  intros i id id' Hi Hi'. assert (id' = id) as -> by congruence.
  by rewrite get_match_detail_same.
Qed.

(** X26. [fetch_new_matches] builds its client without the region that
    [main] has read: all its requests go to the URLs of [asia], and what it
    returns does not depend on what the API answers elsewhere. *)
Theorem fetch_new_matches_asia fuel puuid last_update :
  Fetch.fetch_new_matches request_ids request_match timestamp_of fuel puuid
    api_key last_update
  = Fetch.fetch_new_matches request_ids' request_match' timestamp_of fuel
      puuid api_key last_update.
Proof.
  unfold Fetch.fetch_new_matches. fold client.
  match goal with
  | |- match ?l with _ => _ end = match ?l' with _ => _ end =>
      assert (l = l') as ->
  end.
  { destruct last_update as [last_update|].
    - destruct (timestamp_of last_update) as [ts|]; [|done].
      apply ids_since_same.
    - apply get_all_match_ids_from_ext. intros start count.
      apply get_match_ids_same. }
  match goal with
  | |- match ?l with _ => _ end = _ => destruct l as [[ids|e]|]
  end; [|done..].
  by rewrite fetch_details_same.
Qed.
End OnlyAsia.

Section FetchNew.
Context (request_ids : string → Z → Z → Fetch.result (list string)).
Context (request_match : string → Fetch.result Riot.RawMatch).
Context (timestamp_of : string → Fetch.result Z).

(** X27. A match that cannot be read or processed does not stop
    [fetch_new_matches]: once the ids are listed, it returns the matches
    that [process_match_data] makes of the answers of the API, in the order
    of the ids, and leaves out the ids for which the request or the
    processing raises, whatever the exception. Nothing is left out when
    every answer is complete. An exception while the ids are listed is
    raised to the caller. *)
Theorem fetch_new_matches_skips fuel puuid api_key :
  let client := Fetch.new_client api_key "jp1" in
  let listed :=
    Fetch.get_all_match_ids (Fetch.get_match_ids request_ids client) fuel
      puuid in
  let fetched :=
    Fetch.fetch_new_matches request_ids request_match timestamp_of fuel
      puuid api_key None in
  (∀ ids, listed = Some (Fetch.Ok ids) →
     ∃ matches,
       fetched = Some (Fetch.Ok matches) ∧
       (∃ kept,
          kept `sublist_of` ids ∧
          Forall2 (λ id m,
                     ∃ raw_match,
                       Fetch.get_match_detail request_match client id
                       = Fetch.Ok raw_match ∧
                       Fetch.process_match_data raw_match puuid = Fetch.Ok m)
            kept matches) ∧
       (∀ m, m ∈ matches ↔
             ∃ id raw_match,
               id ∈ ids ∧
               Fetch.get_match_detail request_match client id
               = Fetch.Ok raw_match ∧
               Fetch.process_match_data raw_match puuid = Fetch.Ok m) ∧
       (Forall (λ id, ∃ raw_match,
                  Fetch.get_match_detail request_match client id
                  = Fetch.Ok raw_match ∧
                  complete_match raw_match puuid) ids →
        length matches = length ids)) ∧
  (∀ e, listed = Some (Fetch.Raise e) → fetched = Some (Fetch.Raise e)) ∧
  (listed = None → fetched = None).
Proof.
  intros client listed fetched. unfold fetched, Fetch.fetch_new_matches.
  fold client. fold listed. split_and!; [|by intros e ->|by intros ->].
  intros ids ->. eexists. split; [reflexivity|].
  unfold Fetch.fetch_details.
  set (f := λ match_id : string,
         match
           Fetch.get_match_detail request_match client match_id
           ≫= λ raw_match, Fetch.process_match_data raw_match puuid
         with
         | Fetch.Ok match_data => Some match_data
         | Fetch.Raise _ => None
         end).
  assert (∀ id m, f id = Some m ↔
    ∃ raw_match,
      Fetch.get_match_detail request_match client id = Fetch.Ok raw_match ∧
      Fetch.process_match_data raw_match puuid = Fetch.Ok m) as Hf.
  { intros id m. unfold f.
    destruct (Fetch.get_match_detail request_match client id) as [raw|];
      simpl.
    - destruct (Fetch.process_match_data raw puuid) as [m'|] eqn:Hm.
      + split; [intros [= <-]; eauto|]. intros (? & [= <-] & ?). congruence.
      + split; [done|]. intros (? & [= <-] & ?). congruence.
    - split; [done|]. by intros (? & ? & _). }
  split_and!.
  - induction ids as [|id ids (kept & Hsub & Hkept)].
    { exists []. by split; [|constructor]. }
    cbn [omap list_omap]. fold (omap f ids).
    destruct (f id) as [m|] eqn:Hm.
    + exists (id :: kept). split; [by apply sublist_skip|].
      constructor; [by apply Hf|done].
    + exists kept. split; [by apply sublist_cons|done].
  - intros m. rewrite list_elem_of_omap. split.
    + intros (id & Hid & (raw & ? & ?)%Hf). eauto.
    + intros (id & raw & Hid & ? & ?). exists id. split; [done|].
      apply Hf. eauto.
  - induction 1 as [|id ids (raw & Hraw & Hcomplete) _ IH]; [done|].
    cbn [omap list_omap length]. fold (omap f ids).
    apply complete_match_processed in Hcomplete as [m Hm].
    assert (f id = Some m) as -> by (apply Hf; eauto).
    simpl. by rewrite IH.
Qed.
End FetchNew.

Section Update.
Context (request_ids : string → Z → Z → Fetch.result (list string)).
Context (request_match : string → Fetch.result Riot.RawMatch).

(** On a page whose first match is older than the last update, the loop
    over the page stops at that match. *)
Lemma newer_ids_first_older self ts first batch t :
  Fetch.detail_gameCreation request_match self first = Fetch.Ok t →
  t < ts →
  Fetch.newer_ids request_match self ts (first :: batch) = Fetch.Ok [].
Proof.
  intros Ht Hlt. simpl. rewrite Ht. simpl.
  by destruct (Z.leb_spec ts t); [lia|].
Qed.

Lemma ids_since_pages fuel self puuid ts match_ids (j0 : nat) ids :
  Fetch.ids_since request_ids request_match fuel self puuid ts match_ids
    (100 * Z.of_nat j0)
  = Some (Fetch.Ok ids) →
  ∃ pages,
    ids = match_ids ++ concat pages ∧
    ∀ j page,
      pages !! j = Some page →
      Fetch.get_match_ids request_ids self puuid
        (100 * Z.of_nat (j0 + j)) 100 = Fetch.Ok page ∧
      ∃ first t,
        head page = Some first ∧
        Fetch.detail_gameCreation request_match self first = Fetch.Ok t ∧
        ts ≤ t.
Proof.
  revert match_ids j0. induction fuel as [|fuel IH]; intros match_ids j0;
    [done|].
  cbn [Fetch.ids_since].
  destruct (Fetch.get_match_ids request_ids self puuid (100 * Z.of_nat j0) 100)
    as [[|first batch]|] eqn:Hbatch; [| |done].
  { intros [= <-]. exists []. split; [by rewrite app_nil_r|].
    intros j page Hj. by rewrite lookup_nil in Hj. }
  destruct (Fetch.detail_gameCreation request_match self first) as [t|]
    eqn:Ht; [|done].
  destruct (Z.ltb_spec t ts) as [Hold|Hnew].
  { rewrite (newer_ids_first_older _ _ _ _ _ Ht Hold).
    intros [= <-]. exists []. split; [done|].
    intros j page Hj. by rewrite lookup_nil in Hj. }
  assert (∀ j page,
    [first :: batch] !! j = Some page →
    Fetch.get_match_ids request_ids self puuid
      (100 * Z.of_nat (j0 + j)) 100 = Fetch.Ok page ∧
    ∃ first t,
      head page = Some first ∧
      Fetch.detail_gameCreation request_match self first = Fetch.Ok t ∧
      ts ≤ t) as Hpage.
  { intros [|j] page; [|by simpl; rewrite lookup_nil]. intros [= <-].
    rewrite Nat.add_0_r. split; [done|]. exists first, t. done. }
  destruct (Z.of_nat (length (first :: batch)) <? 100).
  { intros [= <-]. exists [first :: batch]. split; [|done].
    simpl. by rewrite app_nil_r. }
  replace (100 * Z.of_nat j0 + 100) with (100 * Z.of_nat (S j0)) by lia.
  intros (pages & -> & Hpages)%IH.
  exists ((first :: batch) :: pages). split.
  { simpl. by rewrite <- app_assoc. }
  intros [|j] page Hj.
  - by apply (Hpage 0%nat).
  - replace (j0 + S j)%nat with (S j0 + j)%nat by lia. by apply Hpages.
Qed.

(** X28. The update takes the ids by pages: what it lists is made of the
    pages that the API returns one after the other, each with a first
    match that is not older than the last update, taken whole, with the
    older matches that may follow in it. Of the page where the loop meets
    a first match that is older, nothing is taken: the loop over its ids
    stops at the first one. *)
Theorem update_takes_pages fuel self puuid ts ids :
  (Fetch.ids_since request_ids request_match fuel self puuid ts [] 0
   = Some (Fetch.Ok ids) →
   ∃ pages,
     ids = concat pages ∧
     ∀ j page,
       pages !! j = Some page →
       Fetch.get_match_ids request_ids self puuid (100 * Z.of_nat j) 100
       = Fetch.Ok page ∧
       ∃ first t,
         head page = Some first ∧
         Fetch.detail_gameCreation request_match self first = Fetch.Ok t ∧
         ts ≤ t) ∧
  (∀ first batch t,
     Fetch.detail_gameCreation request_match self first = Fetch.Ok t →
     t < ts →
     Fetch.newer_ids request_match self ts (first :: batch) = Fetch.Ok []).
Proof.
  split; [|by intros; eapply newer_ids_first_older].
  intros H. by apply (ids_since_pages fuel self puuid ts [] 0%nat) in H.
Qed.
End Update.

(** * The theorems above at the sample data *)

Example process_match_data_example :
  Fetch.process_match_data (sample_raw_match "JP1_3" 1793200000000) "me"
  = Fetch.Ok sample_stored_match.
Proof. reflexivity. Qed.

Example fetch_new_matches_examples :
  let client := Fetch.new_client "RGAPI-key" "jp1" in
  (* all the matches: the third one is not found and is left out *)
  (matchIds
     (Fetch.fetch_new_matches sample_request_ids sample_request_match
        sample_timestamp_of 1 "me" "RGAPI-key" None)
   = Some (Fetch.Ok ["JP1_3"; "JP1_2"])) ∧
  (* an update: the first match of the page is not older, and the page is
     taken whole *)
  Fetch.ids_since sample_request_ids sample_request_match 1 client "me"
    1793145600000 [] 0
  = Some (Fetch.Ok ["JP1_3"; "JP1_2"; "JP1_1"]) ∧
  (* an update after the last match: nothing is taken *)
  Fetch.ids_since sample_request_ids sample_request_match 1 client "me"
    1793300000000 [] 0
  = Some (Fetch.Ok []) ∧
  (* a last update that is not a date *)
  Fetch.fetch_new_matches sample_request_ids sample_request_match
    sample_timestamp_of 1 "me" "RGAPI-key" (Some "yesterday")
  = Some (Fetch.Raise Fetch.BuiltinValueError) ∧
  (* the loop is still running *)
  Fetch.fetch_new_matches sample_request_ids sample_request_match
    sample_timestamp_of 0 "me" "RGAPI-key" None
  = None.
Proof. by vm_compute. Qed.

Lemma filter_matches_idempotent_witness :
  filter_matches utc_timestamp_ms wednesday sample_matches "last_7_days" "420"
  = Py.Ok [week_old_match ahri_win] ∧
  [week_old_match ahri_win] `sublist_of` sample_matches ∧
  filter_matches utc_timestamp_ms wednesday [week_old_match ahri_win]
    "last_7_days" "420"
  = Py.Ok [week_old_match ahri_win].
Proof.
  assert (filter_matches utc_timestamp_ms wednesday sample_matches
            "last_7_days" "420" = Py.Ok [week_old_match ahri_win]) as Hf
    by reflexivity.
  split; [exact Hf|].
  exact (filter_matches_idempotent utc_timestamp_ms wednesday sample_matches
           "last_7_days" "420" [week_old_match ahri_win] Hf).
Defined.

Lemma filter_matches_commute_witness :
  Forall has_keys sample_matches ∧
  ∃ by_period by_mode,
    filter_matches utc_timestamp_ms wednesday sample_matches "patch_14.30"
      "all" = Py.Ok by_period ∧
    filter_matches utc_timestamp_ms wednesday sample_matches "all" "420"
    = Py.Ok by_mode ∧
    filter_matches utc_timestamp_ms wednesday by_period "all" "420"
    = filter_matches utc_timestamp_ms wednesday sample_matches "patch_14.30"
        "420" ∧
    filter_matches utc_timestamp_ms wednesday by_mode "patch_14.30" "all"
    = filter_matches utc_timestamp_ms wednesday sample_matches "patch_14.30"
        "420".
Proof.
  assert (Forall has_keys sample_matches) as Hms.
  { repeat (apply Forall_cons; split; [split; [by eexists|done]|]).
    constructor. }
  split; [exact Hms|].
  exact (filter_matches_commute utc_timestamp_ms wednesday sample_matches
           "patch_14.30" "420" Hms).
Defined.

Lemma filter_by_queue_witness :
  Py.int " ４_20 " = Some 420 ∧
  Forall (λ m, queueId m ≠ Absent) sample_matches ∧
  filter_matches utc_timestamp_ms wednesday sample_matches "all" " ４_20 "
  = Py.Ok (List.filter (has_queue 420) sample_matches).
Proof.
  assert (Py.int " ４_20 " = Some 420) as Hq by (by vm_compute).
  assert (Forall (λ m, queueId m ≠ Absent) sample_matches) as Hms.
  { repeat (apply Forall_cons; split; [done|]). constructor. }
  split; [exact Hq|]. split; [exact Hms|].
  exact (proj1 (filter_by_queue utc_timestamp_ms wednesday sample_matches
                  " ４_20 " 420 Hq) Hms).
Defined.

Lemma period_windows_witness :
  utc_timestamp_ms (minus_days wednesday 7)
  ≤ utc_timestamp_ms (at_midnight (minus_days wednesday (weekday wednesday))) ∧
  utc_timestamp_ms (minus_days wednesday 30)
  ≤ utc_timestamp_ms (minus_days wednesday 7) ∧
  ∃ this_week last_7_days last_30_days,
    filter_matches utc_timestamp_ms wednesday sample_matches "this_week" "all"
    = Py.Ok this_week ∧
    filter_matches utc_timestamp_ms wednesday sample_matches "last_7_days"
      "all" = Py.Ok last_7_days ∧
    filter_matches utc_timestamp_ms wednesday sample_matches "last_30_days"
      "all" = Py.Ok last_30_days ∧
    this_week `sublist_of` last_7_days ∧
    last_7_days `sublist_of` last_30_days.
Proof.
  assert (utc_timestamp_ms (minus_days wednesday 7)
          ≤ utc_timestamp_ms
              (at_midnight (minus_days wednesday (weekday wednesday))))
    as H7 by (vm_compute; discriminate).
  assert (utc_timestamp_ms (minus_days wednesday 30)
          ≤ utc_timestamp_ms (minus_days wednesday 7))
    as H30 by (vm_compute; discriminate).
  split; [exact H7|]. split; [exact H30|].
  destruct (period_windows utc_timestamp_ms wednesday sample_matches)
    as (this_week & last_week & last_7_days & last_30_days & Hw & _ & Hd7
        & Hd30 & _ & Hsub7 & Hsub30).
  exists this_week, last_7_days, last_30_days.
  exact (conj Hw (conj Hd7 (conj Hd30 (conj (Hsub7 H7) (Hsub30 H30))))).
Defined.

Lemma recent_matches_again_witness :
  0 ≤ 1 ≤ 2 ∧
  get_recent_matches (get_recent_matches sample_matches 2) 1
  = get_recent_matches sample_matches 1.
Proof.
  assert (0 ≤ 1 ≤ 2) as H by lia. split; [exact H|].
  exact (recent_matches_again sample_matches 1 2 H).
Defined.

Lemma available_lists_extensional_witness :
  (∀ m, m ∈ sample_matches ↔ m ∈ sample_matches ++ sample_matches) ∧
  get_available_patches sample_matches
  = get_available_patches (sample_matches ++ sample_matches) ∧
  get_available_modes sample_matches
  = get_available_modes (sample_matches ++ sample_matches).
Proof.
  assert (∀ m, m ∈ sample_matches
               ↔ m ∈ sample_matches ++ sample_matches) as H.
  { intros m. rewrite elem_of_app. tauto. }
  split; [exact H|].
  exact (available_lists_extensional sample_matches
           (sample_matches ++ sample_matches) H).
Defined.

Lemma available_patch_selects_witness :
  "14.30" ∈ get_available_patches sample_matches ∧
  Py.contains "patch_" "14.30" = false ∧
  Forall (λ m, is_Some (gameVersion m)) sample_matches ∧
  ∃ filtered m,
    filter_matches utc_timestamp_ms wednesday sample_matches "patch_14.30"
      "all" = Py.Ok filtered ∧
    m ∈ filtered ∧ patch_of m = Some "14.30".
Proof.
  assert ("14.30" ∈ get_available_patches sample_matches) as Hp.
  { assert (get_available_patches sample_matches = ["14.30"; "14.3"]) as ->
      by (by vm_compute).
    apply elem_of_cons. by left. }
  assert (Py.contains "patch_" "14.30" = false) as Hc by reflexivity.
  assert (Forall (λ m, is_Some (gameVersion m)) sample_matches) as Hms.
  { repeat (apply Forall_cons; split; [by eexists|]). constructor. }
  split; [exact Hp|]. split; [exact Hc|]. split; [exact Hms|].
  exact (proj1 (available_patch_selects utc_timestamp_ms wednesday
                  sample_matches "14.30") Hp Hc Hms).
Defined.

Lemma available_mode_selects_witness :
  let e := mode_of 420 in
  get_available_modes sample_matches = Py.Ok [e] ∧
  e ∈ [e] ∧
  Forall (λ m, queueId m ≠ Absent) sample_matches ∧
  ∃ q,
    mode_id e = Py.str q ∧ Py.int (mode_id e) = Some q ∧
    filter_matches utc_timestamp_ms wednesday sample_matches "all" (mode_id e)
    = Py.Ok (List.filter (has_queue q) sample_matches) ∧
    List.filter (has_queue q) sample_matches ≠ [].
Proof.
  intros e.
  assert (get_available_modes sample_matches = Py.Ok [e]) as Hmodes
    by (by vm_compute).
  assert (e ∈ [e]) as He by (apply elem_of_cons; by left).
  assert (Forall (λ m, queueId m ≠ Absent) sample_matches) as Hms.
  { repeat (apply Forall_cons; split; [done|]). constructor. }
  split; [exact Hmodes|]. split; [exact He|]. split; [exact Hms|].
  exact (available_mode_selects utc_timestamp_ms wednesday sample_matches
           [e] e Hmodes He Hms).
Defined.

Lemma modes_distinct_witness :
  get_available_modes sample_matches = Py.Ok [mode_of 420] ∧
  NoDup (mode_id <$> [mode_of 420]) ∧
  NoDup (mode_name <$> [mode_of 420]) ∧
  (length [mode_of 420] ≤ length sample_matches)%nat.
Proof.
  assert (get_available_modes sample_matches = Py.Ok [mode_of 420])
    as Hmodes by (by vm_compute).
  split; [exact Hmodes|].
  exact (proj2 (modes_distinct sample_matches) [mode_of 420] Hmodes).
Defined.

Lemma aggregate_groups_witness :
  filter_matches utc_timestamp_ms wednesday tie_matches "all" "all"
  = Py.Ok tie_matches ∧
  calculate_champion_stats utc_timestamp_ms wednesday tie_matches "all" "all"
  = Py.Ok tie_stats ∧
  NoDup (stat_championName <$> tie_stats) ∧
  (∀ n, n ∈ stat_championName <$> tie_stats ↔ n ∈ champion <$> tie_matches) ∧
  Forall (λ s,
    let group := myData <$> group_of (stat_championName s) tie_matches in
    games s = Z.of_nat (length group) ∧
    wins s = Z.of_nat (length (List.filter win group)) ∧
    totalKills s = sum_Z (kills <$> group) ∧
    totalDeaths s = sum_Z (deaths <$> group) ∧
    totalAssists s = sum_Z (assists <$> group)) tie_stats.
Proof.
  assert (filter_matches utc_timestamp_ms wednesday tie_matches "all" "all"
          = Py.Ok tie_matches) as Hf by reflexivity.
  assert (calculate_champion_stats utc_timestamp_ms wednesday tie_matches
            "all" "all" = Py.Ok tie_stats) as Hout by (by vm_compute).
  split; [exact Hf|]. split; [exact Hout|].
  exact (aggregate_groups utc_timestamp_ms wednesday tie_matches "all" "all"
           tie_matches tie_stats Hf Hout).
Defined.

Lemma aggregate_exact_edges_witness :
  calculate_champion_stats utc_timestamp_ms wednesday tie_matches "all" "all"
  = Py.Ok tie_stats ∧
  Forall (λ s,
    (totalDeaths s = 0%Z → (0 ≤ totalKills s + totalAssists s < 2 ^ 52)%Z →
     avgKDA s = inject_Z (totalKills s + totalAssists s)) ∧
    (wins s = games s → winRate s = Py.Float 100%Q) ∧
    (wins s = 0%Z → winRate s = Py.Float 0%Q)) tie_stats.
Proof.
  assert (calculate_champion_stats utc_timestamp_ms wednesday tie_matches
            "all" "all" = Py.Ok tie_stats) as Hout by (by vm_compute).
  split; [exact Hout|].
  exact (aggregate_exact_edges utc_timestamp_ms wednesday tie_matches "all"
           "all" tie_stats Hout).
Defined.

Lemma format_duration_inj_witness :
  Utils.format_duration 125 = Some "2分05秒" ∧
  Utils.format_duration (60 * 2 + 5) = Some "2分05秒" ∧
  (125 = 60 * 2 + 5)%Z.
Proof.
  assert (Utils.format_duration 125 = Some "2分05秒") as Ha
    by (by vm_compute).
  assert (Utils.format_duration (60 * 2 + 5) = Some "2分05秒") as Hb
    by (by vm_compute).
  split; [exact Ha|]. split; [exact Hb|].
  exact (format_duration_inj 125 (60 * 2 + 5) "2分05秒" Ha Hb).
Defined.

Lemma format_duration_shape_witness :
  (Py.count_digits (Py.str (3661 `div` 60)) ≤ Py.max_str_digits)%nat ∧
  ∃ d1 d2 s1 s2,
    Utils.format_duration 3661
    = Some (Py.str (3661 `div` 60) +:+ "分"
            +:+ String d1 (String d2 "秒")) ∧
    Py.digit_value d1 = Some s1 ∧ Py.digit_value d2 = Some s2 ∧
    (0 ≤ 10 * s1 + s2 < 60)%Z ∧
    (3661 = 60 * (3661 `div` 60) + (10 * s1 + s2))%Z.
Proof.
  assert (Py.count_digits (Py.str (3661 `div` 60)) ≤ Py.max_str_digits)%nat
    as H by (vm_compute; lia).
  split; [exact H|].
  exact (proj1 (format_duration_shape 3661) H).
Defined.


Lemma process_match_data_shape_witness :
  Fetch.process_match_data (sample_raw_match "JP1_3" 1793200000000) "me"
  = Fetch.Ok sample_stored_match ∧
  let my_data := Fetch.myData sample_stored_match in
  runes_shape (Fetch.my_runes my_data) ∧
  (length (Fetch.my_items my_data) ≤ 7)%nat ∧
  Forall (λ i, (0 < Fetch.itemId i)%Z ∧ Fetch.timestamp i = 0%Z)
    (Fetch.my_items my_data) ∧
  Forall (λ player,
            runes_shape (Fetch.runes player) ∧
            (length (Fetch.items player) ≤ 7)%nat ∧
            Forall (λ item_id, (0 < item_id)%Z) (Fetch.items player))
    (Fetch.allPlayers sample_stored_match).
Proof.
  assert (Fetch.process_match_data (sample_raw_match "JP1_3" 1793200000000)
            "me" = Fetch.Ok sample_stored_match) as H by reflexivity.
  split; [exact H|].
  exact (process_match_data_shape (sample_raw_match "JP1_3" 1793200000000)
           "me" sample_stored_match H).
Defined.

Lemma process_match_data_players_witness :
  let raw_match := sample_raw_match "JP1_3" 1793200000000 in
  let match_data := sample_stored_match in
  Fetch.process_match_data raw_match "me" = Fetch.Ok match_data ∧
  ∃ info participants i my_participant player,
    Riot.info raw_match = Some info ∧
    Riot.participants info = Some participants ∧
    Forall2 stored_as participants (Fetch.allPlayers match_data) ∧
    participants !! i = Some my_participant ∧
    Riot.puuid my_participant = Some "me" ∧
    (∀ j q, (j < i)%nat → participants !! j = Some q →
            Riot.puuid q ≠ Some "me") ∧
    stored_as_mine my_participant (Fetch.myData match_data) ∧
    Fetch.allPlayers match_data !! i = Some player ∧
    Fetch.championName player
    = Fetch.my_championName (Fetch.myData match_data) ∧
    Fetch.kills player = Fetch.my_kills (Fetch.myData match_data) ∧
    Fetch.deaths player = Fetch.my_deaths (Fetch.myData match_data) ∧
    Fetch.assists player = Fetch.my_assists (Fetch.myData match_data) ∧
    Fetch.totalDamageDealtToChampions player
    = Fetch.my_totalDamageDealtToChampions (Fetch.myData match_data) ∧
    Fetch.totalDamageTaken player
    = Fetch.my_totalDamageTaken (Fetch.myData match_data).
Proof.
  intros raw_match match_data.
  assert (Fetch.process_match_data raw_match "me" = Fetch.Ok match_data)
    as H by reflexivity.
  split; [exact H|].
  exact (process_match_data_players raw_match "me" match_data H).
Defined.

Lemma process_match_data_returns_witness :
  (∃ match_data,
     Fetch.process_match_data (sample_raw_match "JP1_3" 1793200000000) "me"
     = Fetch.Ok match_data) ∧
  complete_match (sample_raw_match "JP1_3" 1793200000000) "me".
Proof.
  assert (∃ match_data,
            Fetch.process_match_data
              (sample_raw_match "JP1_3" 1793200000000) "me"
            = Fetch.Ok match_data) as H
    by (exists sample_stored_match; reflexivity).
  split; [exact H|].
  exact (proj1 (process_match_data_returns
                  (sample_raw_match "JP1_3" 1793200000000) "me") H).
Defined.

Lemma request_rate_limited_witness :
  let script : list (Fetch.Attempt (J := Z)) :=
    [ Fetch.Got {| Fetch.status_code := 200; Fetch.retry_after := None;
                   Fetch.text := "7"; Fetch.json := inr 7%Z |}
        19867000000000 ] in
  retry_after_seconds (Some "1") = Some 1%Z ∧
  (0 ≤ 1 ≤ 9223372036)%Z ∧
  (19867000000000 + 1 * 10 ^ 9 < 2 ^ 63)%Z ∧
  let run :=
    Fetch._request "u"
      (replicate 2 (rate_limited (Some "1") 19867000000000) ++ script) in
  let after := Fetch._request "u" script in
  Fetch.outcome run = Fetch.outcome after ∧
  Fetch.sleeps run = replicate 2 (inject_Z 1) ++ Fetch.sleeps after ∧
  Fetch.requests run = (2 + Fetch.requests after)%nat ∧
  (script = [] → Fetch.outcome run = None).
Proof.
  intros script.
  assert (retry_after_seconds (Some "1") = Some 1%Z) as Hh by reflexivity.
  assert (0 ≤ 1 ≤ 9223372036)%Z as Hs by lia.
  assert (19867000000000 + 1 * 10 ^ 9 < 2 ^ 63)%Z as Hsum by reflexivity.
  split; [exact Hh|]. split; [exact Hs|]. split; [exact Hsum|].
  exact (proj1 (request_rate_limited "u" 2 (Some "1") 19867000000000 1%Z
                  script) Hh Hs Hsum).
Defined.


Lemma get_all_match_ids_complete_witness :
  serves sample_get_match_ids "me" sample_ids ∧
  Fetch.get_all_match_ids sample_get_match_ids 1 "me"
  = if decide (length sample_ids / 100 < 1)%nat
    then Some (Fetch.Ok sample_ids) else None.
Proof.
  assert (serves sample_get_match_ids "me" sample_ids) as H
    by (intros start count _ _; reflexivity).
  split; [exact H|].
  exact (proj1 (get_all_match_ids_complete sample_get_match_ids "me"
                  sample_ids 1) H).
Defined.

Lemma fetch_new_matches_asia_witness :
  (∀ url start count,
     Py.startswith url asia_url = true →
     sample_request_ids url start count = open_request_ids url start count) ∧
  (∀ url,
     Py.startswith url asia_url = true →
     sample_request_match url = sample_request_match url) ∧
  Fetch.fetch_new_matches sample_request_ids sample_request_match
    sample_timestamp_of 1 "me" "RGAPI-key" None
  = Fetch.fetch_new_matches open_request_ids sample_request_match
      sample_timestamp_of 1 "me" "RGAPI-key" None.
Proof.
  assert (∀ url start count,
            Py.startswith url asia_url = true →
            sample_request_ids url start count
            = open_request_ids url start count) as Hids.
  { intros url start count H. unfold sample_request_ids.
    rewrite H. reflexivity. }
  assert (∀ url,
            Py.startswith url asia_url = true →
            sample_request_match url = sample_request_match url) as Hmatch
    by reflexivity.
  split; [exact Hids|]. split; [exact Hmatch|].
  exact (fetch_new_matches_asia sample_request_ids open_request_ids
           sample_request_match sample_request_match sample_timestamp_of
           "RGAPI-key" Hids Hmatch 1 "me" None).
Defined.

Lemma fetch_new_matches_skips_witness :
  let client := Fetch.new_client "RGAPI-key" "jp1" in
  Fetch.get_all_match_ids
    (Fetch.get_match_ids sample_request_ids client) 1 "me"
  = Some (Fetch.Ok sample_ids) ∧
  ∃ matches,
    Fetch.fetch_new_matches sample_request_ids sample_request_match
      sample_timestamp_of 1 "me" "RGAPI-key" None
    = Some (Fetch.Ok matches) ∧
    (∃ kept,
       kept `sublist_of` sample_ids ∧
       Forall2 (λ id m,
                  ∃ raw_match,
                    Fetch.get_match_detail sample_request_match client id
                    = Fetch.Ok raw_match ∧
                    Fetch.process_match_data raw_match "me" = Fetch.Ok m)
         kept matches) ∧
    (∀ m, m ∈ matches ↔
          ∃ id raw_match,
            id ∈ sample_ids ∧
            Fetch.get_match_detail sample_request_match client id
            = Fetch.Ok raw_match ∧
            Fetch.process_match_data raw_match "me" = Fetch.Ok m) ∧
    (Forall (λ id, ∃ raw_match,
               Fetch.get_match_detail sample_request_match client id
               = Fetch.Ok raw_match ∧
               complete_match raw_match "me") sample_ids →
     length matches = length sample_ids).
Proof.
  intros client.
  assert (Fetch.get_all_match_ids
            (Fetch.get_match_ids sample_request_ids client) 1 "me"
          = Some (Fetch.Ok sample_ids)) as H by (by vm_compute).
  split; [exact H|].
  exact (proj1 (fetch_new_matches_skips sample_request_ids
                  sample_request_match sample_timestamp_of 1 "me"
                  "RGAPI-key") sample_ids H).
Defined.

Lemma update_takes_pages_witness :
  let client := Fetch.new_client "RGAPI-key" "jp1" in
  Fetch.ids_since sample_request_ids sample_request_match 1 client "me"
    1793145600000 [] 0
  = Some (Fetch.Ok sample_ids) ∧
  ∃ pages,
    sample_ids = concat pages ∧
    ∀ j page,
      pages !! j = Some page →
      Fetch.get_match_ids sample_request_ids client "me"
        (100 * Z.of_nat j) 100
      = Fetch.Ok page ∧
      ∃ first t,
        head page = Some first ∧
        Fetch.detail_gameCreation sample_request_match client first
        = Fetch.Ok t ∧
        (1793145600000 ≤ t)%Z.
Proof.
  intros client.
  assert (Fetch.ids_since sample_request_ids sample_request_match 1 client
            "me" 1793145600000 [] 0 = Some (Fetch.Ok sample_ids)) as H
    by (by vm_compute).
  split; [exact H|].
  exact (proj1 (update_takes_pages sample_request_ids sample_request_match 1
                  client "me" 1793145600000 sample_ids) H).
Defined.
